(** * mediaimporter.emby: the Server request layer and the Player
      playback-reporting state machine

    A shallow embedding of [emby/server.py] and [emby/player.py].

    - Python objects become records, [None]-able attributes become
      [option]s, dictionaries keyed by strings become [gmap string _]
      (the provider registry, whose iteration order is observable, is an
      insertion-ordered association list).
    - Wall-clock seconds are exact rationals ([Q]).
    - Methods that mutate [self], log, read the clock or raise are written
      in a small state-and-exception monad; as in Python, the mutations
      made before a [raise] persist.
    - The collaborators that are not part of the two files (the host's
      [xbmc.Player] surface, the import registry, the authenticator, the
      HTTP transport, the clock and the uuid source) are answers read from
      a [Host] record. *)

From Stdlib Require Import QArith.
From Stdlib Require Import String Ascii.
From stdpp Require Import base option strings gmap list.

Close Scope Q_scope.
Open Scope string_scope.

(** ** Python values and strings *)

(** The scalar values that occur in parsed JSON responses and in request
    bodies. *)
Inductive Value :=
| VNone
| VBool (b : bool)
| VNum (q : Q)
| VStr (s : string).

Inductive Exn :=
| ValueError (msg : string)
| KeyError (key : string)
| AttributeError (msg : string)
| RuntimeError (msg : string).

(** The result of a call that may raise. *)
Inductive Res (A : Type) :=
| Ok (a : A)
| Raise (e : Exn).
Arguments Ok {A} a.
Arguments Raise {A} e.

Module Py.

(** [bool(s)] for a [str]. *)
Definition str_truthy (s : string) : bool :=
  match s with EmptyString => false | String _ _ => true end.

(** [bool(x)] for a float. *)
Definition num_truthy (q : Q) : bool := negb (Qeq_bool q 0).

(** [bool(v)]. *)
Definition truthy (v : Value) : bool :=
  match v with
  | VNone => false
  | VBool b => b
  | VNum q => num_truthy q
  | VStr s => str_truthy s
  end.

(** [bool(o)] for an attribute that is [None] or a [str]. *)
Definition opt_str_truthy (o : option string) : bool :=
  match o with Some s => str_truthy s | None => false end.

(** [a or b]. *)
Definition or (a b : Value) : Value := if truthy a then a else b.

(** [a == b]. *)
Definition eq (a b : Value) : bool :=
  match a, b with
  | VNone, VNone => true
  | VBool x, VBool y => Bool.eqb x y
  | VNum x, VNum y => Qeq_bool x y
  | VBool x, VNum y | VNum y, VBool x => Qeq_bool (if x then 1 else 0) y
  | VStr x, VStr y => String.eqb x y
  | _, _ => false
  end.

(** [s.split(sep)] for a one-character separator: always at least one
    piece, empty pieces are kept. *)
Fixpoint split (sep : ascii) (s : string) : list string :=
  match s with
  | EmptyString => [EmptyString]
  | String c s' =>
      if Ascii.eqb c sep then EmptyString :: split sep s'
      else match split sep s' with
           | [] => [String c EmptyString]
           | w :: ws => String c w :: ws
           end
  end.

(** [sep.join(l)]. *)
Definition join (sep : string) (l : list string) : string :=
  String.concat sep l.

(** [s.replace(c, '')] for a one-character [c]. *)
Fixpoint remove (c : ascii) (s : string) : string :=
  match s with
  | EmptyString => EmptyString
  | String d s' => if Ascii.eqb d c then remove c s' else String d (remove c s')
  end.

(** [l[0]] of a list that [split] produced. *)
Definition first (l : list string) : string := hd EmptyString l.

(** [d[k] = v] on an insertion-ordered dictionary: an existing key keeps
    its position. *)
Fixpoint setitem {V} (k : string) (v : V) (d : list (string * V)) : list (string * V) :=
  match d with
  | [] => [(k, v)]
  | (k', v') :: d' =>
      if String.eqb k' k then (k', v) :: d' else (k', v') :: setitem k v d'
  end.

(** [k in d]. *)
Fixpoint contains {V} (k : string) (d : list (string * V)) : bool :=
  match d with
  | [] => false
  | (k', _) :: d' => String.eqb k' k || contains k d'
  end.

(** [d.get(k)]. *)
Fixpoint get {V} (k : string) (d : list (string * V)) : option V :=
  match d with
  | [] => None
  | (k', v') :: d' => if String.eqb k' k then Some v' else get k d'
  end.

(** [del d[k]]; a missing key is a [KeyError]. *)
Fixpoint delitem {V} (k : string) (d : list (string * V)) : Res (list (string * V)) :=
  match d with
  | [] => Raise (KeyError k)
  | (k', v') :: d' =>
      if String.eqb k' k then Ok d'
      else match delitem k d' with
           | Ok r => Ok ((k', v') :: r)
           | Raise e => Raise e
           end
  end.

(** [d.values()]. *)
Definition values {V} (d : list (string * V)) : list V := map snd d.

End Py.

(** ** Constants *)

(** Modelled from the spec: [emby/constants.py] is not among the sources.
    The names are those the two files use; the values are the ones the
    specification gives for the response fields (section 6), the session
    endpoints, the play method and the progress events. The settings keys
    are not given anywhere; they only have to be pairwise distinct. *)
Module constants.
Definition EMBY_PROTOCOL := "emby".
Definition PROPERTY_SYSTEM_INFO_ID := "id".
Definition PROPERTY_SYSTEM_INFO_SERVER_NAME := "ServerName".
Definition PROPERTY_SYSTEM_INFO_VERSION := "Version".
Definition PROPERTY_SYSTEM_INFO_PRODUCT_NAME := "ProductName".
Definition URL_SESSIONS := "Sessions".
Definition URL_SESSIONS_PLAYING := "Playing".
Definition URL_SESSIONS_PLAYING_PROGRESS := "Progress".
Definition URL_SESSIONS_PLAYING_STOPPED := "Stopped".
Definition PLAYING_PLAY_METHOD_DIRECT_STREAM := "DirectStream".
Definition PLAYING_PROGRESS_EVENT_TIME_UPDATE := "TimeUpdate".
Definition PLAYING_PROGRESS_EVENT_PAUSE := "Pause".
Definition PLAYING_PROGRESS_EVENT_UNPAUSE := "Unpause".
Definition SETTING_PROVIDER_DEVICEID := "deviceid".
Definition SETTING_PROVIDER_USER := "user".
Definition SETTING_PROVIDER_USERNAME := "username".
Definition SETTING_PROVIDER_PASSWORD := "password".
Definition SETTING_PROVIDER_USER_OPTION_MANUAL := "manual".
(* The path segments of the other URL builders; the specification names
   only the public-info endpoint [/System/Info/Public]. *)
Definition URL_USERS := "Users".
Definition URL_ITEMS := "Items".
Definition URL_PLAYING_ITEMS := "PlayingItems".
Definition URL_PLAYED_ITEMS := "PlayedItems".
Definition URL_USER_DATA := "UserData".
Definition URL_IMAGES := "Images".
Definition URL_SYSTEM := "System".
Definition URL_SYSTEM_INFO := "Info".
Definition URL_SYSTEM_INFO_PUBLIC := "Public".
End constants.

(** ** lib.utils.Url *)

(** Modelled from the spec: [lib/utils.py] is not among the sources. The
    specification describes the URL builders as pure functions of a base
    URL, path segments and query options: [append] adds each segment after
    a slash, [addOptions] adds the options as a query string. *)
Module Url.

Definition append (url : string) (segments : list string) : string :=
  fold_left (fun u seg => u ++ "/" ++ seg) segments url.

Definition option_str (o : string * string) : string := fst o ++ "=" ++ snd o.

Definition addOptions (url : string) (options : list (string * string)) : string :=
  url ++ "?" ++ Py.join "&" (map option_str options).

End Url.

(** ** lib.semantic_version *)

(** Modelled from the spec: [lib/semantic_version] is not among the
    sources. The specification speaks of a semantic MAJOR.MINOR.PATCH
    version: [Version] accepts exactly three dot-separated, non-empty,
    all-digit components and raises [ValueError] on anything else. *)
Module semantic_version.

Record Version_t := { major : N; minor : N; patch : N }.

Definition digit (c : ascii) : option N :=
  let n := N_of_ascii c in
  if ((48 <=? n) && (n <=? 57))%N then Some (n - 48)%N else None.

Fixpoint digits (acc : N) (s : string) : option N :=
  match s with
  | EmptyString => Some acc
  | String c s' =>
      match digit c with
      | Some d => digits (acc * 10 + d)%N s'
      | None => None
      end
  end.

Definition number (s : string) : option N :=
  match s with
  | EmptyString => None
  | String _ _ => digits 0%N s
  end.

Definition Version (s : string) : Res Version_t :=
  match Py.split "." s with
  | [a; b; c] =>
      match number a, number b, number c with
      | Some x, Some y, Some z => Ok {| major := x; minor := y; patch := z |}
      | _, _, _ => Raise (ValueError ("Invalid version string: " ++ s))
      end
  | _ => Raise (ValueError ("Invalid version string: " ++ s))
  end.

End semantic_version.

(** [Res] is the exception monad of the pure, fallible functions. *)
#[export] Instance Res_ret : MRet Res := fun _ a => Ok a.
#[export] Instance Res_bind : MBind Res := fun _ _ f r =>
  match r with
  | Ok a => f a
  | Raise e => Raise e
  end.

Module Dict.

(** [bool(d)]: a dictionary is falsy when it is empty. *)
Definition truthy {V} (d : gmap string V) : bool := negb (bool_decide (d = ∅)).

(** [k in d]. *)
Definition contains {V} (k : string) (d : gmap string V) : bool :=
  match d !! k with Some _ => true | None => false end.

(** [d[k]]. *)
Definition getitem {V} (d : gmap string V) (k : string) : Res V :=
  match d !! k with Some v => Ok v | None => Raise (KeyError k) end.

(** [d.update(e)]: the entries of [e] win. *)
Definition update {V} (d e : gmap string V) : gmap string V := e ∪ d.

End Dict.

(** ** emby/server.py: Server.Info *)

Module Info.

Definition EMBY_SERVER := "Emby Server".
Definition JELLYFIN_SERVER := "Jellyfin Server".

Record t := {
  id : Value;
  name : Value;
  version : semantic_version.Version_t;
  product : Value
}.

(** [Info.__init__(self, id, name, version, product=None)] *)
Definition __init__ (id name : Value) (version : semantic_version.Version_t)
    (product : Value) : Res t :=
  if negb (Py.truthy id) then Raise (ValueError "invalid id")
  else Ok {| id := id; name := name; version := version;
             product := Py.or product (VStr EMBY_SERVER) |}.

Definition isEmbyServer (self : t) : bool := Py.eq (product self) (VStr EMBY_SERVER).

Definition isJellyfinServer (self : t) : bool := Py.eq (product self) (VStr JELLYFIN_SERVER).

Definition isUnknown (self : t) : bool :=
  negb (isEmbyServer self) && negb (isJellyfinServer self).

(** [x.split('.')]: only a [str] has the method. *)
Definition split_version (v : Value) : Res (list string) :=
  match v with
  | VStr s => Ok (Py.split "." s)
  | _ => Raise (AttributeError "split")
  end.

(** [Info.fromPublicInfo(response)]; [None] is the absent response. The
    outer [Res] is a raised exception, the inner [option] is the value
    returned ([None] or an [Info]). *)
Definition fromPublicInfo (response : option (gmap string Value)) : Res (option t) :=
  match response with
  | None => Ok None
  | Some response =>
      if negb (Dict.truthy response)
         || negb (Dict.contains constants.PROPERTY_SYSTEM_INFO_ID response)
         || negb (Dict.contains constants.PROPERTY_SYSTEM_INFO_SERVER_NAME response)
         || negb (Dict.contains constants.PROPERTY_SYSTEM_INFO_VERSION response)
      then Ok None
      else
        ver ← Dict.getitem response constants.PROPERTY_SYSTEM_INFO_VERSION;
        versions ← split_version ver;
        productName ←
          (if Dict.contains constants.PROPERTY_SYSTEM_INFO_PRODUCT_NAME response
           then Dict.getitem response constants.PROPERTY_SYSTEM_INFO_PRODUCT_NAME
           else Ok VNone);
        id ← Dict.getitem response constants.PROPERTY_SYSTEM_INFO_ID;
        name ← Dict.getitem response constants.PROPERTY_SYSTEM_INFO_SERVER_NAME;
        version ← semantic_version.Version (Py.join "." (take 3 versions));
        info ← __init__ id name version productName;
        Ok (Some info)
  end.

End Info.

(** ** The collaborators *)

(** A media provider of the host ([xbmcmediaimport.MediaProvider]): an
    identifier, a base path and a settings bag that may be missing. *)
Record MediaProvider := {
  getIdentifier : string;
  getBasePath : string;
  getSettings : option (gmap string string)
}.

(** [settings.getString(key)] *)
Definition getString (settings : gmap string string) (key : string) : string :=
  default EmptyString (settings !! key).

(** Modelled from the spec: [emby/authenticator.py] is not among the
    sources. Section 6 of the specification gives its interface:
    [isAuthenticated() -> bool], [authenticate() -> bool],
    [accessToken()], [userId()]. The model holds the credentials of the
    current session, if any, and the credentials the remote server would
    grant to a fresh authentication, if it would grant any. *)
Module Authenticator.

Record Credentials := { accessToken : string; userId : string }.

Record t := {
  session : option Credentials;
  grant : option Credentials
}.

Definition IsAuthenticated (a : t) : bool :=
  match session a with Some _ => true | None => false end.

Definition Authenticate (a : t) : bool * t :=
  match grant a with
  | Some c => (true, {| session := Some c; grant := grant a |})
  | None => (false, a)
  end.

Definition AccessToken (a : t) : option string := accessToken <$> session a.

Definition UserId (a : t) : option string := userId <$> session a.

End Authenticator.

(** Modelled from the spec: [emby/request.py] is not among the sources.
    The transport performs GET, POST and DELETE with headers and a JSON
    body and answers with parsed JSON or a failure; the headers of an API
    call are built from an access token, a user id and a device id. *)
Module Request.

Record Headers := {
  authToken : option string;
  userId : option string;
  deviceId : option string
}.

Definition PrepareApiCallHeaders (authToken userId deviceId : option string) : Headers :=
  {| authToken := authToken; userId := userId; deviceId := deviceId |}.

Inductive Call :=
| GetAsJson (url : string) (headers : Headers)
| PostAsJson (url : string) (headers : Headers) (body : gmap string Value)
| Delete (url : string) (headers : Headers).

(** What the transport hands back: a JSON object, or [None]. *)
Definition Response := option (gmap string Value).

End Request.

(** What an [Api*] method returns: the value [False], or whatever the
    transport answered. *)
Inductive ApiResult :=
| PyFalse
| Answer (r : Request.Response).


Inductive LogLevel := LOGDEBUG | LOGINFO | LOGWARNING | LOGERROR.

(** One call of [lib.utils.log]; [level = None] is a call that passes no
    level and so gets whatever default [log] has. *)
Record LogEntry := { message : string; level : option LogLevel }.

Record InfoTagVideo := { uniqueIDs : gmap string string }.

(** [tag.getUniqueID(key)]; an unknown key gives the empty string. *)
Definition getUniqueID (tag : InfoTagVideo) (key : string) : string :=
  default EmptyString (uniqueIDs tag !! key).

(** An imported item ([xbmcgui.ListItem]). *)
Record ListItem := {
  getLabel : string;
  getVideoInfoTag : option InfoTagVideo
}.

(** The answers the surroundings give while one callback runs. *)
Record Host := {
  (* xbmc.Player *)
  getPlayingFile : string;
  isPlayingVideo : bool;
  playingVideoInfoTag : option InfoTagVideo;
  getTime : option Q;       (* None: the call raises *)
  getTotalTime : option Q;  (* None: the call raises *)
  (* xbmcmediaimport *)
  getImportedItemsByProvider : MediaProvider -> list ListItem;
  (* uuid, time *)
  uuid4 : string;
  time_time : nat -> Q;     (* the n-th reading of the clock *)
  (* emby.authenticator, emby.request *)
  WithUsername : string -> string -> string -> string -> Authenticator.t;
  WithUserId : string -> string -> string -> string -> Authenticator.t;
  transport : Request.Call -> Request.Response
}.

(** What the program has done to its surroundings so far. *)
Record World := {
  logged : list LogEntry;
  requests : list Request.Call;
  clockReads : nat
}.

(** ** The monad of the methods *)

(** A method of an object of type [S]: it may change the object and the
    world, and it returns or raises. *)
Definition M (S A : Type) : Type := S -> World -> Res A * S * World.

Definition ret {S A} (a : A) : M S A := fun s w => (Ok a, s, w).

Definition bind {S A B} (m : M S A) (k : A -> M S B) : M S B :=
  fun s w =>
    match m s w with
    | (Ok a, s', w') => k a s' w'
    | (Raise e, s', w') => (Raise e, s', w')
    end.

Definition raise {S A} (e : Exn) : M S A := fun s w => (Raise e, s, w).

(** A pure, fallible computation inside a method. *)
Definition lift {S A} (r : Res A) : M S A := fun s w => (r, s, w).

(** Read [self]. *)
Definition self {S} : M S S := fun s w => (Ok s, s, w).

(** Assign to attributes of [self]. *)
Definition assign {S} (f : S -> S) : M S unit := fun s w => (Ok tt, f s, w).

(** [log(message)] and [log(message, level)] *)
Definition log {S} (message : string) (level : option LogLevel) : M S unit :=
  fun s w =>
    (Ok tt, s,
     {| logged := logged w ++ [{| message := message; level := level |}];
        requests := requests w; clockReads := clockReads w |}).

(** A call that reaches the transport. *)
Definition send {S} (h : Host) (c : Request.Call) : M S Request.Response :=
  fun s w =>
    (Ok (transport h c), s,
     {| logged := logged w; requests := requests w ++ [c];
        clockReads := clockReads w |}).

(** [time.time()] *)
Definition now {S} (h : Host) : M S Q :=
  fun s w =>
    (Ok (time_time h (clockReads w)), s,
     {| logged := logged w; requests := requests w;
        clockReads := Datatypes.S (clockReads w) |}).

(** A method call on another object [o]; the object is a temporary, its
    final state is dropped. *)
Definition on {S T A} (o : T) (m : M T A) : M S A :=
  fun s w => let '(r, _, w') := m o w in (r, s, w').

Declare Scope method_scope.
Delimit Scope method_scope with M.
Notation "x <- m ;; k" := (bind m (fun x => k))
  (at level 100, m at next level, right associativity) : method_scope.
Notation "m ;; k" := (bind m (fun _ => k))
  (at level 100, right associativity) : method_scope.

(** ** emby/server.py: Server *)

Module Server.

Record t := {
  _baseUrl : string;
  _url : string;
  _id : string;
  _devideId : string;
  _authenticator : Authenticator.t
}.

Definition set_authenticator (a : Authenticator.t) (s : t) : t :=
  {| _baseUrl := _baseUrl s; _url := _url s; _id := _id s;
     _devideId := _devideId s; _authenticator := a |}.

(** The double-quote character of the message of [BuildPlayableItemUrl]. *)
Definition dquote : string := String "034"%char EmptyString.

Section WithHost.

Variable h : Host.

(** [Server.__init__(self, provider)] *)
Definition __init__ (provider : option MediaProvider) : Res t :=
  match provider with
  | None => Raise (ValueError "Invalid provider")
  | Some provider =>
      let baseUrl := getBasePath provider in
      let url := Url.append baseUrl [constants.EMBY_PROTOCOL] in
      let id := getIdentifier provider in
      match getSettings provider with
      | None => Raise (ValueError "Invalid provider without settings")
      | Some settings =>
          let devideId := getString settings constants.SETTING_PROVIDER_DEVICEID in
          let userId := getString settings constants.SETTING_PROVIDER_USER in
          let username := getString settings constants.SETTING_PROVIDER_USERNAME in
          let password := getString settings constants.SETTING_PROVIDER_PASSWORD in
          let authenticator :=
            if String.eqb userId constants.SETTING_PROVIDER_USER_OPTION_MANUAL
            then WithUsername h url devideId username password
            else WithUserId h url devideId userId password in
          Ok {| _baseUrl := baseUrl; _url := url; _id := id;
                _devideId := devideId; _authenticator := authenticator |}
      end
  end.

Open Scope method_scope.

(** [return self._authenticator.IsAuthenticated() or
    self._authenticator.Authenticate()] *)
Definition Authenticate : M t bool :=
  s <- self ;;
  if Authenticator.IsAuthenticated (_authenticator s) then ret true
  else
    let '(ok, a) := Authenticator.Authenticate (_authenticator s) in
    assign (set_authenticator a) ;;
    ret ok.

Definition Url : M t string := s <- self ;; ret (_baseUrl s).

Definition DeviceId : M t string := s <- self ;; ret (_devideId s).

Definition AccessToken : M t (option string) :=
  s <- self ;; ret (Authenticator.AccessToken (_authenticator s)).

Definition UserId : M t (option string) :=
  s <- self ;; ret (Authenticator.UserId (_authenticator s)).

Definition _authenticate : M t bool :=
  ok <- Authenticate ;;
  if negb ok then
    s <- self ;;
    log ("user authentication failed on media provider " ++ _id s) None ;;
    ret false
  else ret true.

(** The headers every authenticated call carries. *)
Definition apiCallHeaders : M t Request.Headers :=
  authToken <- AccessToken ;;
  userId <- UserId ;;
  s <- self ;;
  ret (Request.PrepareApiCallHeaders authToken userId (Some (_devideId s))).

Definition _get (url : string) : M t Request.Response :=
  headers <- apiCallHeaders ;;
  send h (Request.GetAsJson url headers).

Definition ApiGet (url : string) : M t ApiResult :=
  ok <- _authenticate ;;
  if negb ok then ret PyFalse
  else r <- _get url ;; ret (Answer r).

Definition ApiPost (url : string) (data : gmap string Value) : M t ApiResult :=
  ok <- _authenticate ;;
  if negb ok then ret PyFalse
  else
    headers <- apiCallHeaders ;;
    r <- send h (Request.PostAsJson url headers data) ;;
    ret (Answer r).

Definition ApiDelete (url : string) : M t ApiResult :=
  ok <- _authenticate ;;
  if negb ok then ret PyFalse
  else
    headers <- apiCallHeaders ;;
    r <- send h (Request.Delete url headers) ;;
    ret (Answer r).

Close Scope method_scope.

End WithHost.

(** The URL builders read [self] only. *)

Definition BuildUrl (self : t) (endpoint : string) : Res string :=
  if negb (Py.str_truthy endpoint) then Raise (ValueError "Invalid endpoint")
  else
    let url := _url self in
    Ok (Url.append url [endpoint]).

Definition BuildPlayableItemUrl (self : t) (mediaType itemId container : string)
    : Res string :=
  if negb (Py.str_truthy itemId) then Raise (ValueError "Invalid itemId")
  else
    embyMediaType ←
      (if String.eqb mediaType "Video" then Ok "Videos"
       else if String.eqb mediaType "Audio" then Ok "Audio"
       else Raise (ValueError ("Invalid mediaType " ++ dquote ++ mediaType ++ dquote)));
    url ← BuildUrl self embyMediaType;
    let url := Url.append url [itemId; "stream"] in
    let url :=
      if Py.str_truthy container then
        let containers := Py.split "," container in
        url ++ "." ++ Py.first containers
      else url in
    let url := Url.addOptions url [("static", "true")] in
    Ok url.

Definition BuildSessionsPlayingUrl (self : t) : string :=
  let url := _url self in
  Url.append url [constants.URL_SESSIONS; constants.URL_SESSIONS_PLAYING].

Definition BuildSessionsPlayingProgressUrl (self : t) : string :=
  let url := BuildSessionsPlayingUrl self in
  Url.append url [constants.URL_SESSIONS_PLAYING_PROGRESS].

Definition BuildSessionsPlayingStoppedUrl (self : t) : string :=
  let url := BuildSessionsPlayingUrl self in
  Url.append url [constants.URL_SESSIONS_PLAYING_STOPPED].

Definition _assertAuthentication (self : t) : Res unit :=
  if negb (Authenticator.IsAuthenticated (_authenticator self)) then
    Raise (RuntimeError ("media provider " ++ _id self ++ " has not yet been authenticated"))
  else Ok tt.

(** [self.UserId()] read without the monad: the builders only read [self]. *)
Definition userIdOf (self : t) : option string :=
  Authenticator.UserId (_authenticator self).

Definition BuildUserUrl (self : t) (endpoint : string) : Res string :=
  if negb (Py.str_truthy endpoint) then Raise (ValueError "Invalid endpoint")
  else
    _ ← _assertAuthentication self;
    let url := _url self in
    match userIdOf self with
    | Some userId =>
        if negb (Py.str_truthy userId) then
          Raise (RuntimeError
                   ("No valid user authentication available to access endpoint "
                    ++ dquote ++ endpoint ++ dquote))
        else
          let url := Url.append url [constants.URL_USERS; userId] in
          Ok (Url.append url [endpoint])
    | None =>
        Raise (RuntimeError
                 ("No valid user authentication available to access endpoint "
                  ++ dquote ++ endpoint ++ dquote))
    end.

Definition BuildItemUrl (self : t) (itemId : string) : Res string :=
  if negb (Py.str_truthy itemId) then Raise (ValueError "Invalid itemId")
  else
    url ← BuildUrl self constants.URL_ITEMS;
    Ok (Url.append url [itemId]).

Definition BuildUserItemUrl (self : t) (itemId : string) : Res string :=
  if negb (Py.str_truthy itemId) then Raise (ValueError "Invalid itemId")
  else
    url ← BuildUserUrl self constants.URL_ITEMS;
    Ok (Url.append url [itemId]).

Definition BuildUserPlayingItemUrl (self : t) (itemId : string) : Res string :=
  if negb (Py.str_truthy itemId) then Raise (ValueError "Invalid itemId")
  else
    url ← BuildUserUrl self constants.URL_PLAYING_ITEMS;
    Ok (Url.append url [itemId]).

Definition BuildUserPlayedItemUrl (self : t) (itemId : string) : Res string :=
  if negb (Py.str_truthy itemId) then Raise (ValueError "Invalid itemId")
  else
    url ← BuildUserUrl self constants.URL_PLAYED_ITEMS;
    Ok (Url.append url [itemId]).

Definition BuildUserItemUserDataUrl (self : t) (itemId : string) : Res string :=
  if negb (Py.str_truthy itemId) then Raise (ValueError "Invalid itemId")
  else
    url ← BuildUserUrl self constants.URL_ITEMS;
    Ok (Url.append url [itemId; constants.URL_USER_DATA]).

Definition BuildFolderItemUrl (self : t) (itemId : string) : Res string :=
  BuildUserItemUrl self itemId.

(** [BuildImageUrl(self, itemId, imageType, imageTag = '')] *)
Definition BuildImageUrl (self : t) (itemId imageType imageTag : string) : Res string :=
  if negb (Py.str_truthy itemId) then Raise (ValueError "Invalid itemId")
  else if negb (Py.str_truthy imageType) then Raise (ValueError "Invalid imageType")
  else
    url ← BuildItemUrl self itemId;
    let url := Url.append url [constants.URL_IMAGES; imageType] in
    let url :=
      if Py.str_truthy imageTag then Url.addOptions url [("tag", imageTag)]
      else url in
    Ok url.

(** The static methods. *)

Definition BuildProviderId (serverId : string) : Res string :=
  if negb (Py.str_truthy serverId) then Raise (ValueError "Invalid serverId")
  else Ok (constants.EMBY_PROTOCOL ++ "://" ++ serverId ++ "/").

Definition BuildPublicInfoUrl (baseUrl : string) : Res string :=
  if negb (Py.str_truthy baseUrl) then Raise (ValueError "Invalid baseUrl")
  else
    Ok (Url.append baseUrl
          [constants.EMBY_PROTOCOL; constants.URL_SYSTEM; constants.URL_SYSTEM_INFO;
           constants.URL_SYSTEM_INFO_PUBLIC]).

Definition BuildIconUrl (baseUrl : string) : Res string :=
  if negb (Py.str_truthy baseUrl) then Raise (ValueError "Invalid baseUrl")
  else Ok (Url.append baseUrl ["web"; "touchicon144.png"]).

Section Discovery.

Variable h : Host.

Open Scope method_scope.

(** [Server.GetServerInfo(baseUrl)]: a static method, so there is no
    [self] to change. *)
Definition GetServerInfo (baseUrl : string) : M unit (option Info.t) :=
  publicInfoUrl <- lift (BuildPublicInfoUrl baseUrl) ;;
  let headers := Request.PrepareApiCallHeaders None None None in
  resultObj <- send h (Request.GetAsJson publicInfoUrl headers) ;;
  lift (Info.fromPublicInfo resultObj).

Close Scope method_scope.

End Discovery.

End Server.

(** ** emby/player.py: Player *)

(** Modelled from the spec: [emby/api.py] is not among the sources. One
    second is 10,000,000 ticks. *)
Module Api.
Definition secondsToTicks (seconds : Q) : Q := (seconds * 10000000)%Q.
End Api.

(** Modelled from the spec: [lib/utils.py] is not among the sources. The
    warning of the player names the provider; the model names it by its
    identifier. *)
Definition mediaProvider2str (mediaProvider : MediaProvider) : string :=
  getIdentifier mediaProvider.

Module Player.

Record t := {
  _progressInterval : Q;
  _lastProgressReport : option Q;
  _providers : list (string * MediaProvider);
  _file : option string;
  _item : option ListItem;
  _itemId : option string;
  _mediaProvider : option MediaProvider;
  _playSessionId : option string;
  _paused : bool
}.

(** [Player.__init__(self, progressInterval=None)] *)
Definition __init__ (progressInterval : option Q) : t :=
  {| _progressInterval :=
       match progressInterval with
       | Some i => if Py.num_truthy i then i else 10%Q
       | None => 10%Q
       end;
     _lastProgressReport := None;
     _providers := [];
     _file := None;
     _item := None;
     _itemId := None;
     _mediaProvider := None;
     _playSessionId := None;
     _paused := false |}.

(** Assignments to single attributes. *)

Definition set_lastProgressReport (v : option Q) (p : t) : t :=
  {| _progressInterval := _progressInterval p; _lastProgressReport := v;
     _providers := _providers p; _file := _file p; _item := _item p;
     _itemId := _itemId p; _mediaProvider := _mediaProvider p;
     _playSessionId := _playSessionId p; _paused := _paused p |}.

Definition set_providers (v : list (string * MediaProvider)) (p : t) : t :=
  {| _progressInterval := _progressInterval p;
     _lastProgressReport := _lastProgressReport p;
     _providers := v; _file := _file p; _item := _item p;
     _itemId := _itemId p; _mediaProvider := _mediaProvider p;
     _playSessionId := _playSessionId p; _paused := _paused p |}.

Definition set_file (v : option string) (p : t) : t :=
  {| _progressInterval := _progressInterval p;
     _lastProgressReport := _lastProgressReport p;
     _providers := _providers p; _file := v; _item := _item p;
     _itemId := _itemId p; _mediaProvider := _mediaProvider p;
     _playSessionId := _playSessionId p; _paused := _paused p |}.

Definition set_item (v : option ListItem) (p : t) : t :=
  {| _progressInterval := _progressInterval p;
     _lastProgressReport := _lastProgressReport p;
     _providers := _providers p; _file := _file p; _item := v;
     _itemId := _itemId p; _mediaProvider := _mediaProvider p;
     _playSessionId := _playSessionId p; _paused := _paused p |}.

Definition set_itemId (v : option string) (p : t) : t :=
  {| _progressInterval := _progressInterval p;
     _lastProgressReport := _lastProgressReport p;
     _providers := _providers p; _file := _file p; _item := _item p;
     _itemId := v; _mediaProvider := _mediaProvider p;
     _playSessionId := _playSessionId p; _paused := _paused p |}.

Definition set_mediaProvider (v : option MediaProvider) (p : t) : t :=
  {| _progressInterval := _progressInterval p;
     _lastProgressReport := _lastProgressReport p;
     _providers := _providers p; _file := _file p; _item := _item p;
     _itemId := _itemId p; _mediaProvider := v;
     _playSessionId := _playSessionId p; _paused := _paused p |}.

Definition set_playSessionId (v : option string) (p : t) : t :=
  {| _progressInterval := _progressInterval p;
     _lastProgressReport := _lastProgressReport p;
     _providers := _providers p; _file := _file p; _item := _item p;
     _itemId := _itemId p; _mediaProvider := _mediaProvider p;
     _playSessionId := v; _paused := _paused p |}.

Definition set_paused (v : bool) (p : t) : t :=
  {| _progressInterval := _progressInterval p;
     _lastProgressReport := _lastProgressReport p;
     _providers := _providers p; _file := _file p; _item := _item p;
     _itemId := _itemId p; _mediaProvider := _mediaProvider p;
     _playSessionId := _playSessionId p; _paused := v |}.

(** [str(x)] of an attribute that is [None] or a [str]. *)
Definition str (o : option string) : string := default "None" o.

(** An attribute that is [None] or a [str], as a value of a request body. *)
Definition value (o : option string) : Value :=
  match o with Some s => VStr s | None => VNone end.

(** [x < y] on seconds. *)
Definition Qlt_bool (x y : Q) : bool := negb (Qle_bool y x).

(** The list comprehension of [_startPlayback]: the imported items that
    have a video tag whose unique id is [self._itemId]. *)
Definition matchingItems (itemId : option string) (importedItems : list ListItem)
    : list ListItem :=
  List.filter
    (fun importedItem =>
       match getVideoInfoTag importedItem with
       | Some tag =>
           bool_decide (Some (getUniqueID tag constants.EMBY_PROTOCOL) = itemId)
       | None => false
       end)
    importedItems.

Open Scope method_scope.

Definition AddProvider (mediaProvider : option MediaProvider) : M t unit :=
  match mediaProvider with
  | None => raise (ValueError "invalid mediaProvider")
  | Some mediaProvider =>
      assign (fun p =>
        set_providers (Py.setitem (getIdentifier mediaProvider) mediaProvider (_providers p)) p)
  end.

Definition RemoveProvider (mediaProvider : option MediaProvider) : M t unit :=
  match mediaProvider with
  | None => raise (ValueError "invalid mediaProvider")
  | Some mediaProvider =>
      p <- self ;;
      providers <- lift (Py.delitem (getIdentifier mediaProvider) (_providers p)) ;;
      assign (set_providers providers)
  end.

Definition _reset : M t unit :=
  assign (set_file None) ;;
  assign (set_item None) ;;
  assign (set_itemId None) ;;
  assign (set_mediaProvider None) ;;
  assign (set_playSessionId None) ;;
  assign (set_paused false).

Section WithHost.

Variable h : Host.

(** [self._preparePlayingData(stopped, event, failed)]; it reads
    [self] and the playback position only. *)
Definition _preparePlayingData (stopped : bool) (event : option string)
    (failed : bool) : M t (gmap string Value) :=
  p <- self ;;
  let data : gmap string Value :=
    {[ "ItemId" := value (_itemId p);
       "PlaySessionId" := value (_playSessionId p);
       "PlaylistIndex" := VNum 0;
       "PlaylistLength" := VNum 1 ]} in
  if stopped then
    ret (Dict.update data {[ "Failed" := VBool failed ]})
  else
    let data := Dict.update data
      {[ "QueueableMediaTypes" := VStr "Audio,Video";
         "CanSeek" := VBool true;
         "PlayMethod" := VStr constants.PLAYING_PLAY_METHOD_DIRECT_STREAM;
         "IsPaused" := VBool (_paused p) ]} in
    let data :=
      match getTime h, getTotalTime h with
      | Some time, Some totalTime =>
          Dict.update data
            {[ "PositionTicks" := VNum (Api.secondsToTicks time);
               "RunTimeTicks" := VNum (Api.secondsToTicks totalTime) ]}
      | _, _ => data
      end in
    let data :=
      if Py.opt_str_truthy event then
        Dict.update data {[ "EventName" := value event ]}
      else data in
    ret data.

(** The [for] loop of [_startPlayback] over [self._providers.values()]:
    [continue] moves on to the rest, [break] stops. *)
Fixpoint matchProviders (providers : list MediaProvider) : M t unit :=
  match providers with
  | [] => ret tt
  | mediaProvider :: rest =>
      p <- self ;;
      let importedItems := getImportedItemsByProvider h mediaProvider in
      match matchingItems (_itemId p) importedItems with
      | [] => matchProviders rest
      | first :: _ =>
          (if (1 <? length (matchingItems (_itemId p) importedItems))%nat then
             log ("multiple items imported from " ++ mediaProvider2str mediaProvider
                  ++ " match the imported Emby item " ++ str (_itemId p)
                  ++ " playing from " ++ str (_file p))
                 (Some LOGWARNING)
           else ret tt) ;;
          assign (set_item (Some first)) ;;
          assign (set_mediaProvider (Some mediaProvider))
      end
  end.

Definition _startPlayback : M t unit :=
  p <- self ;;
  if negb (Py.opt_str_truthy (_file p)) then ret tt
  else if negb (isPlayingVideo h) then ret tt
  else
    match playingVideoInfoTag h with
    | None => ret tt
    | Some videoInfoTag =>
        assign (set_itemId (Some (getUniqueID videoInfoTag constants.EMBY_PROTOCOL))) ;;
        p <- self ;;
        if negb (Py.opt_str_truthy (_itemId p)) then ret tt
        else
          matchProviders (Py.values (_providers p)) ;;
          p <- self ;;
          match _item p with
          | None => ret tt
          | Some _ =>
              (* generate a session identifier *)
              assign (set_playSessionId (Some (Py.remove "-" (uuid4 h)))) ;;
              (* prepare the data of the API call *)
              data <- _preparePlayingData false None false ;;
              (* tell the Emby server that a library item is being played *)
              p <- self ;;
              server <- lift (Server.__init__ h (_mediaProvider p)) ;;
              let url := Server.BuildSessionsPlayingUrl server in
              on server (Server.ApiPost h url data) ;;
              t <- now h ;;
              assign (set_lastProgressReport (Some t))
          end
    end.

Definition _reportPlaybackProgress (event : string) : M t unit :=
  p <- self ;;
  match _item p with
  | None => ret tt
  | Some _ =>
      (* prepare the data of the API call *)
      data <- _preparePlayingData false (Some event) false ;;
      (* tell the Emby server that a library item is being played *)
      server <- lift (Server.__init__ h (_mediaProvider p)) ;;
      let url := Server.BuildSessionsPlayingProgressUrl server in
      on server (Server.ApiPost h url data) ;;
      t <- now h ;;
      assign (set_lastProgressReport (Some t))
  end.

Definition _stopPlayback (failed : bool) : M t unit :=
  p <- self ;;
  match _item p with
  | None => ret tt
  | Some _ =>
      (* prepare the data of the API call *)
      data <- _preparePlayingData true None failed ;;
      (* tell the Emby server that a library item is being played *)
      server <- lift (Server.__init__ h (_mediaProvider p)) ;;
      let url := Server.BuildSessionsPlayingStoppedUrl server in
      on server (Server.ApiPost h url data) ;;
      _reset
  end.

Definition Process : M t unit :=
  p <- self ;;
  match _lastProgressReport p with
  | None => ret tt
  | Some lastProgressReport =>
      if negb (Py.num_truthy lastProgressReport) then ret tt
      else
        (* adhere to the configured progress interval *)
        t <- now h ;;
        if Qlt_bool (t - lastProgressReport) (_progressInterval p) then ret tt
        else _reportPlaybackProgress constants.PLAYING_PROGRESS_EVENT_TIME_UPDATE
  end.

Definition onPlayBackStarted : M t unit :=
  _reset ;;
  assign (set_file (Some (getPlayingFile h))).

Definition onAVStarted : M t unit := _startPlayback.

Definition onPlayBackSeek (time seekOffset : Z) : M t unit :=
  _reportPlaybackProgress constants.PLAYING_PROGRESS_EVENT_TIME_UPDATE.

Definition onPlayBackSeekChapter (chapter : Z) : M t unit :=
  _reportPlaybackProgress constants.PLAYING_PROGRESS_EVENT_TIME_UPDATE.

Definition onPlayBackPaused : M t unit :=
  assign (set_paused true) ;;
  _reportPlaybackProgress constants.PLAYING_PROGRESS_EVENT_PAUSE.

Definition onPlayBackResumed : M t unit :=
  assign (set_paused false) ;;
  _reportPlaybackProgress constants.PLAYING_PROGRESS_EVENT_UNPAUSE.

Definition onPlayBackStopped : M t unit := _stopPlayback false.

Definition onPlayBackEnded : M t unit := _stopPlayback false.

Definition onPlayBackError : M t unit := _stopPlayback true.

End WithHost.

Close Scope method_scope.

End Player.

(** ** The player as a state machine *)

(** What the host can do with a player. *)
Inductive Callback :=
| CallAddProvider (mediaProvider : option MediaProvider)
| CallRemoveProvider (mediaProvider : option MediaProvider)
| CallProcess
| PlayBackStarted
| AVStarted
| PlayBackSeek (time seekOffset : Z)
| PlayBackSeekChapter (chapter : Z)
| PlayBackPaused
| PlayBackResumed
| PlayBackStopped
| PlayBackEnded
| PlayBackError.

Definition run (h : Host) (c : Callback) : M Player.t unit :=
  match c with
  | CallAddProvider mediaProvider => Player.AddProvider mediaProvider
  | CallRemoveProvider mediaProvider => Player.RemoveProvider mediaProvider
  | CallProcess => Player.Process h
  | PlayBackStarted => Player.onPlayBackStarted h
  | AVStarted => Player.onAVStarted h
  | PlayBackSeek time seekOffset => Player.onPlayBackSeek h time seekOffset
  | PlayBackSeekChapter chapter => Player.onPlayBackSeekChapter h chapter
  | PlayBackPaused => Player.onPlayBackPaused h
  | PlayBackResumed => Player.onPlayBackResumed h
  | PlayBackStopped => Player.onPlayBackStopped h
  | PlayBackEnded => Player.onPlayBackEnded h
  | PlayBackError => Player.onPlayBackError h
  end.

Definition world0 : World := {| logged := []; requests := []; clockReads := 0 |}.

(** The player and the world after a callback, whether it returned or
    raised. *)
Definition after (h : Host) (c : Callback) (pw : Player.t * World) : Player.t * World :=
  let '(_, p, w) := run h c (fst pw) (snd pw) in (p, w).

(** A history: the callbacks in the order the host made them, each with
    the answers the host gave while it ran. *)
Definition history (calls : list (Host * Callback)) (pw : Player.t * World)
    : Player.t * World :=
  fold_left (fun pw hc => after (fst hc) (snd hc) pw) calls pw.

(** The states a player can be in. *)
Inductive reachable : Player.t -> World -> Prop :=
| reachable_init progressInterval :
    reachable (Player.__init__ progressInterval) world0
| reachable_step h c p w r p' w' :
    reachable p w ->
    run h c p w = (r, p', w') ->
    reachable p' w'.

(** ** Vocabulary of the statements *)

(** The three fields [fromPublicInfo] requires. *)
Definition required_present (response : gmap string Value) : Prop :=
  is_Some (response !! constants.PROPERTY_SYSTEM_INFO_ID)
  /\ is_Some (response !! constants.PROPERTY_SYSTEM_INFO_SERVER_NAME)
  /\ is_Some (response !! constants.PROPERTY_SYSTEM_INFO_VERSION).

(** A container format: a string without a comma. *)
Fixpoint comma_free (s : string) : bool :=
  match s with
  | EmptyString => true
  | String c s' => negb (Ascii.eqb c ",") && comma_free s'
  end.

(** The world after one more log entry. *)
Definition with_log (e : LogEntry) (w : World) : World :=
  {| logged := logged w ++ [e]; requests := requests w; clockReads := clockReads w |}.

(** The world after one more call of the transport. *)
Definition with_request (c : Request.Call) (w : World) : World :=
  {| logged := logged w; requests := requests w ++ [c]; clockReads := clockReads w |}.

(** The world after one more reading of the clock. *)
Definition with_clock_read (w : World) : World :=
  {| logged := logged w; requests := requests w; clockReads := S (clockReads w) |}.

(** The log entry of a failed authentication. *)
Definition authentication_failed (self : Server.t) : LogEntry :=
  {| message := "user authentication failed on media provider " ++ Server._id self;
     level := None |}.

(** The headers built from the access token, the user id and the device
    id of a server. *)
Definition api_headers (self : Server.t) : Request.Headers :=
  Request.PrepareApiCallHeaders
    (Authenticator.AccessToken (Server._authenticator self))
    (Authenticator.UserId (Server._authenticator self))
    (Some (Server._devideId self)).

(** The all-or-nothing group the specification asks for: the four
    session attributes are all set or all unset. *)
Definition all_or_nothing (p : Player.t) : Prop :=
  (is_Some (Player._item p) /\ is_Some (Player._itemId p)
   /\ is_Some (Player._mediaProvider p) /\ is_Some (Player._playSessionId p))
  \/ (Player._item p = None /\ Player._itemId p = None
      /\ Player._mediaProvider p = None /\ Player._playSessionId p = None).

(** What the player does keep: the item, the provider and the session id
    are set together, and the item id is set whenever they are. *)
Definition session_coherent (p : Player.t) : Prop :=
  (is_Some (Player._item p) <-> is_Some (Player._mediaProvider p))
  /\ (is_Some (Player._item p) <-> is_Some (Player._playSessionId p))
  /\ (is_Some (Player._item p) -> is_Some (Player._itemId p)).

(** A fresh authentication on this server succeeds and leaves it as
    [self']. *)
Definition authenticates (self self' : Server.t) : Prop :=
  forall w, Server.Authenticate self w = (Ok true, self', w).

(** A fresh authentication on this server is refused. *)
Definition refused (self : Server.t) : Prop :=
  forall w, Server.Authenticate self w = (Ok false, self, w).

(** The fields [_reset] clears. *)
Definition session_cleared (p : Player.t) : Prop :=
  Player._file p = None /\ Player._item p = None /\ Player._itemId p = None
  /\ Player._mediaProvider p = None /\ Player._playSessionId p = None
  /\ Player._paused p = false.

(** The player after [_reset]. *)
Definition reset_of (p : Player.t) : Player.t :=
  {| Player._progressInterval := Player._progressInterval p;
     Player._lastProgressReport := Player._lastProgressReport p;
     Player._providers := Player._providers p;
     Player._file := None;
     Player._item := None;
     Player._itemId := None;
     Player._mediaProvider := None;
     Player._playSessionId := None;
     Player._paused := false |}.

(** How [server.ApiPost(url, data)] takes the world from [w] to [w']:
    either the authentication is refused and only the log grows, or it
    succeeds and the request goes out. *)
Definition posted (server : Server.t) (url : string) (data : gmap string Value)
    (w w' : World) : Prop :=
  (exists server',
     Server.Authenticate server w = (Ok false, server', w)
     /\ w' = with_log (authentication_failed server) w)
  \/ (exists server',
        Server.Authenticate server w = (Ok true, server', w)
        /\ w' = with_request (Request.PostAsJson url (api_headers server') data) w).

(** The second half of [_startPlayback], from the session identifier on;
    it runs once an item is set. *)
Definition announce (h : Host) : M Player.t unit :=
  (assign (Player.set_playSessionId (Some (Py.remove "-" (uuid4 h)))) ;;
   data <- Player._preparePlayingData h false None false ;;
   p <- self ;;
   server <- lift (Server.__init__ h (Player._mediaProvider p)) ;;
   let url := Server.BuildSessionsPlayingUrl server in
   on server (Server.ApiPost h url data) ;;
   t <- now h ;;
   assign (Player.set_lastProgressReport (Some t)))%M.

(** No registered provider has imported an item with this id. *)
Definition no_match (h : Host) (p : Player.t) (itemId : string) : Prop :=
  forall mediaProvider,
    In mediaProvider (Py.values (Player._providers p)) ->
    Player.matchingItems (Some itemId) (getImportedItemsByProvider h mediaProvider) = [].

(** The last character of a string. *)
Fixpoint last_char (s : string) : option ascii :=
  match s with
  | EmptyString => None
  | String c EmptyString => Some c
  | String _ s' => last_char s'
  end.

(** The calls in [new] are POSTs to the endpoint [endpoint] of some
    server. *)
Definition posts_to (endpoint : Server.t -> string) (new : list Request.Call) : Prop :=
  forall call, In call new ->
    exists server headers body, call = Request.PostAsJson (endpoint server) headers body.

(** A POST to the sessions-playing-stopped endpoint of some server. *)
Definition stopped_post (c : Request.Call) : Prop :=
  exists self headers body,
    c = Request.PostAsJson (Server.BuildSessionsPlayingStoppedUrl self) headers body.

(** ** Concrete inputs *)

Definition response_4721 : gmap string Value :=
  {[ constants.PROPERTY_SYSTEM_INFO_ID := VStr "0a1b2c";
     constants.PROPERTY_SYSTEM_INFO_SERVER_NAME := VStr "living room";
     constants.PROPERTY_SYSTEM_INFO_VERSION := VStr "4.7.2.1" ]}.

Definition response_no_id : gmap string Value :=
  delete constants.PROPERTY_SYSTEM_INFO_ID response_4721.

Definition response_empty_id : gmap string Value :=
  <[ constants.PROPERTY_SYSTEM_INFO_ID := VStr EmptyString ]> response_4721.

Definition response_empty_product : gmap string Value :=
  <[ constants.PROPERTY_SYSTEM_INFO_PRODUCT_NAME := VStr EmptyString ]> response_4721.

Definition no_session : Authenticator.t :=
  {| Authenticator.session := None; Authenticator.grant := None |}.

Definition server_living_room : Server.t :=
  {| Server._baseUrl := "http://nas:8096";
     Server._url := "http://nas:8096/emby";
     Server._id := "emby://0a1b2c/";
     Server._devideId := "kodi-1";
     Server._authenticator := no_session |}.

(** A provider whose identifier is the empty string. *)
Definition provider_unnamed : MediaProvider :=
  {| getIdentifier := EmptyString;
     getBasePath := "http://nas:8096";
     getSettings := Some ∅ |}.

Definition granted : Authenticator.t :=
  {| Authenticator.session := None;
     Authenticator.grant :=
       Some {| Authenticator.accessToken := "t0k3n"; Authenticator.userId := "u-17" |} |}.


Definition silent_transport (c : Request.Call) : Request.Response := None.

(** A host that plays nothing and whose remote server grants nothing. *)
Definition host_refusing : Host :=
  {| getPlayingFile := EmptyString;
     isPlayingVideo := false;
     playingVideoInfoTag := None;
     getTime := None;
     getTotalTime := None;
     getImportedItemsByProvider := fun _ => [];
     uuid4 := "00000000-0000-0000-0000-000000000000";
     time_time := fun n => inject_Z (Z.of_nat n);
     WithUsername := fun _ _ _ _ => no_session;
     WithUserId := fun _ _ _ _ => no_session;
     transport := silent_transport |}.

Definition tag_abc : InfoTagVideo :=
  {| uniqueIDs := {[ constants.EMBY_PROTOCOL := "abc" ]} |}.

Definition movie_abc : ListItem :=
  {| getLabel := "A Movie"; getVideoInfoTag := Some tag_abc |}.

Definition provider_nas : MediaProvider :=
  {| getIdentifier := "emby://0a1b2c/";
     getBasePath := "http://nas:8096";
     getSettings :=
       Some {[ constants.SETTING_PROVIDER_DEVICEID := "kodi-1";
               constants.SETTING_PROVIDER_USER := "u-17";
               constants.SETTING_PROVIDER_PASSWORD := "secret" ]} |}.

(** The clock of the examples: the n-th reading is 100 + 5 n seconds. *)
Definition clock (n : nat) : Q := (100 + 5 * inject_Z (Z.of_nat n))%Q.

(** A host that plays the movie [abc], imported from every provider, and
    whose remote server grants a session. *)
Definition host_playing : Host :=
  {| getPlayingFile := "http://nas:8096/emby/Videos/abc/stream.mkv?static=true";
     isPlayingVideo := true;
     playingVideoInfoTag := Some tag_abc;
     getTime := Some 12%Q;
     getTotalTime := Some 5400%Q;
     getImportedItemsByProvider := fun _ => [movie_abc];
     uuid4 := "6f1c0a52-9d3e-4b7a-8c21-5e0f4a9b7d63";
     time_time := clock;
     WithUsername := fun _ _ _ _ => granted;
     WithUserId := fun _ _ _ _ => granted;
     transport := silent_transport |}.

(** The same host, but the remote server refuses every authentication. *)
Definition host_playing_refused : Host :=
  {| getPlayingFile := getPlayingFile host_playing;
     isPlayingVideo := true;
     playingVideoInfoTag := Some tag_abc;
     getTime := Some 12%Q;
     getTotalTime := Some 5400%Q;
     getImportedItemsByProvider := fun _ => [movie_abc];
     uuid4 := uuid4 host_playing;
     time_time := clock;
     WithUsername := fun _ _ _ _ => no_session;
     WithUserId := fun _ _ _ _ => no_session;
     transport := silent_transport |}.

(** Playback of the movie with no provider registered: nothing matches. *)
Definition unmatched_playback : list (Host * Callback) :=
  [ (host_playing, PlayBackStarted); (host_playing, AVStarted) ].

(** Playback of the movie after its provider was registered. *)
Definition matched_playback : list (Host * Callback) :=
  [ (host_playing, CallAddProvider (Some provider_nas));
    (host_playing, PlayBackStarted);
    (host_playing, AVStarted) ].

Definition start : Player.t * World := (Player.__init__ None, world0).

(** A provider without settings: no [Server] can be constructed for it. *)
Definition provider_bare : MediaProvider :=
  {| getIdentifier := "emby://bare/";
     getBasePath := "http://bare:8096";
     getSettings := None |}.

(** A matched session, then a [Process] that comes too early, with a
    remote server that has started to refuse the authentication. *)
Definition refused_wait : list (Host * Callback) :=
  (matched_playback ++ [ (host_playing_refused, CallProcess) ])%list.

(** A first session that is stopped, then a playback matched with a
    provider without settings, then a [Process] that comes too early. *)
Definition settingsless_wait : list (Host * Callback) :=
  (matched_playback
   ++ [ (host_playing, PlayBackStopped);
        (host_playing, CallRemoveProvider (Some provider_nas));
        (host_playing, CallAddProvider (Some provider_bare));
        (host_playing, PlayBackStarted);
        (host_playing, AVStarted);
        (host_playing, CallProcess) ])%list.


(** ** Vocabulary of the further properties *)

(** The number of occurrences of a character. *)
Fixpoint occurrences (c : ascii) (s : string) : nat :=
  match s with
  | EmptyString => 0
  | String d s' => (if Ascii.eqb d c then 1 else 0) + occurrences c s'
  end.

(** A server whose authenticator holds a session. *)
Definition authenticated (self : Server.t) : Prop :=
  Authenticator.IsAuthenticated (Server._authenticator self) = true.

(** The builders of user-scoped item URLs. *)
Definition user_item_builders : list (Server.t -> string -> Res string) :=
  [ Server.BuildUserItemUrl; Server.BuildUserPlayingItemUrl;
    Server.BuildUserPlayedItemUrl; Server.BuildUserItemUserDataUrl;
    Server.BuildFolderItemUrl ].

(** A server that holds a session for user [u-17]. *)
Definition server_in_session : Server.t :=
  Server.set_authenticator
    {| Authenticator.session := Authenticator.grant granted;
       Authenticator.grant := None |}
    server_living_room.

(** The callbacks that make a progress report. *)
Definition progress_callback (c : Callback) : bool :=
  match c with
  | CallProcess | PlayBackSeek _ _ | PlayBackSeekChapter _
  | PlayBackPaused | PlayBackResumed => true
  | _ => false
  end.

(** The callbacks that end a session. *)
Definition stop_callback (c : Callback) : bool :=
  match c with
  | PlayBackStopped | PlayBackEnded | PlayBackError => true
  | _ => false
  end.

(** The callbacks that change the registry. *)
Definition registry_callback (c : Callback) : bool :=
  match c with
  | CallAddProvider _ | CallRemoveProvider _ => true
  | _ => false
  end.

(** The [failed] argument a stop callback passes to [_stopPlayback]. *)
Definition failed_of (c : Callback) : bool :=
  match c with PlayBackError => true | _ => false end.

(** A registry as [AddProvider] builds it: no identifier twice, every
    provider under its own identifier. *)
Definition registry_wf (d : list (string * MediaProvider)) : Prop :=
  NoDup (map fst d) /\ Forall (fun kv => fst kv = getIdentifier (snd kv)) d.

(** The five attributes that identify a session. *)
Definition same_session (p p' : Player.t) : Prop :=
  Player._file p' = Player._file p
  /\ Player._item p' = Player._item p
  /\ Player._itemId p' = Player._itemId p
  /\ Player._mediaProvider p' = Player._mediaProvider p
  /\ Player._playSessionId p' = Player._playSessionId p.

(** The warning [_startPlayback] logs when several imported items match. *)
Definition multiple_items (mediaProvider : MediaProvider) (p : Player.t) : LogEntry :=
  {| message :=
       "multiple items imported from " ++ mediaProvider2str mediaProvider
       ++ " match the imported Emby item " ++ Player.str (Player._itemId p)
       ++ " playing from " ++ Player.str (Player._file p);
     level := Some LOGWARNING |}.

(** A second copy of the movie, imported twice. *)
Definition movie_abc_copy : ListItem :=
  {| getLabel := "A Movie (copy)"; getVideoInfoTag := Some tag_abc |}.

(** The state after [onPlayBackStarted] with the provider registered. *)
Definition ready : Player.t * World :=
  history [ (host_playing, CallAddProvider (Some provider_nas));
            (host_playing, PlayBackStarted) ] start.

(** A host like [host_playing] whose import registry knows the movie twice
    for the provider [provider_nas] and not at all for the others. *)
Definition host_twice : Host :=
  {| getPlayingFile := getPlayingFile host_playing;
     isPlayingVideo := true;
     playingVideoInfoTag := Some tag_abc;
     getTime := Some 12%Q;
     getTotalTime := Some 5400%Q;
     getImportedItemsByProvider :=
       fun m => if String.eqb (getIdentifier m) (getIdentifier provider_nas)
                then [movie_abc; movie_abc_copy] else [];
     uuid4 := uuid4 host_playing;
     time_time := clock;
     WithUsername := fun _ _ _ _ => granted;
     WithUserId := fun _ _ _ _ => granted;
     transport := silent_transport |}.
(** * Properties *)

(** ** Server.Info.fromPublicInfo *)

Lemma Dict_contains_true {V} k (d : gmap string V) :
  Dict.contains k d = true <-> is_Some (d !! k).
Proof.
  unfold Dict.contains. rewrite <- not_eq_None_Some.
  destruct (d !! k); split; intros H; congruence.
Qed.


Lemma Dict_truthy_lookup {V} k (d : gmap string V) :
  is_Some (d !! k) -> Dict.truthy d = true.
Proof.
  intros [v Hv]. unfold Dict.truthy.
  rewrite bool_decide_eq_false_2; [done|].
  intros ->. by rewrite lookup_empty in Hv.
Qed.

Lemma fromPublicInfo_present response :
  required_present response ->
  Info.fromPublicInfo (Some response) =
    (ver ← Dict.getitem response constants.PROPERTY_SYSTEM_INFO_VERSION;
     versions ← Info.split_version ver;
     productName ←
       (if Dict.contains constants.PROPERTY_SYSTEM_INFO_PRODUCT_NAME response
        then Dict.getitem response constants.PROPERTY_SYSTEM_INFO_PRODUCT_NAME
        else Ok VNone);
     id ← Dict.getitem response constants.PROPERTY_SYSTEM_INFO_ID;
     name ← Dict.getitem response constants.PROPERTY_SYSTEM_INFO_SERVER_NAME;
     version ← semantic_version.Version (Py.join "." (take 3 versions));
     info ← Info.__init__ id name version productName;
     Ok (Some info)).
Proof.
  intros (Hid & Hname & Hver). unfold Info.fromPublicInfo.
  rewrite (Dict_truthy_lookup _ _ Hid).
  apply Dict_contains_true in Hid, Hname, Hver.
  by rewrite Hid, Hname, Hver.
Qed.

Lemma fromPublicInfo_absent response :
  ~ required_present response ->
  Info.fromPublicInfo (Some response) = Ok None.
Proof.
  intros Hn. unfold Info.fromPublicInfo.
  destruct (Dict.truthy response); [|done]. simpl.
  destruct (Dict.contains constants.PROPERTY_SYSTEM_INFO_ID response) eqn:Hid; [|done].
  destruct (Dict.contains constants.PROPERTY_SYSTEM_INFO_SERVER_NAME response) eqn:Hname; [|done].
  destruct (Dict.contains constants.PROPERTY_SYSTEM_INFO_VERSION response) eqn:Hver; [|done].
  exfalso. apply Hn. unfold required_present. by rewrite <- !Dict_contains_true.
Qed.


Lemma Info_init_Ok id name version productName info :
  Info.__init__ id name version productName = Ok info ->
  Py.truthy id = true /\
  info = {| Info.id := id; Info.name := name; Info.version := version;
            Info.product := Py.or productName (VStr Info.EMBY_SERVER) |}.
Proof.
  unfold Info.__init__. destruct (Py.truthy id); simpl; [|done].
  intros [= <-]. done.
Qed.

(** What an accepted response looks like. *)
Lemma fromPublicInfo_Some response info :
  Info.fromPublicInfo (Some response) = Ok (Some info) ->
  exists id name s version,
    response !! constants.PROPERTY_SYSTEM_INFO_ID = Some id
    /\ response !! constants.PROPERTY_SYSTEM_INFO_SERVER_NAME = Some name
    /\ response !! constants.PROPERTY_SYSTEM_INFO_VERSION = Some (VStr s)
    /\ semantic_version.Version (Py.join "." (take 3 (Py.split "." s))) = Ok version
    /\ Py.truthy id = true
    /\ info = {| Info.id := id; Info.name := name; Info.version := version;
                 Info.product :=
                   Py.or (default VNone (response !! constants.PROPERTY_SYSTEM_INFO_PRODUCT_NAME))
                         (VStr Info.EMBY_SERVER) |}.
Proof.
  intros H.
  destruct (decide (required_present response)) as [Hp|Hn];
    [|by rewrite fromPublicInfo_absent in H].
  rewrite (fromPublicInfo_present _ Hp) in H.
  destruct Hp as ([id Hid] & [name Hname] & [ver Hver]).
  unfold Dict.getitem, Dict.contains in H. rewrite Hid, Hname, Hver in H. simpl in H.
  destruct ver as [| | |s]; simpl in H; try done.
  exists id, name, s.
  destruct (response !! constants.PROPERTY_SYSTEM_INFO_PRODUCT_NAME) as [pn|] eqn:Hpn;
    simpl in H;
    (destruct (semantic_version.Version _) as [version|] eqn:Hv; simpl in H; [|done];
     destruct (Info.__init__ _ _ _ _) as [info'|] eqn:Hi; simpl in H; [|done];
     injection H as <-; apply Info_init_Ok in Hi as [Ht ->];
     exists version; rewrite ?Hpn; done).
Qed.

(** Presence of the required fields in a concrete response is decided by
    evaluation. *)
Ltac present :=
  unfold required_present; rewrite <- !Dict_contains_true; by vm_compute.

(** C4, as stated, fails: a response whose id is present but empty makes
    [fromPublicInfo] raise [ValueError]; it does not return [None]. *)
Lemma fromPublicInfo_empty_id_raises :
  response_empty_id !! constants.PROPERTY_SYSTEM_INFO_ID = Some (VStr EmptyString)
  /\ Info.fromPublicInfo (Some response_empty_id) = Raise (ValueError "invalid id")
  /\ Info.fromPublicInfo (Some response_empty_id) <> Ok None.
Proof. by vm_compute. Qed.

(** C4, amended: [fromPublicInfo] returns [None] exactly when the response
    is absent or lacks the id, the server name or the version; when the
    three are present it never returns [None], and when the id that is
    present is empty (falsy) it produces no Info by raising an error. *)
Theorem fromPublicInfo_absence (response : gmap string Value) :
  Info.fromPublicInfo None = Ok None
  /\ (~ required_present response -> Info.fromPublicInfo (Some response) = Ok None)
  /\ (required_present response -> Info.fromPublicInfo (Some response) <> Ok None)
  /\ (forall id,
        required_present response ->
        response !! constants.PROPERTY_SYSTEM_INFO_ID = Some id ->
        Py.truthy id = false ->
        exists e, Info.fromPublicInfo (Some response) = Raise e).
Proof.
  split; [done|]. split; [apply fromPublicInfo_absent|].
  assert (Hshape : required_present response ->
            (exists e, Info.fromPublicInfo (Some response) = Raise e)
            \/ (exists info, Info.fromPublicInfo (Some response) = Ok (Some info))).
  { intros Hp. rewrite (fromPublicInfo_present _ Hp).
    repeat match goal with
      | |- context [mbind _ ?r] =>
          let E := fresh in destruct r eqn:E; simpl; [|by eauto]
      end.
    by eauto. }
  split.
  - intros Hp. destruct (Hshape Hp) as [[e ->]|[info ->]]; done.
  - intros id Hp Hid Hf. destruct (Hshape Hp) as [He|[info Hi]]; [done|].
    apply fromPublicInfo_Some in Hi as (id' & ? & ? & ? & Hid' & _ & _ & _ & Ht & _).
    rewrite Hid in Hid'. injection Hid' as <-. congruence.
Qed.

Lemma fromPublicInfo_absence_witness :
  Info.fromPublicInfo (Some response_no_id) = Ok None
  /\ Info.fromPublicInfo (Some response_4721) <> Ok None
  /\ exists e, Info.fromPublicInfo (Some response_empty_id) = Raise e.
Proof.
  split; [|split].
  - apply (fromPublicInfo_absence response_no_id).
    intros ([v Hv] & _). by vm_compute in Hv.
  - apply (fromPublicInfo_absence response_4721). present.
  - apply (fromPublicInfo_absence response_empty_id) with (id := VStr EmptyString);
      [present | by vm_compute | by vm_compute].
Defined.

(** C9, as stated, fails: a ProductName that is present but empty is not
    classified as unknown; the Info is an Emby Server. *)
Lemma fromPublicInfo_empty_product_is_emby :
  response_empty_product !! constants.PROPERTY_SYSTEM_INFO_PRODUCT_NAME
    = Some (VStr EmptyString)
  /\ exists info,
       Info.fromPublicInfo (Some response_empty_product) = Ok (Some info)
       /\ Info.isUnknown info = false
       /\ Info.isEmbyServer info = true.
Proof. split; [done|]. eexists. by vm_compute. Qed.

(** C9, amended: for every response [fromPublicInfo] accepts, the version
    is parsed from the first three dot-separated components of the version
    string (4.7.2.1 gives 4.7.2); an absent or empty (falsy) ProductName
    classifies as Emby Server, the ProductName [Jellyfin Server] as
    Jellyfin, and every other non-empty ProductName but [Emby Server] as
    unknown. *)
Theorem fromPublicInfo_accepted (response : gmap string Value) (info : Info.t) :
  Info.fromPublicInfo (Some response) = Ok (Some info) ->
  (exists s,
     response !! constants.PROPERTY_SYSTEM_INFO_VERSION = Some (VStr s)
     /\ semantic_version.Version (Py.join "." (take 3 (Py.split "." s)))
        = Ok (Info.version info))
  /\ (response !! constants.PROPERTY_SYSTEM_INFO_VERSION = Some (VStr "4.7.2.1") ->
      Info.version info
      = {| semantic_version.major := 4; semantic_version.minor := 7;
           semantic_version.patch := 2 |})
  /\ (response !! constants.PROPERTY_SYSTEM_INFO_PRODUCT_NAME = None ->
      Info.isEmbyServer info = true /\ Info.isUnknown info = false)
  /\ (forall v,
        response !! constants.PROPERTY_SYSTEM_INFO_PRODUCT_NAME = Some v ->
        Py.truthy v = false ->
        Info.isEmbyServer info = true /\ Info.isUnknown info = false)
  /\ (response !! constants.PROPERTY_SYSTEM_INFO_PRODUCT_NAME
        = Some (VStr Info.JELLYFIN_SERVER) ->
      Info.isJellyfinServer info = true /\ Info.isUnknown info = false)
  /\ (forall v,
        response !! constants.PROPERTY_SYSTEM_INFO_PRODUCT_NAME = Some v ->
        Py.truthy v = true ->
        v <> VStr Info.EMBY_SERVER ->
        v <> VStr Info.JELLYFIN_SERVER ->
        Info.isUnknown info = true).
Proof.
  intros H.
  apply fromPublicInfo_Some in H as (id & name & s & version & _ & _ & Hver & Hv & _ & ->).
  unfold Info.isUnknown, Info.isEmbyServer, Info.isJellyfinServer. simpl.
  split_and!.
  - by exists s.
  - intros Hs. rewrite Hver in Hs. injection Hs as ->.
    vm_compute in Hv. by injection Hv as <-.
  - by intros ->.
  - intros v -> Hf. simpl. unfold Py.or. by rewrite Hf.
  - by intros ->.
  - intros v -> Ht Hne Hnj. simpl. unfold Py.or. rewrite Ht.
    destruct v as [| | |x]; simpl; try done.
    destruct (String.eqb_spec x Info.EMBY_SERVER) as [->|_]; [done|].
    destruct (String.eqb_spec x Info.JELLYFIN_SERVER) as [->|_]; done.
Qed.

Lemma fromPublicInfo_accepted_witness :
  exists info,
    Info.fromPublicInfo (Some response_4721) = Ok (Some info)
    /\ Info.version info
       = {| semantic_version.major := 4; semantic_version.minor := 7;
            semantic_version.patch := 2 |}
    /\ Info.isEmbyServer info = true.
Proof.
  destruct (Info.fromPublicInfo (Some response_4721)) as [[info|]|] eqn:H;
    [|by vm_compute in H..].
  destruct (fromPublicInfo_accepted response_4721 info H) as (_ & Hv & He & _).
  exists info. split; [done|]. split.
  - apply Hv. by vm_compute.
  - apply He. by vm_compute.
Defined.

(** ** Server.BuildPlayableItemUrl *)

Lemma string_app_assoc (a b c : string) : (a ++ b) ++ c = a ++ (b ++ c).
Proof.
  induction a as [|x a IH]; [done|].
  change (String x ((a ++ b) ++ c) = String x (a ++ b ++ c)). by f_equal.
Qed.

Lemma str_truthy_true s : Py.str_truthy s = true <-> s <> EmptyString.
Proof. by destruct s. Qed.

Lemma split_nonempty sep s : Py.split sep s <> [].
Proof.
  destruct s as [|c s]; simpl; [done|].
  destruct (Ascii.eqb c sep); [done|]. by destruct (Py.split sep s).
Qed.




(** ** The provider registry *)

Lemma setitem_get {V} k (v : V) d : Py.get k (Py.setitem k v d) = Some v.
Proof.
  induction d as [|[k' v'] d IH]; simpl.
  - by rewrite String.eqb_refl.
  - destruct (String.eqb k' k) eqn:E; simpl; by rewrite E.
Qed.

Lemma setitem_contains {V} k (v : V) d : Py.contains k (Py.setitem k v d) = true.
Proof.
  induction d as [|[k' v'] d IH]; simpl.
  - by rewrite String.eqb_refl.
  - destruct (String.eqb k' k) eqn:E; simpl; by rewrite E.
Qed.

Lemma delitem_absent {V} k (d : list (string * V)) :
  Py.contains k d = false -> Py.delitem k d = Raise (KeyError k).
Proof.
  induction d as [|[k' v'] d IH]; simpl; [done|].
  intros [-> Hd]%orb_false_elim. by rewrite (IH Hd).
Qed.

Lemma delitem_present {V} k (d : list (string * V)) :
  Py.contains k d = true ->
  exists d', Py.delitem k d = Ok d' /\ S (length d') = length d.
Proof.
  induction d as [|[k' v'] d IH]; simpl; [done|].
  destruct (String.eqb k' k); simpl; [by eauto|].
  intros Hd. destruct (IH Hd) as (d' & -> & Hl). eexists. split; [done|].
  simpl. by rewrite Hl.
Qed.

(** C5, as stated, fails: a provider whose identifier is empty is not
    rejected; it is stored under the empty key. *)
Lemma AddProvider_empty_identifier_stored :
  getIdentifier provider_unnamed = EmptyString
  /\ exists p,
       Player.AddProvider (Some provider_unnamed) (Player.__init__ None) world0
         = (Ok tt, p, world0)
       /\ Player._providers p = [(EmptyString, provider_unnamed)].
Proof. split; [done|]. eexists. split; reflexivity. Qed.

(** C5, amended: the registry rejects a null provider, not an empty
    identifier. Adding or removing [None] raises [ValueError] and changes
    nothing; adding a provider stores it under its identifier, whatever it
    is, and it can then be removed; removing a provider whose identifier is
    not in the registry raises
    [KeyError] and changes nothing; removing one whose identifier is in it
    succeeds and takes one entry out. *)
Theorem provider_registry (p : Player.t) (w : World) (mediaProvider : MediaProvider) :
  Player.AddProvider None p w = (Raise (ValueError "invalid mediaProvider"), p, w)
  /\ Player.RemoveProvider None p w = (Raise (ValueError "invalid mediaProvider"), p, w)
  /\ (exists p',
        Player.AddProvider (Some mediaProvider) p w = (Ok tt, p', w)
        /\ Py.get (getIdentifier mediaProvider) (Player._providers p') = Some mediaProvider
        /\ exists p'', Player.RemoveProvider (Some mediaProvider) p' w = (Ok tt, p'', w))
  /\ (Py.contains (getIdentifier mediaProvider) (Player._providers p) = false ->
      Player.RemoveProvider (Some mediaProvider) p w
        = (Raise (KeyError (getIdentifier mediaProvider)), p, w))
  /\ (Py.contains (getIdentifier mediaProvider) (Player._providers p) = true ->
      exists providers,
        Player.RemoveProvider (Some mediaProvider) p w
          = (Ok tt, Player.set_providers providers p, w)
        /\ Py.delitem (getIdentifier mediaProvider) (Player._providers p) = Ok providers
        /\ S (length providers) = length (Player._providers p)).
Proof.
  assert (Hrm : forall q,
            Py.contains (getIdentifier mediaProvider) (Player._providers q) = true ->
            exists providers,
              Player.RemoveProvider (Some mediaProvider) q w
                = (Ok tt, Player.set_providers providers q, w)
              /\ Py.delitem (getIdentifier mediaProvider) (Player._providers q) = Ok providers
              /\ S (length providers) = length (Player._providers q)).
  { intros q Hc. destruct (delitem_present _ _ Hc) as (d & Hd & Hl).
    exists d. split_and!; [|done..].
    unfold Player.RemoveProvider, bind, self, lift, assign. by rewrite Hd. }
  split_and!; [done|done| | |apply Hrm].
  - eexists. split; [reflexivity|]. simpl.
    pose proof (setitem_contains (getIdentifier mediaProvider) mediaProvider
                  (Player._providers p)) as Hc.
    split; [apply setitem_get|].
    destruct (Hrm (Player.set_providers
                     (Py.setitem (getIdentifier mediaProvider) mediaProvider
                        (Player._providers p)) p) Hc) as (d & Hr & _).
    eexists. exact Hr.
  - intros Hc. unfold Player.RemoveProvider, bind, self, lift, assign.
    by rewrite (delitem_absent _ _ Hc).
Qed.

Lemma provider_registry_witness :
  Player.RemoveProvider (Some provider_unnamed) (Player.__init__ None) world0
    = (Raise (KeyError EmptyString), Player.__init__ None, world0)
  /\ exists providers,
       Player.RemoveProvider (Some provider_unnamed)
         (Player.set_providers [(EmptyString, provider_unnamed)] (Player.__init__ None)) world0
       = (Ok tt,
          Player.set_providers providers
            (Player.set_providers [(EmptyString, provider_unnamed)] (Player.__init__ None)),
          world0)
       /\ providers = [].
Proof.
  split.
  - apply (provider_registry (Player.__init__ None) world0 provider_unnamed). reflexivity.
  - destruct (provider_registry
                (Player.set_providers [(EmptyString, provider_unnamed)] (Player.__init__ None))
                world0 provider_unnamed) as (_ & _ & _ & _ & H).
    destruct (H eq_refl) as (providers & Hr & Hd & _).
    exists providers. split; [exact Hr|]. by injection Hd as <-.
Defined.

(** ** Server.ApiGet, ApiPost and ApiDelete *)

(** Unfold the operations of the method monad. *)
Ltac method :=
  unfold bind, ret, raise, lift, self, assign, log, send, now in *.

(** [Authenticate] returns a truth value, never raises, leaves the world
    alone and changes nothing of the server but its authenticator. *)
Lemma Authenticate_total (self : Server.t) (w : World) :
  exists ok a,
    Server.Authenticate self w = (Ok ok, Server.set_authenticator a self, w).
Proof.
  unfold Server.Authenticate. method.
  destruct (Authenticator.IsAuthenticated (Server._authenticator self)).
  - exists true, (Server._authenticator self). by destruct self.
  - destruct (Authenticator.Authenticate (Server._authenticator self)) as [ok a].
    by exists ok, a.
Qed.

Lemma authenticate_fails (self self' : Server.t) (w w' : World) :
  Server.Authenticate self w = (Ok false, self', w') ->
  Server._authenticate self w = (Ok false, self', with_log (authentication_failed self') w').
Proof. intros H. unfold Server._authenticate. method. by rewrite H. Qed.

Lemma authenticate_succeeds (self self' : Server.t) (w w' : World) :
  Server.Authenticate self w = (Ok true, self', w') ->
  Server._authenticate self w = (Ok true, self', w').
Proof. intros H. unfold Server._authenticate. method. by rewrite H. Qed.

Lemma Api_refused (h : Host) (self self' : Server.t) (w w' : World) url data :
  Server.Authenticate self w = (Ok false, self', w') ->
  let w'' := with_log (authentication_failed self') w' in
  Server.ApiGet h url self w = (Ok PyFalse, self', w'')
  /\ Server.ApiPost h url data self w = (Ok PyFalse, self', w'')
  /\ Server.ApiDelete h url self w = (Ok PyFalse, self', w'').
Proof.
  intros H. apply authenticate_fails in H.
  unfold Server.ApiGet, Server.ApiPost, Server.ApiDelete. method.
  rewrite H. by simpl.
Qed.

Lemma Api_granted (h : Host) (self self' : Server.t) (w w' : World) url data :
  Server.Authenticate self w = (Ok true, self', w') ->
  let get := Request.GetAsJson url (api_headers self') in
  let post := Request.PostAsJson url (api_headers self') data in
  let delete := Request.Delete url (api_headers self') in
  Server.ApiGet h url self w
    = (Ok (Answer (transport h get)), self', with_request get w')
  /\ Server.ApiPost h url data self w
     = (Ok (Answer (transport h post)), self', with_request post w')
  /\ Server.ApiDelete h url self w
     = (Ok (Answer (transport h delete)), self', with_request delete w').
Proof.
  intros H. apply authenticate_succeeds in H.
  unfold Server.ApiGet, Server.ApiPost, Server.ApiDelete, Server._get,
    Server.apiCallHeaders, Server.AccessToken, Server.UserId.
  method. rewrite H. by simpl.
Qed.




(** ** The pieces of the player *)

(** What [ApiPost] on a temporary server does to a player: nothing to the
    player itself; the world gets either the log entry of the failed
    authentication or the request. *)
Lemma post_outcome {S} (h : Host) (server : Server.t) url data (p : S) (w : World) :
  (exists server',
     Server.Authenticate server w = (Ok false, server', w)
     /\ on server (Server.ApiPost h url data) p w
        = (Ok PyFalse, p, with_log (authentication_failed server) w))
  \/ (exists server',
        Server.Authenticate server w = (Ok true, server', w)
        /\ let post := Request.PostAsJson url (api_headers server') data in
           on server (Server.ApiPost h url data) p w
           = (Ok (Answer (transport h post)), p, with_request post w)).
Proof.
  destruct (Authenticate_total server w) as ([|] & a & Ha).
  - right. eexists. split; [exact Ha|].
    destruct (Api_granted h _ _ _ _ url data Ha) as (_ & Hp & _).
    unfold on. by rewrite Hp.
  - left. eexists. split; [exact Ha|].
    destruct (Api_refused h _ _ _ _ url data Ha) as (_ & Hp & _).
    unfold on. by rewrite Hp.
Qed.

(** [_preparePlayingData] changes nothing; the stop variant carries the
    [Failed] flag, the other variant carries the event name and no
    [Failed] flag; both carry the item id and the session id. *)
Lemma preparePlayingData_pure (h : Host) stopped event failed (p : Player.t) (w : World) :
  exists data,
    Player._preparePlayingData h stopped event failed p w = (Ok data, p, w)
    /\ data !! "ItemId" = Some (Player.value (Player._itemId p))
    /\ data !! "PlaySessionId" = Some (Player.value (Player._playSessionId p))
    /\ (stopped = true -> data !! "Failed" = Some (VBool failed))
    /\ (stopped = false ->
        data !! "Failed" = None
        /\ data !! "IsPaused" = Some (VBool (Player._paused p))
        /\ forall e, event = Some e -> e <> EmptyString ->
                     data !! "EventName" = Some (VStr e)).
Proof.
  unfold Player._preparePlayingData, Dict.update. method.
  destruct stopped.
  - eexists. split; [reflexivity|]. split_and!; try done.
  - destruct (getTime h), (getTotalTime h), event as [[|c e]|]; simpl;
      (eexists; split; [reflexivity|]; split_and!; try done;
       intros _; split_and!; try done; by intros ? [= <-]).
Qed.

Lemma on_ApiPost_posted {S} (h : Host) (server : Server.t) url data (p : S) (w : World) :
  exists r w',
    on server (Server.ApiPost h url data) p w = (Ok r, p, w')
    /\ posted server url data w w'
    /\ (refused server -> r = PyFalse /\ w' = with_log (authentication_failed server) w).
Proof.
  destruct (post_outcome h server url data p w) as [(s' & Ha & ->)|(s' & Ha & ->)].
  - do 2 eexists. split; [done|]. split; [left; by eauto|done].
  - do 2 eexists. split; [done|]. split; [right; by eauto|].
    intros Hr. specialize (Hr w). congruence.
Qed.

Lemma posted_clock server url data w w' :
  posted server url data w w' -> clockReads w' = clockReads w.
Proof. by intros [(? & _ & ->)|(? & _ & ->)]. Qed.



(** The three ways [_reportPlaybackProgress] can go. *)
Lemma reportPlaybackProgress_cases (h : Host) (event : string) (p : Player.t) (w : World) :
  (Player._item p = None
   /\ Player._reportPlaybackProgress h event p w = (Ok tt, p, w))
  \/ (is_Some (Player._item p)
      /\ exists e,
           Server.__init__ h (Player._mediaProvider p) = Raise e
           /\ Player._reportPlaybackProgress h event p w = (Raise e, p, w))
  \/ (is_Some (Player._item p)
      /\ exists server data w1,
           Server.__init__ h (Player._mediaProvider p) = Ok server
           /\ Player._preparePlayingData h false (Some event) false p w = (Ok data, p, w)
           /\ posted server (Server.BuildSessionsPlayingProgressUrl server) data w w1
           /\ (refused server -> w1 = with_log (authentication_failed server) w)
           /\ Player._reportPlaybackProgress h event p w
              = (Ok tt,
                 Player.set_lastProgressReport (Some (time_time h (clockReads w))) p,
                 with_clock_read w1)).
Proof.
  destruct (preparePlayingData_pure h false (Some event) false p w) as (data & Hd & _).
  unfold Player._reportPlaybackProgress. method.
  destruct (Player._item p) as [it|] eqn:Hit; [right|by left].
  destruct (Server.__init__ h (Player._mediaProvider p)) as [server|e] eqn:Hs.
  - right. split; [by eauto|]. exists server, data.
    destruct (on_ApiPost_posted h server (Server.BuildSessionsPlayingProgressUrl server)
                data p w) as (r & w1 & Hp & Hposted & Href).
    exists w1. split_and!; [done|done|done|by intros [_ ->]%Href|].
    rewrite Hd, Hp. by rewrite <- (posted_clock _ _ _ _ _ Hposted).
  - left. split; [by eauto|]. exists e. by rewrite Hd.
Qed.

(** The three ways [_stopPlayback] can go. *)
Lemma stopPlayback_cases (h : Host) (failed : bool) (p : Player.t) (w : World) :
  (Player._item p = None
   /\ Player._stopPlayback h failed p w = (Ok tt, p, w))
  \/ (is_Some (Player._item p)
      /\ exists e,
           Server.__init__ h (Player._mediaProvider p) = Raise e
           /\ Player._stopPlayback h failed p w = (Raise e, p, w))
  \/ (is_Some (Player._item p)
      /\ exists server data w1,
           Server.__init__ h (Player._mediaProvider p) = Ok server
           /\ Player._preparePlayingData h true None failed p w = (Ok data, p, w)
           /\ posted server (Server.BuildSessionsPlayingStoppedUrl server) data w w1
           /\ Player._stopPlayback h failed p w = (Ok tt, reset_of p, w1)).
Proof.
  destruct (preparePlayingData_pure h true None failed p w) as (data & Hd & _).
  unfold Player._stopPlayback. method.
  destruct (Player._item p) as [it|] eqn:Hit; [right|by left].
  destruct (Server.__init__ h (Player._mediaProvider p)) as [server|e] eqn:Hs.
  - right. split; [by eauto|]. exists server, data.
    destruct (on_ApiPost_posted h server (Server.BuildSessionsPlayingStoppedUrl server)
                data p w) as (r & w1 & Hp & Hposted & _).
    exists w1. split_and!; [done|done|done|].
    by rewrite Hd, Hp.
  - left. split; [by eauto|]. exists e. by rewrite Hd.
Qed.

(** The loop over the providers either finds nothing and changes nothing,
    or stops at the first provider with a matching item and sets the item
    and the provider together; it calls no server. *)
Lemma matchProviders_cases (h : Host) (providers : list MediaProvider)
    (p : Player.t) (w : World) :
  ((forall mediaProvider, In mediaProvider providers ->
      Player.matchingItems (Player._itemId p)
        (getImportedItemsByProvider h mediaProvider) = [])
   /\ Player.matchProviders h providers p w = (Ok tt, p, w))
  \/ (exists item mediaProvider w',
        Player.matchProviders h providers p w
          = (Ok tt, Player.set_mediaProvider (Some mediaProvider)
                      (Player.set_item (Some item) p), w')
        /\ In mediaProvider providers
        /\ head (Player.matchingItems (Player._itemId p)
                   (getImportedItemsByProvider h mediaProvider)) = Some item
        /\ requests w' = requests w
        /\ clockReads w' = clockReads w).
Proof.
  induction providers as [|mediaProvider rest IH].
  - left. split; [by intros ? []|done].
  - simpl. method.
    destruct (Player.matchingItems (Player._itemId p)
                (getImportedItemsByProvider h mediaProvider)) as [|first more] eqn:Hm.
    + destruct IH as [[Hn Hr]|(item & mp & w' & Hr & Hin & Hh & Hq & Hc)].
      * left. split; [|done]. intros mp [<-|Hin]; [done|by apply Hn].
      * right. exists item, mp, w'. split_and!; try done. by right.
    + right. exists first, mediaProvider.
      destruct (1 <? length (first :: more))%nat; eexists;
        (split_and!; [reflexivity|by left|by rewrite Hm|done|done]).
Qed.

(** [_startPlayback], step by step. *)
Lemma startPlayback_unfold (h : Host) (p : Player.t) (w : World) :
  Player._startPlayback h p w =
    if negb (Py.opt_str_truthy (Player._file p)) then (Ok tt, p, w)
    else if negb (isPlayingVideo h) then (Ok tt, p, w)
    else
      match playingVideoInfoTag h with
      | None => (Ok tt, p, w)
      | Some videoInfoTag =>
          let id := getUniqueID videoInfoTag constants.EMBY_PROTOCOL in
          let p1 := Player.set_itemId (Some id) p in
          if negb (Py.str_truthy id) then (Ok tt, p1, w)
          else
            match Player.matchProviders h (Py.values (Player._providers p)) p1 w with
            | (Ok _, q, w1) =>
                match Player._item q with
                | None => (Ok tt, q, w1)
                | Some _ => announce h q w1
                end
            | (Raise e, q, w1) => (Raise e, q, w1)
            end
      end.
Proof.
  unfold Player._startPlayback, announce. method.
  destruct (Py.opt_str_truthy (Player._file p)); [|done].
  destruct (isPlayingVideo h); [|done].
  destruct (playingVideoInfoTag h) as [videoInfoTag|]; [|done].
  simpl. destruct (Py.str_truthy _); [|done]. simpl.
  destruct (Player.matchProviders _ _ _ _) as [[[[]|e] q] w1]; [|done].
  by destruct (Player._item q).
Qed.

(** The two ways the announcement of a session can go. *)
Lemma announce_cases (h : Host) (q : Player.t) (w1 : World) :
  let q' := Player.set_playSessionId (Some (Py.remove "-" (uuid4 h))) q in
  (exists e,
     Server.__init__ h (Player._mediaProvider q) = Raise e
     /\ announce h q w1 = (Raise e, q', w1))
  \/ (exists server data w2,
        Server.__init__ h (Player._mediaProvider q) = Ok server
        /\ posted server (Server.BuildSessionsPlayingUrl server) data w1 w2
        /\ announce h q w1
           = (Ok tt,
              Player.set_lastProgressReport (Some (time_time h (clockReads w1))) q',
              with_clock_read w2)).
Proof.
  intros q'. unfold announce. method.
  destruct (preparePlayingData_pure h false None false q' w1) as (data & Hd & _).
  fold q'. rewrite Hd.
  change (Player._mediaProvider q') with (Player._mediaProvider q).
  destruct (Server.__init__ h (Player._mediaProvider q)) as [server|e] eqn:Hs.
  - right. exists server, data.
    destruct (on_ApiPost_posted h server (Server.BuildSessionsPlayingUrl server)
                data q' w1) as (r & w2 & Hp & Hposted & _).
    exists w2. split_and!; [done|done|].
    cbv zeta. rewrite Hp. by rewrite <- (posted_clock _ _ _ _ _ Hposted).
  - left. by exists e.
Qed.

(** The ways [_startPlayback] can go: a precondition is unmet and nothing
    happens; or the item id is recorded and the attempt stops there (the
    id is empty, or nothing matches and no item was set before); or an
    item is set, the session id is assigned and the server is told,
    unless it cannot be constructed. *)
Lemma startPlayback_cases (h : Host) (p : Player.t) (w : World) :
  Player._startPlayback h p w = (Ok tt, p, w)
  \/ (exists id,
        Player._startPlayback h p w = (Ok tt, Player.set_itemId (Some id) p, w)
        /\ (Py.str_truthy id = false \/ Player._item p = None))
  \/ (exists id q w1,
        (q = Player.set_itemId (Some id) p /\ w1 = w
         \/ exists item mediaProvider,
              q = Player.set_mediaProvider (Some mediaProvider)
                    (Player.set_item (Some item) (Player.set_itemId (Some id) p)))
        /\ is_Some (Player._item q)
        /\ requests w1 = requests w
        /\ clockReads w1 = clockReads w
        /\ Player._startPlayback h p w = announce h q w1).
Proof.
  rewrite startPlayback_unfold.
  destruct (Py.opt_str_truthy (Player._file p)); [|by left].
  destruct (isPlayingVideo h); [|by left].
  destruct (playingVideoInfoTag h) as [videoInfoTag|]; [|by left].
  right. simpl.
  set (id := getUniqueID videoInfoTag constants.EMBY_PROTOCOL).
  set (p1 := Player.set_itemId (Some id) p).
  destruct (Py.str_truthy id) eqn:Hid; simpl; [|left; exists id; by eauto].
  destruct (matchProviders_cases h (Py.values (Player._providers p)) p1 w)
    as [[Hn ->]|(item & mp & w1 & -> & Hin & Hh & Hq & Hc)].
  - simpl. destruct (Player._item p) as [it|] eqn:Hit.
    + right. exists id, p1, w. split; [by left|].
      split; [simpl; rewrite Hit; by eauto|]. done.
    + left. exists id. by eauto.
  - simpl. right.
    exists id, (Player.set_mediaProvider (Some mp) (Player.set_item (Some item) p1)), w1.
    split; [right; by eauto|].
    split; [by eauto|]. done.
Qed.

(** ** The session group *)

Lemma reachable_after h c p w :
  reachable p w -> reachable (fst (after h c (p, w))) (snd (after h c (p, w))).
Proof.
  intros Hr. unfold after. simpl.
  destruct (run h c p w) as [[r p'] w'] eqn:E. simpl. by eapply reachable_step.
Qed.

Lemma reachable_history calls pw :
  reachable (fst pw) (snd pw) ->
  reachable (fst (history calls pw)) (snd (history calls pw)).
Proof.
  revert pw. induction calls as [|[h c] calls IH]; intros [p w] Hr; [done|].
  simpl. apply IH. by apply reachable_after.
Qed.

(** [Process], step by step. *)
Lemma Process_unfold (h : Host) (p : Player.t) (w : World) :
  Player.Process h p w =
    match Player._lastProgressReport p with
    | None => (Ok tt, p, w)
    | Some lastProgressReport =>
        if negb (Py.num_truthy lastProgressReport) then (Ok tt, p, w)
        else if Player.Qlt_bool (time_time h (clockReads w) - lastProgressReport)
                  (Player._progressInterval p)
        then (Ok tt, p, with_clock_read w)
        else Player._reportPlaybackProgress h constants.PLAYING_PROGRESS_EVENT_TIME_UPDATE
               p (with_clock_read w)
    end.
Proof.
  unfold Player.Process. method.
  destruct (Player._lastProgressReport p) as [t|]; [|done].
  destruct (Py.num_truthy t); [|done]. simpl.
  by destruct (Player.Qlt_bool _ _).
Qed.

(** [session_coherent] looks at the four session attributes only. *)
Lemma coherent_same (p p' : Player.t) :
  Player._item p' = Player._item p ->
  Player._itemId p' = Player._itemId p ->
  Player._mediaProvider p' = Player._mediaProvider p ->
  Player._playSessionId p' = Player._playSessionId p ->
  session_coherent p -> session_coherent p'.
Proof. unfold session_coherent. by intros -> -> -> ->. Qed.

Lemma coherent_reset (p : Player.t) : session_coherent (reset_of p).
Proof.
  unfold session_coherent. simpl.
  split_and!; try split; by intros [? [=]].
Qed.

Lemma reportPlaybackProgress_coherent h event p w r p' w' :
  Player._reportPlaybackProgress h event p w = (r, p', w') ->
  session_coherent p -> session_coherent p'.
Proof.
  destruct (reportPlaybackProgress_cases h event p w)
    as [[_ ->]|[(_ & e & _ & ->)|(_ & server & data & w1 & _ & _ & _ & _ & ->)]];
    intros [= <- <- <-]; [done|done|].
  by apply coherent_same.
Qed.

Lemma stopPlayback_coherent h failed p w r p' w' :
  Player._stopPlayback h failed p w = (r, p', w') ->
  session_coherent p -> session_coherent p'.
Proof.
  destruct (stopPlayback_cases h failed p w)
    as [[_ ->]|[(_ & e & _ & ->)|(_ & server & data & w1 & _ & _ & _ & ->)]];
    intros [= <- <- <-]; [done|done|].
  intros _. apply coherent_reset.
Qed.

Lemma startPlayback_coherent h p w r p' w' :
  Player._startPlayback h p w = (r, p', w') ->
  session_coherent p -> session_coherent p'.
Proof.
  destruct (startPlayback_cases h p w)
    as [->|[(id & -> & _)|(id & q & w1 & Hq & Hitem & _ & _ & ->)]].
  - by intros [= <- <- <-].
  - intros [= <- <- <-] (Hmp & Hps & Hid).
    unfold session_coherent. simpl. split_and!; try done; by eauto.
  - intros Ha Hp.
    assert (session_coherent
              (Player.set_playSessionId (Some (Py.remove "-" (uuid4 h))) q)) as Hq'.
    { destruct Hq as [[-> ->]|(item & mp & ->)].
      - destruct Hp as (Hmp & Hps & Hid). simpl in Hitem.
        unfold session_coherent. simpl. split_and!; try done; by eauto.
      - unfold session_coherent. simpl. split_and!; try split; by eauto. }
    destruct (announce_cases h q w1)
      as [(e & _ & He)|(server & data & w2 & _ & _ & He)];
      rewrite He in Ha; injection Ha as <- <- <-; [done|].
    by eapply coherent_same, Hq'.
Qed.

(** Every callback keeps the item, the provider and the session id
    together. *)
Lemma run_coherent h c p w r p' w' :
  run h c p w = (r, p', w') -> session_coherent p -> session_coherent p'.
Proof.
  destruct c; unfold run.
  - destruct mediaProvider as [mp|]; intros [= <- <- <-]; [|done].
    by apply coherent_same.
  - destruct mediaProvider as [mp|]; [|by intros [= <- <- <-]].
    unfold Player.RemoveProvider. method.
    destruct (Py.delitem _ _); intros [= <- <- <-]; [|done].
    by apply coherent_same.
  - rewrite Process_unfold.
    destruct (Player._lastProgressReport p) as [t|]; [|by intros [= <- <- <-]].
    destruct (Py.num_truthy t); [|by intros [= <- <- <-]]. simpl.
    destruct (Player.Qlt_bool _ _); [by intros [= <- <- <-]|].
    apply reportPlaybackProgress_coherent.
  - intros [= <- <- <-] _.
    apply (coherent_same (reset_of p)); [done..|apply coherent_reset].
  - apply startPlayback_coherent.
  - apply reportPlaybackProgress_coherent.
  - apply reportPlaybackProgress_coherent.
  - unfold Player.onPlayBackPaused. method. intros H Hp.
    eapply reportPlaybackProgress_coherent; [exact H|]. by eapply coherent_same, Hp.
  - unfold Player.onPlayBackResumed. method. intros H Hp.
    eapply reportPlaybackProgress_coherent; [exact H|]. by eapply coherent_same, Hp.
  - apply (stopPlayback_coherent h false).
  - apply (stopPlayback_coherent h false).
  - apply (stopPlayback_coherent h true).
Qed.

Lemma matchProviders_no_match (h : Host) (p : Player.t) (w : World) id :
  Player._itemId p = Some id ->
  no_match h p id ->
  Player.matchProviders h (Py.values (Player._providers p)) p w = (Ok tt, p, w).
Proof.
  intros Hid Hn.
  destruct (matchProviders_cases h (Py.values (Player._providers p)) p w)
    as [[_ ->]|(item & mp & w' & _ & Hin & Hh & _)]; [done|].
  rewrite Hid, (Hn mp Hin) in Hh. done.
Qed.

(** C1, as stated, fails: after a playback start whose match finds no
    provider, the item id is set while the item, the provider and the
    session id are not. *)
Lemma aborted_match_keeps_itemId :
  let p := fst (history unmatched_playback start) in
  let w := snd (history unmatched_playback start) in
  reachable p w
  /\ Player._itemId p = Some "abc"
  /\ Player._item p = None
  /\ Player._mediaProvider p = None
  /\ Player._playSessionId p = None
  /\ ~ all_or_nothing p.
Proof.
  split; [apply reachable_history, reachable_init|].
  split_and!; try reflexivity.
  intros [(_ & _ & _ & [? H])|(_ & H & _)]; by vm_compute in H.
Qed.

(** C1, amended: in every reachable state the item, the provider and the
    session id are set together, and the item id is set whenever they
    are; the item id alone may be set. When [onAVStarted] finds no provider
    with a matching item (and no item was set before), the item, the
    provider and the session id stay unset, the item id holds the id of
    the playing item, and the world is untouched. *)
Theorem session_group_invariant :
  (forall p w, reachable p w -> session_coherent p)
  /\ (forall h p w videoInfoTag id,
        Py.opt_str_truthy (Player._file p) = true ->
        isPlayingVideo h = true ->
        playingVideoInfoTag h = Some videoInfoTag ->
        getUniqueID videoInfoTag constants.EMBY_PROTOCOL = id ->
        id <> EmptyString ->
        Player._item p = None ->
        no_match h p id ->
        run h AVStarted p w = (Ok tt, Player.set_itemId (Some id) p, w)).
Proof.
  split.
  - intros p w Hr. induction Hr as [interval|h c p w r p' w' _ IH Hrun].
    + unfold session_coherent. simpl. split_and!; try split; by intros [? [=]].
    + by eapply run_coherent.
  - intros h p w tag id Hf Hv Ht Hid Hne Hitem Hn. simpl.
    unfold Player.onAVStarted. rewrite startPlayback_unfold.
    rewrite Hf, Hv, Ht, Hid. simpl.
    apply str_truthy_true in Hne. rewrite Hne. simpl.
    pose proof (matchProviders_no_match h (Player.set_itemId (Some id) p) w id
                  eq_refl Hn) as Hm.
    simpl in Hm. rewrite Hm. simpl. by rewrite Hitem.
Qed.

Lemma session_group_invariant_witness :
  session_coherent (fst (history matched_playback start))
  /\ run host_playing AVStarted (fst (history [(host_playing, PlayBackStarted)] start))
       world0
     = (Ok tt,
        Player.set_itemId (Some "abc")
          (fst (history [(host_playing, PlayBackStarted)] start)),
        world0).
Proof.
  destruct session_group_invariant as [Hinv Habort]. split.
  - apply (Hinv _ (snd (history matched_playback start))).
    apply reachable_history, reachable_init.
  - apply (Habort host_playing _ world0 tag_abc "abc");
      [reflexivity|reflexivity|reflexivity|reflexivity|done|reflexivity|].
    intros mp []. 
Defined.

(** ** Stopping *)

(** C2, as stated, fails: after a stop with a matched item the timestamp
    of the last progress report is still set. *)
Lemma stop_keeps_last_report :
  let before := history matched_playback start in
  let stopped := after host_playing PlayBackStopped before in
  is_Some (Player._item (fst before))
  /\ Player._lastProgressReport (fst before) = Some (clock 0)
  /\ session_cleared (fst stopped)
  /\ Player._lastProgressReport (fst stopped) = Some (clock 0)
  /\ Player._lastProgressReport (fst stopped)
     <> Player._lastProgressReport (Player.__init__ None).
Proof.
  split_and!; try reflexivity; [by eexists|by unfold session_cleared|done].
Qed.

(** C2, amended: after [onPlayBackStopped], [onPlayBackEnded] or
    [onPlayBackError] with a matched item whose provider still yields a
    server, the file, the item, the item id, the provider and the session
    id are unset and the pause flag is false; the timestamp of the last
    progress report is not cleared, it keeps its value, as do the registry
    and the interval. *)
Theorem stop_clears_session (h : Host) (c : Callback) (p : Player.t) (w : World)
    (server : Server.t) :
  c = PlayBackStopped \/ c = PlayBackEnded \/ c = PlayBackError ->
  is_Some (Player._item p) ->
  Server.__init__ h (Player._mediaProvider p) = Ok server ->
  exists p' w',
    run h c p w = (Ok tt, p', w')
    /\ session_cleared p'
    /\ Player._lastProgressReport p' = Player._lastProgressReport p
    /\ Player._providers p' = Player._providers p
    /\ Player._progressInterval p' = Player._progressInterval p.
Proof.
  intros Hc Hitem Hs.
  assert (exists failed, run h c p w = Player._stopPlayback h failed p w) as [failed ->].
  { destruct Hc as [-> | [-> | ->]];
      [exists false|exists false|exists true]; reflexivity. }
  destruct (stopPlayback_cases h failed p w)
    as [[Hn _]|[(_ & e & He & _)|(_ & server' & data & w1 & _ & _ & _ & ->)]].
  - rewrite Hn in Hitem. by destruct Hitem.
  - congruence.
  - by exists (reset_of p), w1.
Qed.

Lemma stop_clears_session_witness :
  exists p' w',
    run host_playing PlayBackError (fst (history matched_playback start))
      (snd (history matched_playback start))
    = (Ok tt, p', w')
    /\ session_cleared p'
    /\ Player._lastProgressReport p' = Some (clock 0).
Proof.
  destruct (stop_clears_session host_playing PlayBackError
              (fst (history matched_playback start))
              (snd (history matched_playback start))
              (Server.set_authenticator granted server_living_room))
    as (p' & w' & Hrun & Hcleared & Hlast & _).
  - by right; right.
  - by eexists.
  - reflexivity.
  - exists p', w'. split_and!; [done|done|]. by rewrite Hlast.
Defined.

(** ** Progress reports *)

Lemma Qlt_bool_false x y : Player.Qlt_bool x y = false <-> (y <= x)%Q.
Proof.
  unfold Player.Qlt_bool. rewrite negb_false_iff. apply Qle_bool_iff.
Qed.

Lemma Qlt_bool_true x y : Player.Qlt_bool x y = true <-> (x < y)%Q.
Proof.
  unfold Player.Qlt_bool. rewrite negb_true_iff, <- not_true_iff_false, Qle_bool_iff.
  split; [apply Qnot_le_lt|apply Qlt_not_le].
Qed.

Lemma authenticates_posted server server' url data w w' :
  authenticates server server' ->
  posted server url data w w' ->
  w' = with_request (Request.PostAsJson url (api_headers server') data) w.
Proof.
  intros Ha [(s & Hs & _)|(s & Hs & ->)]; rewrite (Ha w) in Hs; [done|].
  by injection Hs as <-.
Qed.

Lemma app_singleton_neq {A} (l : list A) (x : A) : l <> (l ++ [x])%list.
Proof.
  intros H. apply (f_equal length) in H. rewrite length_app in H. simpl in H. lia.
Qed.

Lemma posted_changes_world server url data w w' :
  posted server url data w w' -> logged w' <> logged w \/ requests w' <> requests w.
Proof.
  intros [(s & _ & ->)|(s & _ & ->)]; [left|right]; simpl; intros H;
    symmetry in H; by apply app_singleton_neq in H.
Qed.

(** What a due [Process] does when the provider yields a server: it
    reads the clock, makes the progress report with the time-update
    payload and stores the next reading of the clock. *)
Lemma Process_due (h : Host) (p : Player.t) (w : World) last item server :
  Player._lastProgressReport p = Some last ->
  Py.num_truthy last = true ->
  Player._item p = Some item ->
  Server.__init__ h (Player._mediaProvider p) = Ok server ->
  (Player._progressInterval p <= time_time h (clockReads w) - last)%Q ->
  exists data w',
    Player._preparePlayingData h false
      (Some constants.PLAYING_PROGRESS_EVENT_TIME_UPDATE) false p (with_clock_read w)
    = (Ok data, p, with_clock_read w)
    /\ data !! "EventName" = Some (VStr constants.PLAYING_PROGRESS_EVENT_TIME_UPDATE)
    /\ posted server (Server.BuildSessionsPlayingProgressUrl server) data
         (with_clock_read w) w'
    /\ (refused server -> w' = with_log (authentication_failed server) (with_clock_read w))
    /\ Player.Process h p w
       = (Ok tt,
          Player.set_lastProgressReport (Some (time_time h (S (clockReads w)))) p,
          with_clock_read w').
Proof.
  intros Hlast Ht Hitem Hs Hdue.
  rewrite Process_unfold, Hlast, Ht. simpl.
  apply Qlt_bool_false in Hdue. rewrite Hdue.
  destruct (reportPlaybackProgress_cases h constants.PLAYING_PROGRESS_EVENT_TIME_UPDATE
              p (with_clock_read w))
    as [[Hn _]|[(_ & e & He & _)|(_ & server0 & data & w1 & Hs0 & Hd & Hp & Hr & ->)]];
    [congruence|congruence|].
  rewrite Hs in Hs0. injection Hs0 as <-.
  exists data, w1. split_and!; [done| |done|done|done].
  destruct (preparePlayingData_pure h false
              (Some constants.PLAYING_PROGRESS_EVENT_TIME_UPDATE) false p
              (with_clock_read w)) as (data' & Hd' & _ & _ & _ & Hev).
  rewrite Hd in Hd'. injection Hd' as <-.
  by apply (Hev eq_refl).
Qed.

(** What a due [Process] does when the provider yields no server. *)
Lemma Process_due_raises (h : Host) (p : Player.t) (w : World) last item e :
  Player._lastProgressReport p = Some last ->
  Py.num_truthy last = true ->
  Player._item p = Some item ->
  Server.__init__ h (Player._mediaProvider p) = Raise e ->
  (Player._progressInterval p <= time_time h (clockReads w) - last)%Q ->
  Player.Process h p w = (Raise e, p, with_clock_read w).
Proof.
  intros Hlast Ht Hitem Hs Hdue.
  rewrite Process_unfold, Hlast, Ht. simpl.
  apply Qlt_bool_false in Hdue. rewrite Hdue.
  destruct (reportPlaybackProgress_cases h constants.PLAYING_PROGRESS_EVENT_TIME_UPDATE
              p (with_clock_read w))
    as [[Hn _]|[(_ & e0 & He & ->)|(_ & server0 & data & w1 & Hs0 & _)]];
    [congruence| |congruence].
  rewrite Hs in He. by injection He as <-.
Qed.

(** C3, as stated, fails: with a recorded timestamp, a matched item and
    the interval elapsed, [Process] need not send a report. When the
    authentication is refused it sends nothing and still refreshes the
    timestamp; when the provider has no settings it raises, sends nothing
    and keeps the timestamp. Both players are reachable. *)
Lemma due_process_without_report :
  let refusing := history refused_wait start in
  let refused_p := after host_playing_refused CallProcess refusing in
  let bare := history settingsless_wait start in
  (reachable (fst refusing) (snd refusing)
   /\ is_Some (Player._item (fst refusing))
   /\ Player._lastProgressReport (fst refusing) = Some (clock 0)
   /\ (Player._progressInterval (fst refusing)
       <= clock (clockReads (snd refusing)) - clock 0)%Q
   /\ requests (snd refused_p) = requests (snd refusing)
   /\ Player._lastProgressReport (fst refused_p) = Some (clock 3))
  /\ (reachable (fst bare) (snd bare)
      /\ is_Some (Player._item (fst bare))
      /\ Player._lastProgressReport (fst bare) = Some (clock 0)
      /\ (Player._progressInterval (fst bare)
          <= clock (clockReads (snd bare)) - clock 0)%Q
      /\ run host_playing CallProcess (fst bare) (snd bare)
         = (Raise (ValueError "Invalid provider without settings"), fst bare,
            with_clock_read (snd bare))).
Proof.
  split; (split; [apply reachable_history, reachable_init|]).
  - split_and!; [by eexists|by vm_compute..].
  - split_and!; [by eexists|by vm_compute..].
Qed.

(** C3, amended: with a recorded, non-zero timestamp, [Process] reads the
    clock and does nothing more while the time elapsed since the last
    report is less than the interval, or when no item is matched. With a
    matched item whose provider yields a server, it makes the [ApiPost] of
    the time-update payload to the progress endpoint and refreshes the
    timestamp if and only if the elapsed time is at least the interval,
    equality included; the report reaches the transport when the
    authentication succeeds, and when it is refused only the failure is
    logged while the timestamp is refreshed all the same. With a matched
    item whose provider yields no server a due [Process] raises, sends
    nothing and keeps the timestamp. With no recorded timestamp, or a zero
    one, [Process] does nothing at all. The default interval is 10
    seconds. *)
Theorem Process_throttle (h : Host) (p : Player.t) (w : World) :
  (Player._lastProgressReport p = None -> run h CallProcess p w = (Ok tt, p, w))
  /\ (forall last,
        Player._lastProgressReport p = Some last ->
        Py.num_truthy last = false ->
        run h CallProcess p w = (Ok tt, p, w))
  /\ (forall last,
        Player._lastProgressReport p = Some last ->
        Py.num_truthy last = true ->
        let elapsed := (time_time h (clockReads w) - last)%Q in
        let due := (Player._progressInterval p <= elapsed)%Q in
        let reading := with_clock_read w in
        let refreshed :=
          Player.set_lastProgressReport (Some (time_time h (S (clockReads w)))) p in
        ((elapsed < Player._progressInterval p)%Q ->
         run h CallProcess p w = (Ok tt, p, reading))
        /\ (due -> Player._item p = None -> run h CallProcess p w = (Ok tt, p, reading))
        /\ (forall item e,
              due -> Player._item p = Some item ->
              Server.__init__ h (Player._mediaProvider p) = Raise e ->
              run h CallProcess p w = (Raise e, p, reading))
        /\ (forall item server,
              Player._item p = Some item ->
              Server.__init__ h (Player._mediaProvider p) = Ok server ->
              let url := Server.BuildSessionsPlayingProgressUrl server in
              exists data,
                Player._preparePlayingData h false
                  (Some constants.PLAYING_PROGRESS_EVENT_TIME_UPDATE) false p reading
                = (Ok data, p, reading)
                /\ data !! "EventName"
                   = Some (VStr constants.PLAYING_PROGRESS_EVENT_TIME_UPDATE)
                /\ ((exists w',
                       posted server url data reading w'
                       /\ run h CallProcess p w = (Ok tt, refreshed, with_clock_read w'))
                    <-> due)
                /\ (forall server',
                      authenticates server server' -> due ->
                      run h CallProcess p w
                      = (Ok tt, refreshed,
                         with_clock_read
                           (with_request
                              (Request.PostAsJson url (api_headers server') data)
                              reading)))
                /\ (refused server -> due ->
                    run h CallProcess p w
                    = (Ok tt, refreshed,
                       with_clock_read
                         (with_log (authentication_failed server) reading)))))
  /\ Player._progressInterval (Player.__init__ None) = 10%Q.
Proof.
  split_and!; [| |intros last Hlast Ht elapsed due reading refreshed|done].
  - intros Hlast. unfold run. by rewrite Process_unfold, Hlast.
  - intros last Hlast Ht. unfold run. by rewrite Process_unfold, Hlast, Ht.
  - assert (Hwait : (elapsed < Player._progressInterval p)%Q ->
                    run h CallProcess p w = (Ok tt, p, reading)).
    { intros Hlt. unfold run. rewrite Process_unfold, Hlast, Ht. simpl.
      apply Qlt_bool_true in Hlt. subst elapsed. by rewrite Hlt. }
    split_and!; [exact Hwait| | |].
    + intros Hdue Hitem. unfold run. rewrite Process_unfold, Hlast, Ht. simpl.
      apply Qlt_bool_false in Hdue. subst elapsed. rewrite Hdue.
      destruct (reportPlaybackProgress_cases h
                  constants.PLAYING_PROGRESS_EVENT_TIME_UPDATE p (with_clock_read w))
        as [[_ ->]|[([? H] & _)|([? H] & _)]]; [done|congruence|congruence].
    + intros item e Hdue Hitem Hs. unfold run. by eapply Process_due_raises.
    + intros item server Hitem Hs url.
      destruct (preparePlayingData_pure h false
                  (Some constants.PLAYING_PROGRESS_EVENT_TIME_UPDATE) false p reading)
        as (data & Hd & _ & _ & _ & Hev).
      exists data. split_and!; [done|by apply (Hev eq_refl)| | |].
      * split.
        -- intros (w' & Hp & Hrun).
           destruct (Qlt_le_dec elapsed (Player._progressInterval p)) as [Hlt|Hle];
             [|done].
           rewrite (Hwait Hlt) in Hrun. injection Hrun as _ Hlog Hreq _.
           by destruct (posted_changes_world _ _ _ _ _ Hp) as [Hl|Hr].
        -- intros Hdue.
           destruct (Process_due h p w last item server Hlast Ht Hitem Hs Hdue)
             as (data' & w' & Hd' & _ & Hp & _ & Hrun).
           subst reading. rewrite Hd in Hd'. injection Hd' as <-.
           exists w'. by split.
      * intros server' Ha Hdue.
        destruct (Process_due h p w last item server Hlast Ht Hitem Hs Hdue)
          as (data' & w' & Hd' & _ & Hp & _ & Hrun).
        subst reading. rewrite Hd in Hd'. injection Hd' as <-.
        unfold run. rewrite Hrun.
        by rewrite (authenticates_posted _ _ _ _ _ _ Ha Hp).
      * intros Href Hdue.
        destruct (Process_due h p w last item server Hlast Ht Hitem Hs Hdue)
          as (data' & w' & _ & _ & _ & Hw' & Hrun).
        unfold run. rewrite Hrun. by rewrite (Hw' Href).
Qed.

Lemma Process_throttle_witness :
  let p := fst (history matched_playback start) in
  let w := snd (history matched_playback start) in
  Player._lastProgressReport p = Some (clock 0)
  /\ Player._progressInterval p = 10%Q
  /\ run host_playing CallProcess p w = (Ok tt, p, with_clock_read w)
  /\ (exists data,
        run host_playing CallProcess p (with_clock_read w)
        = (Ok tt,
           Player.set_lastProgressReport (Some (clock 3)) p,
           with_clock_read
             (with_request
                (Request.PostAsJson "http://nas:8096/emby/Sessions/Playing/Progress"
                   (api_headers
                      (Server.set_authenticator
                         {| Authenticator.session := Authenticator.grant granted;
                            Authenticator.grant := Authenticator.grant granted |}
                         server_living_room))
                   data)
                (with_clock_read (with_clock_read w)))))
  /\ run host_playing_refused CallProcess p (with_clock_read w)
     = (Ok tt,
        Player.set_lastProgressReport (Some (clock 3)) p,
        with_clock_read
          (with_log (authentication_failed server_living_room)
             (with_clock_read (with_clock_read w))))
  /\ run host_playing CallProcess (fst (history settingsless_wait start))
       (snd (history settingsless_wait start))
     = (Raise (ValueError "Invalid provider without settings"),
        fst (history settingsless_wait start),
        with_clock_read (snd (history settingsless_wait start))).
Proof.
  intros p w. split; [reflexivity|]. split; [reflexivity|].
  split_and!.
  - destruct (Process_throttle host_playing p w) as (_ & _ & H & _).
    destruct (H (clock 0)) as (Hwait & _); [reflexivity|reflexivity|].
    apply Hwait. by vm_compute.
  - destruct (Process_throttle host_playing p (with_clock_read w)) as (_ & _ & H & _).
    destruct (H (clock 0)) as (_ & _ & _ & Hserver); [reflexivity|reflexivity|].
    destruct (Hserver movie_abc (Server.set_authenticator granted server_living_room))
      as (data & _ & _ & _ & Hsent & _); [reflexivity|reflexivity|].
    exists data.
    apply (Hsent (Server.set_authenticator
                    {| Authenticator.session := Authenticator.grant granted;
                       Authenticator.grant := Authenticator.grant granted |}
                    server_living_room)); [intros ?; reflexivity|by vm_compute].
  - destruct (Process_throttle host_playing_refused p (with_clock_read w))
      as (_ & _ & H & _).
    destruct (H (clock 0)) as (_ & _ & _ & Hserver); [reflexivity|reflexivity|].
    destruct (Hserver movie_abc server_living_room)
      as (data & _ & _ & _ & _ & Hrefused); [reflexivity|reflexivity|].
    apply Hrefused; [intros ?; reflexivity|by vm_compute].
  - destruct (Process_throttle host_playing (fst (history settingsless_wait start))
                (snd (history settingsless_wait start))) as (_ & _ & H & _).
    destruct (H (clock 0)) as (_ & _ & Hraise & _); [reflexivity|reflexivity|].
    apply (Hraise movie_abc); [by vm_compute|reflexivity|reflexivity].
Defined.

(** C7, as stated, fails: a progress report whose [ApiPost] is refused
    (nothing reaches the transport) still moves the timestamp of the last
    progress report. *)
Lemma refused_report_moves_timestamp :
  let before := history matched_playback start in
  let seeked := after host_playing_refused (PlayBackSeek 30 0) before in
  (exists server,
     Server.__init__ host_playing_refused (Player._mediaProvider (fst before)) = Ok server
     /\ Server.ApiPost host_playing_refused
          (Server.BuildSessionsPlayingProgressUrl server) ∅ server (snd before)
        = (Ok PyFalse, server, with_log (authentication_failed server) (snd before)))
  /\ requests (snd seeked) = requests (snd before)
  /\ Player._lastProgressReport (fst before) = Some (clock 0)
  /\ Player._lastProgressReport (fst seeked) = Some (clock 1)
  /\ Player._lastProgressReport (fst seeked) <> Player._lastProgressReport (fst before).
Proof.
  split_and!.
  - exists server_living_room. split; by vm_compute.
  - by vm_compute.
  - by vm_compute.
  - by vm_compute.
  - by vm_compute.
Qed.

(** C7, amended: a progress report for a matched item whose provider
    yields a server returns normally whatever [ApiPost] returns, makes the
    call once (no retry) and leaves the file, the item, the item id, the
    provider, the session id, the pause flag, the registry and the
    interval as they were; the timestamp of the last progress report is
    nevertheless set to the current time, as after a successful report.
    In particular, when the authentication is refused, [ApiPost] returns
    [False], nothing reaches the transport and the failure is logged. *)
Theorem refused_report (h : Host) (event : string) (p : Player.t) (w : World)
    (item : ListItem) (server : Server.t) :
  Player._item p = Some item ->
  Server.__init__ h (Player._mediaProvider p) = Ok server ->
  (exists data w',
     posted server (Server.BuildSessionsPlayingProgressUrl server) data w w'
     /\ Player._reportPlaybackProgress h event p w
        = (Ok tt,
           Player.set_lastProgressReport (Some (time_time h (clockReads w))) p,
           with_clock_read w'))
  /\ (refused server ->
      (forall url data,
         Server.ApiPost h url data server w
         = (Ok PyFalse, server, with_log (authentication_failed server) w))
      /\ Player._reportPlaybackProgress h event p w
         = (Ok tt,
            Player.set_lastProgressReport (Some (time_time h (clockReads w))) p,
            with_clock_read (with_log (authentication_failed server) w))).
Proof.
  intros Hitem Hs.
  destruct (reportPlaybackProgress_cases h event p w)
    as [[Hn _]|[(_ & e & He & _)|(_ & server0 & data & w1 & Hs0 & _ & Hp & Hw1 & Hrun)]];
    [congruence|congruence|].
  rewrite Hs in Hs0. injection Hs0 as <-. split.
  - by exists data, w1.
  - intros Href. split.
    + intros url data'.
      by destruct (Api_refused h _ _ _ _ url data' (Href w)) as (_ & -> & _).
    + by rewrite Hrun, (Hw1 Href).
Qed.

Lemma refused_report_witness :
  Player._reportPlaybackProgress host_playing_refused
    constants.PLAYING_PROGRESS_EVENT_PAUSE
    (fst (history matched_playback start)) (snd (history matched_playback start))
  = (Ok tt,
     Player.set_lastProgressReport (Some (clock 1)) (fst (history matched_playback start)),
     with_clock_read
       (with_log (authentication_failed server_living_room)
          (snd (history matched_playback start)))).
Proof.
  destruct (refused_report host_playing_refused constants.PLAYING_PROGRESS_EVENT_PAUSE
              (fst (history matched_playback start))
              (snd (history matched_playback start))
              movie_abc server_living_room) as [_ Href];
    [reflexivity|reflexivity|].
  apply Href. intros ?; reflexivity.
Defined.

(** ** The stopped report *)

Lemma last_char_app (a b : string) :
  b <> EmptyString -> last_char (a ++ b) = last_char b.
Proof.
  intros Hb. induction a as [|c a IH]; [done|].
  change (String c a ++ b) with (String c (a ++ b)).
  simpl. rewrite IH. destruct (a ++ b) eqn:E; [|done].
  destruct a; [|done]. by destruct b.
Qed.

Lemma last_char_playing (server : Server.t) :
  last_char (Server.BuildSessionsPlayingUrl server) = Some "g"%char.
Proof.
  unfold Server.BuildSessionsPlayingUrl, Url.append. simpl. by rewrite last_char_app.
Qed.

Lemma last_char_progress (server : Server.t) :
  last_char (Server.BuildSessionsPlayingProgressUrl server) = Some "s"%char.
Proof.
  unfold Server.BuildSessionsPlayingProgressUrl, Url.append. simpl.
  by rewrite last_char_app.
Qed.

Lemma last_char_stopped (server : Server.t) :
  last_char (Server.BuildSessionsPlayingStoppedUrl server) = Some "d"%char.
Proof.
  unfold Server.BuildSessionsPlayingStoppedUrl, Url.append. simpl.
  by rewrite last_char_app.
Qed.

(** Neither the start report nor a progress report is a stopped report. *)
Lemma playing_not_stopped new :
  posts_to Server.BuildSessionsPlayingUrl new ->
  forall call, In call new -> ~ stopped_post call.
Proof.
  intros Hn call Hin (s2 & h2 & b2 & H2).
  destruct (Hn call Hin) as (s1 & h1 & b1 & H1). rewrite H1 in H2.
  injection H2 as Hurl _ _. apply (f_equal last_char) in Hurl.
  by rewrite last_char_playing, last_char_stopped in Hurl.
Qed.

Lemma progress_not_stopped new :
  posts_to Server.BuildSessionsPlayingProgressUrl new ->
  forall call, In call new -> ~ stopped_post call.
Proof.
  intros Hn call Hin (s2 & h2 & b2 & H2).
  destruct (Hn call Hin) as (s1 & h1 & b1 & H1). rewrite H1 in H2.
  injection H2 as Hurl _ _. apply (f_equal last_char) in Hurl.
  by rewrite last_char_progress, last_char_stopped in Hurl.
Qed.

Lemma posted_new (endpoint : Server.t -> string) server data w w' :
  posted server (endpoint server) data w w' ->
  exists new, requests w' = (requests w ++ new)%list /\ posts_to endpoint new.
Proof.
  intros [(s & _ & ->)|(s & _ & ->)].
  - exists []. split; [by rewrite app_nil_r|by intros ? []].
  - eexists [_]. split; [done|]. intros call [<-|[]]. by eauto.
Qed.

Lemma nothing_new (endpoint : Server.t -> string) (w : World) :
  exists new, requests w = (requests w ++ new)%list /\ posts_to endpoint new.
Proof. exists []. split; [by rewrite app_nil_r|by intros ? []]. Qed.

(** The requests of a progress report go to the progress endpoint. *)
Lemma reportPlaybackProgress_requests h event p w :
  exists r p' w' new,
    Player._reportPlaybackProgress h event p w = (r, p', w')
    /\ requests w' = (requests w ++ new)%list
    /\ posts_to Server.BuildSessionsPlayingProgressUrl new.
Proof.
  destruct (reportPlaybackProgress_cases h event p w)
    as [[_ ->]|[(_ & e & _ & ->)|(_ & server & data & w1 & _ & _ & Hp & _ & ->)]].
  - destruct (nothing_new Server.BuildSessionsPlayingProgressUrl w) as (new & ? & ?).
    by exists (Ok tt), p, w, new.
  - destruct (nothing_new Server.BuildSessionsPlayingProgressUrl w) as (new & ? & ?).
    by exists (Raise e), p, w, new.
  - destruct (posted_new Server.BuildSessionsPlayingProgressUrl _ _ _ _ Hp)
      as (new & ? & ?).
    by do 3 eexists; exists new.
Qed.

(** The requests of a playback start go to the playing endpoint. *)
Lemma startPlayback_requests h p w :
  exists r p' w' new,
    Player._startPlayback h p w = (r, p', w')
    /\ requests w' = (requests w ++ new)%list
    /\ posts_to Server.BuildSessionsPlayingUrl new.
Proof.
  destruct (startPlayback_cases h p w)
    as [->|[(id & -> & _)|(id & q & w1 & _ & _ & Hreq & _ & ->)]].
  - destruct (nothing_new Server.BuildSessionsPlayingUrl w) as (new & ? & ?).
    by exists (Ok tt), p, w, new.
  - destruct (nothing_new Server.BuildSessionsPlayingUrl w) as (new & ? & ?).
    by do 3 eexists; exists new.
  - destruct (announce_cases h q w1)
      as [(e & _ & ->)|(server & data & w2 & _ & Hp & ->)].
    + destruct (nothing_new Server.BuildSessionsPlayingUrl w) as (new & ? & ?).
      do 3 eexists; exists new. split; [done|]. by rewrite Hreq.
    + destruct (posted_new Server.BuildSessionsPlayingUrl _ _ _ _ Hp) as (new & Hn & ?).
      do 3 eexists; exists new. split; [done|]. simpl. by rewrite Hn, Hreq.
Qed.

(** The requests of a stop go to the stopped endpoint, and there are none
    unless an item is matched. *)
Lemma stopPlayback_requests h failed p w :
  exists r p' w' new,
    Player._stopPlayback h failed p w = (r, p', w')
    /\ requests w' = (requests w ++ new)%list
    /\ posts_to Server.BuildSessionsPlayingStoppedUrl new
    /\ (new <> [] -> is_Some (Player._item p)).
Proof.
  destruct (stopPlayback_cases h failed p w)
    as [[_ ->]|[(_ & e & _ & ->)|(Hitem & server & data & w1 & _ & _ & Hp & ->)]].
  - destruct (nothing_new Server.BuildSessionsPlayingStoppedUrl w) as (new & ? & ?).
    exists (Ok tt), p, w, []. split_and!; try done; [by rewrite app_nil_r|by intros ? []].
  - exists (Raise e), p, w, []. split_and!; try done; [by rewrite app_nil_r|by intros ? []].
  - destruct (posted_new Server.BuildSessionsPlayingStoppedUrl _ _ _ _ Hp)
      as (new & ? & ?).
    by do 3 eexists; exists new.
Qed.

(** C10: whatever the callback, the requests it adds contain a POST to
    the stopped endpoint only if the callback is [onPlayBackStopped],
    [onPlayBackEnded] or [onPlayBackError] and an item was matched; and
    [onPlayBackStarted] always returns, discards the session fields of a
    session that is still active and sends and logs nothing. *)
Theorem stopped_only_on_stop (h : Host) (c : Callback) (p : Player.t) (w : World) :
  exists r p' w' new,
    run h c p w = (r, p', w')
    /\ requests w' = (requests w ++ new)%list
    /\ (forall call, In call new -> stopped_post call ->
          (c = PlayBackStopped \/ c = PlayBackEnded \/ c = PlayBackError)
          /\ is_Some (Player._item p))
    /\ (c = PlayBackStarted ->
          r = Ok tt /\ w' = w /\ new = []
          /\ Player._file p' = Some (getPlayingFile h)
          /\ Player._item p' = None /\ Player._itemId p' = None
          /\ Player._mediaProvider p' = None /\ Player._playSessionId p' = None
          /\ Player._paused p' = false).
Proof.
  assert (Hquiet : forall r p',
            run h c p w = (r, p', w) -> c <> PlayBackStarted ->
            exists r p' w' new,
              run h c p w = (r, p', w')
              /\ requests w' = (requests w ++ new)%list
              /\ (forall call, In call new -> stopped_post call ->
                    (c = PlayBackStopped \/ c = PlayBackEnded \/ c = PlayBackError)
                    /\ is_Some (Player._item p))
              /\ (c = PlayBackStarted ->
                    r = Ok tt /\ w' = w /\ new = []
                    /\ Player._file p' = Some (getPlayingFile h)
                    /\ Player._item p' = None /\ Player._itemId p' = None
                    /\ Player._mediaProvider p' = None /\ Player._playSessionId p' = None
                    /\ Player._paused p' = false)).
  { intros r p' Hrun Hc. exists r, p', w, [].
    split_and!; [done|by rewrite app_nil_r|by intros ? []|done]. }
  assert (Hreport : forall event p0 w0,
            requests w0 = requests w ->
            exists r p' w' new,
              Player._reportPlaybackProgress h event p0 w0 = (r, p', w')
              /\ requests w' = (requests w ++ new)%list
              /\ (forall call, In call new -> ~ stopped_post call)).
  { intros event p0 w0 Hw0.
    destruct (reportPlaybackProgress_requests h event p0 w0)
      as (r & p' & w' & new & Hrun & Hreq & Hposts).
    exists r, p', w', new. rewrite <- Hw0.
    split_and!; [done|done|by apply progress_not_stopped]. }
  assert (Hstop : forall failed,
            run h c p w = Player._stopPlayback h failed p w ->
            c = PlayBackStopped \/ c = PlayBackEnded \/ c = PlayBackError ->
            exists r p' w' new,
              run h c p w = (r, p', w')
              /\ requests w' = (requests w ++ new)%list
              /\ (forall call, In call new -> stopped_post call ->
                    (c = PlayBackStopped \/ c = PlayBackEnded \/ c = PlayBackError)
                    /\ is_Some (Player._item p))
              /\ (c = PlayBackStarted ->
                    r = Ok tt /\ w' = w /\ new = []
                    /\ Player._file p' = Some (getPlayingFile h)
                    /\ Player._item p' = None /\ Player._itemId p' = None
                    /\ Player._mediaProvider p' = None /\ Player._playSessionId p' = None
                    /\ Player._paused p' = false)).
  { intros failed -> Hc.
    destruct (stopPlayback_requests h failed p w)
      as (r & p' & w' & new & Hrun & Hreq & _ & Hitem).
    exists r, p', w', new. split_and!; [done|done| |].
    - intros call Hin _. split; [done|]. apply Hitem. by intros ->.
    - intros ->. by destruct Hc as [|[|]]. }
  destruct c.
  - destruct mediaProvider as [mp|]; by eapply Hquiet.
  - destruct mediaProvider as [mp|]; [|by eapply Hquiet].
    unfold run, Player.RemoveProvider in *. method.
    destruct (Py.delitem _ _); by eapply Hquiet.
  - unfold run in *. rewrite Process_unfold in *.
    destruct (Player._lastProgressReport p) as [t|]; [|by eapply Hquiet].
    destruct (Py.num_truthy t); [|by eapply Hquiet]. simpl.
    destruct (Player.Qlt_bool _ _).
    + exists (Ok tt), p, (with_clock_read w), [].
      split_and!; [done|by rewrite app_nil_r|by intros ? []|done].
    + destruct (Hreport constants.PLAYING_PROGRESS_EVENT_TIME_UPDATE p (with_clock_read w)
                  eq_refl) as (r & p' & w' & new & Hrun & Hreq & Hns).
      exists r, p', w', new. split_and!; [done|done| |done].
      intros call Hin Hst. by destruct (Hns call Hin).
  - exists (Ok tt), (Player.set_file (Some (getPlayingFile h)) (reset_of p)), w, [].
    split_and!; [done|by rewrite app_nil_r|by intros ? []|done].
  - unfold run, Player.onAVStarted.
    destruct (startPlayback_requests h p w) as (r & p' & w' & new & Hrun & Hreq & Hposts).
    exists r, p', w', new. split_and!; [done|done| |done].
    intros call Hin Hst. by destruct (playing_not_stopped new Hposts call Hin).
  - unfold run, Player.onPlayBackSeek.
    destruct (Hreport constants.PLAYING_PROGRESS_EVENT_TIME_UPDATE p w eq_refl)
      as (r & p' & w' & new & Hrun & Hreq & Hns).
    exists r, p', w', new. split_and!; [done|done| |done].
    intros call Hin Hst. by destruct (Hns call Hin).
  - unfold run, Player.onPlayBackSeekChapter.
    destruct (Hreport constants.PLAYING_PROGRESS_EVENT_TIME_UPDATE p w eq_refl)
      as (r & p' & w' & new & Hrun & Hreq & Hns).
    exists r, p', w', new. split_and!; [done|done| |done].
    intros call Hin Hst. by destruct (Hns call Hin).
  - unfold run, Player.onPlayBackPaused. method.
    destruct (Hreport constants.PLAYING_PROGRESS_EVENT_PAUSE (Player.set_paused true p) w
                eq_refl) as (r & p' & w' & new & Hrun & Hreq & Hns).
    exists r, p', w', new. split_and!; [done|done| |done].
    intros call Hin Hst. by destruct (Hns call Hin).
  - unfold run, Player.onPlayBackResumed. method.
    destruct (Hreport constants.PLAYING_PROGRESS_EVENT_UNPAUSE (Player.set_paused false p) w
                eq_refl) as (r & p' & w' & new & Hrun & Hreq & Hns).
    exists r, p', w', new. split_and!; [done|done| |done].
    intros call Hin Hst. by destruct (Hns call Hin).
  - apply (Hstop false); [reflexivity|by left].
  - apply (Hstop false); [reflexivity|by right; left].
  - apply (Hstop true); [reflexivity|by right; right].
Qed.

Lemma stopped_only_on_stop_witness :
  is_Some (Player._item (fst (history matched_playback start)))
  /\ exists r p' w' (new : list Request.Call),
       run host_playing PlayBackStarted (fst (history matched_playback start))
         (snd (history matched_playback start))
       = (r, p', w')
       /\ new = []
       /\ w' = snd (history matched_playback start)
       /\ Player._item p' = None
       /\ Player._playSessionId p' = None.
Proof.
  split; [by eexists|].
  destruct (stopped_only_on_stop host_playing PlayBackStarted
              (fst (history matched_playback start))
              (snd (history matched_playback start)))
    as (r & p' & w' & new & Hrun & _ & _ & Hstarted).
  destruct (Hstarted eq_refl) as (_ & Hw & Hnew & _ & Hitem & _ & _ & Hps & _).
  exists r, p', w', new. by split_and!.
Defined.

(** * Further properties *)

(** ** Strings *)

Lemma string_length_app (a b : string) :
  String.length (a ++ b) = String.length a + String.length b.
Proof.
  induction a as [|c a IH]; [done|].
  change (String c a ++ b) with (String c (a ++ b)). simpl. by rewrite IH.
Qed.

Lemma string_app_inv_head (p a b : string) : p ++ a = p ++ b -> a = b.
Proof.
  induction p as [|c p IH]; [done|].
  change (String c p ++ a) with (String c (p ++ a)).
  change (String c p ++ b) with (String c (p ++ b)).
  intros [= H]. by apply IH.
Qed.

Lemma string_app_inv_tail (a b t : string) : a ++ t = b ++ t -> a = b.
Proof.
  revert b. induction a as [|c a IH]; intros [|d b] H.
  - done.
  - apply (f_equal String.length) in H. rewrite !string_length_app in H.
    simpl in H. lia.
  - apply (f_equal String.length) in H. rewrite !string_length_app in H.
    simpl in H. lia.
  - change (String c (a ++ t) = String d (b ++ t)) in H.
    injection H as -> H. f_equal. by apply IH.
Qed.

(** ** The URL builders *)

Lemma str_truthy_false s : Py.str_truthy s = false <-> s = EmptyString.
Proof. by destruct s. Qed.

Lemma not_authenticated (self : Server.t) :
  ~ authenticated self ->
  Authenticator.IsAuthenticated (Server._authenticator self) = false.
Proof. unfold authenticated. by destruct (Authenticator.IsAuthenticated _). Qed.

(** What [BuildUserUrl] does on a server without a session. *)
Lemma BuildUserUrl_unauthenticated (self : Server.t) (endpoint : string) :
  ~ authenticated self ->
  exists e, Server.BuildUserUrl self endpoint = Raise e.
Proof.
  intros Hn%not_authenticated. unfold Server.BuildUserUrl, Server._assertAuthentication.
  destruct (Py.str_truthy endpoint); simpl; [|by eauto].
  rewrite Hn. simpl. by eauto.
Qed.

(** X2. [BuildUserUrl] returns a URL exactly when the endpoint is not
    empty and the server holds a session with a non-empty user id; the URL
    is then the API root, the users segment, the user id and the endpoint.
    An empty endpoint is a [ValueError] whatever the session; a missing
    session is a [RuntimeError]. *)
Theorem BuildUserUrl_outcome (self : Server.t) (endpoint : string) :
  (endpoint = EmptyString ->
   Server.BuildUserUrl self endpoint = Raise (ValueError "Invalid endpoint"))
  /\ (endpoint <> EmptyString -> ~ authenticated self ->
      Server.BuildUserUrl self endpoint
      = Raise (RuntimeError ("media provider " ++ Server._id self
                             ++ " has not yet been authenticated")))
  /\ (forall url,
        Server.BuildUserUrl self endpoint = Ok url
        <-> endpoint <> EmptyString
            /\ exists c,
                 Authenticator.session (Server._authenticator self) = Some c
                 /\ Authenticator.userId c <> EmptyString
                 /\ url = Server._url self ++ "/" ++ constants.URL_USERS ++ "/"
                          ++ Authenticator.userId c ++ "/" ++ endpoint).
Proof.
  unfold Server.BuildUserUrl, Server._assertAuthentication, Server.userIdOf,
    Authenticator.UserId, Authenticator.IsAuthenticated, authenticated, Url.append.
  split_and!.
  - by intros ->.
  - intros He%str_truthy_true Hn. rewrite He. simpl.
    destruct (Authenticator.session (Server._authenticator self)) eqn:E; [|done].
    destruct Hn. unfold Authenticator.IsAuthenticated. by rewrite E.
  - intros url. destruct endpoint as [|a endpoint]; simpl; [by split; [|intros [? _]]|].
    destruct (Authenticator.session (Server._authenticator self)) as [c|]; simpl.
    + destruct (Authenticator.userId c) as [|b uid] eqn:Hu; simpl.
      * split; [done|]. intros (_ & c' & [= <-] & Hne & _). by rewrite Hu in Hne.
      * rewrite !string_app_assoc. split.
        -- intros [= <-]. split; [done|]. exists c. rewrite Hu. by split_and!.
        -- intros (_ & c' & [= <-] & _ & ->). rewrite Hu. done.
    + split; [done|]. by intros (_ & c' & [=] & _).
Qed.

Lemma BuildUserUrl_outcome_witness :
  Server.BuildUserUrl server_living_room EmptyString = Raise (ValueError "Invalid endpoint")
  /\ Server.BuildUserUrl server_living_room "Items"
     = Raise (RuntimeError "media provider emby://0a1b2c/ has not yet been authenticated")
  /\ Server.BuildUserUrl server_in_session "Items"
     = Ok "http://nas:8096/emby/Users/u-17/Items".
Proof.
  split_and!.
  - by apply (BuildUserUrl_outcome server_living_room EmptyString).
  - apply (BuildUserUrl_outcome server_living_room "Items"); [done|].
    unfold authenticated. by vm_compute.
  - apply (BuildUserUrl_outcome server_in_session "Items"). split; [done|].
    eexists. split; [reflexivity|]. by split.
Defined.

(** X3. Every builder of a user-scoped item URL rejects an empty item id
    with [ValueError] before it looks at the session, and returns a URL
    only for a non-empty item id on a server that holds a session; the
    plain item URL needs no session. *)
Theorem user_item_urls_need_session (build : Server.t -> string -> Res string)
    (self : Server.t) (itemId : string) :
  In build user_item_builders ->
  build self EmptyString = Raise (ValueError "Invalid itemId")
  /\ (forall url, build self itemId = Ok url ->
        itemId <> EmptyString /\ authenticated self)
  /\ (itemId <> EmptyString ->
      Server.BuildItemUrl self itemId
      = Ok (Server._url self ++ "/" ++ constants.URL_ITEMS ++ "/" ++ itemId)).
Proof.
  intros Hin.
  assert (Hitem : itemId <> EmptyString ->
            Server.BuildItemUrl self itemId
            = Ok (Server._url self ++ "/" ++ constants.URL_ITEMS ++ "/" ++ itemId)).
  { intros Hi%str_truthy_true. unfold Server.BuildItemUrl, Server.BuildUrl, Url.append.
    rewrite Hi. simpl. by rewrite !string_app_assoc. }
  assert (Hcase : forall endpoint (k : string -> string -> Res string),
            build = (fun self itemId =>
                       if negb (Py.str_truthy itemId) then Raise (ValueError "Invalid itemId")
                       else url ← Server.BuildUserUrl self endpoint; k itemId url) ->
            build self EmptyString = Raise (ValueError "Invalid itemId")
            /\ (forall url, build self itemId = Ok url ->
                  itemId <> EmptyString /\ authenticated self)).
  { intros endpoint k ->. split; [done|]. intros url.
    destruct itemId as [|a itemId]; simpl; [done|].
    intros H. split; [done|].
    destruct (decide (authenticated self)) as [|Hn]; [done|].
    destruct (BuildUserUrl_unauthenticated self endpoint Hn) as [e He].
    by rewrite He in H. }
  enough (build self EmptyString = Raise (ValueError "Invalid itemId")
          /\ (forall url, build self itemId = Ok url ->
                itemId <> EmptyString /\ authenticated self)) as [? ?] by done.
  unfold user_item_builders in Hin. simpl in Hin.
  destruct Hin as [<-|[<-|[<-|[<-|[<-|[]]]]]].
  - by apply (Hcase constants.URL_ITEMS (fun itemId url => Ok (Url.append url [itemId]))).
  - by apply (Hcase constants.URL_PLAYING_ITEMS
                (fun itemId url => Ok (Url.append url [itemId]))).
  - by apply (Hcase constants.URL_PLAYED_ITEMS
                (fun itemId url => Ok (Url.append url [itemId]))).
  - by apply (Hcase constants.URL_ITEMS
                (fun itemId url => Ok (Url.append url [itemId; constants.URL_USER_DATA]))).
  - by apply (Hcase constants.URL_ITEMS (fun itemId url => Ok (Url.append url [itemId]))).
Qed.

Lemma user_item_urls_need_session_witness :
  Server.BuildUserPlayedItemUrl server_living_room EmptyString
    = Raise (ValueError "Invalid itemId")
  /\ Server.BuildItemUrl server_living_room "abc"
     = Ok "http://nas:8096/emby/Items/abc".
Proof.
  destruct (user_item_urls_need_session Server.BuildUserPlayedItemUrl
              server_living_room "abc") as (H1 & _ & H3).
  - simpl. tauto.
  - split; [exact H1|]. by apply H3.
Defined.

(** X4. [BuildImageUrl] checks the item id first and the image type
    second; without a tag the URL is the item URL followed by the images
    segment and the type, and a tag only adds the query [?tag=<tag>]. *)
Theorem BuildImageUrl_tag (self : Server.t) (itemId imageType imageTag : string) :
  Server.BuildImageUrl self EmptyString imageType imageTag
    = Raise (ValueError "Invalid itemId")
  /\ (itemId <> EmptyString ->
      Server.BuildImageUrl self itemId EmptyString imageTag
      = Raise (ValueError "Invalid imageType"))
  /\ (itemId <> EmptyString -> imageType <> EmptyString ->
      let url := Server._url self ++ "/" ++ constants.URL_ITEMS ++ "/" ++ itemId
                 ++ "/" ++ constants.URL_IMAGES ++ "/" ++ imageType in
      Server.BuildImageUrl self itemId imageType EmptyString = Ok url
      /\ (imageTag <> EmptyString ->
          Server.BuildImageUrl self itemId imageType imageTag
          = Ok (url ++ "?tag=" ++ imageTag))).
Proof.
  unfold Server.BuildImageUrl, Server.BuildItemUrl, Server.BuildUrl,
    Url.append, Url.addOptions.
  split_and!; [done| |].
  - by intros ->%str_truthy_true.
  - intros Hi%str_truthy_true Ht%str_truthy_true. rewrite Hi, Ht. simpl.
    split.
    + by rewrite !string_app_assoc.
    + intros ->%str_truthy_true. by rewrite !string_app_assoc.
Qed.

Lemma BuildImageUrl_tag_witness :
  Server.BuildImageUrl server_living_room "abc" "Primary" EmptyString
    = Ok "http://nas:8096/emby/Items/abc/Images/Primary"
  /\ Server.BuildImageUrl server_living_room "abc" "Primary" "5f2e"
     = Ok "http://nas:8096/emby/Items/abc/Images/Primary?tag=5f2e".
Proof.
  destruct (BuildImageUrl_tag server_living_room "abc" "Primary" "5f2e")
    as (_ & _ & H).
  destruct H as [H0 H1]; [done|done|].
  split; [exact H0|by apply H1].
Defined.

(** X5. [BuildProviderId] rejects an empty server id and is injective:
    two server ids with the same provider id are equal. *)
Theorem BuildProviderId_injective (a b : string) :
  Server.BuildProviderId EmptyString = Raise (ValueError "Invalid serverId")
  /\ (a <> EmptyString -> exists id, Server.BuildProviderId a = Ok id)
  /\ (forall id,
        Server.BuildProviderId a = Ok id -> Server.BuildProviderId b = Ok id -> a = b).
Proof.
  unfold Server.BuildProviderId. split_and!; [done| |].
  - intros ->%str_truthy_true. by eauto.
  - intros id. destruct (Py.str_truthy a), (Py.str_truthy b); simpl; try done.
    intros [= <-] [= H]. symmetry in H.
    repeat apply string_app_inv_head in H.
    by apply string_app_inv_tail in H.
Qed.

Lemma BuildProviderId_injective_witness :
  Server.BuildProviderId "0a1b2c" = Ok "emby://0a1b2c/".
Proof.
  destruct (BuildProviderId_injective "0a1b2c" "0a1b2c") as (_ & H & _).
  destruct H as [id Hid]; [done|]. rewrite Hid. by vm_compute in Hid.
Defined.

(** X6. [GetServerInfo] with an empty base URL raises [ValueError] and
    sends nothing; otherwise it makes exactly one GET to the public-info
    URL, with headers that carry no access token, user id or device id,
    and returns what [fromPublicInfo] makes of the answer, so a failed
    request gives [None]. *)
Theorem GetServerInfo_discovery (h : Host) (baseUrl : string) (w : World) :
  Server.GetServerInfo h EmptyString tt w = (Raise (ValueError "Invalid baseUrl"), tt, w)
  /\ (baseUrl <> EmptyString ->
      let get :=
        Request.GetAsJson
          (baseUrl ++ "/" ++ constants.EMBY_PROTOCOL ++ "/" ++ constants.URL_SYSTEM
           ++ "/" ++ constants.URL_SYSTEM_INFO ++ "/" ++ constants.URL_SYSTEM_INFO_PUBLIC)
          {| Request.authToken := None; Request.userId := None;
             Request.deviceId := None |} in
      Server.GetServerInfo h baseUrl tt w
        = (Info.fromPublicInfo (transport h get), tt, with_request get w)
      /\ (transport h get = None ->
          Server.GetServerInfo h baseUrl tt w = (Ok None, tt, with_request get w))).
Proof.
  unfold Server.GetServerInfo, Server.BuildPublicInfoUrl, Url.append. method.
  split; [done|]. intros ->%str_truthy_true. simpl.
  rewrite !string_app_assoc. unfold Request.PrepareApiCallHeaders.
  split; [done|]. by intros ->.
Qed.

Lemma GetServerInfo_discovery_witness :
  Server.GetServerInfo host_refusing "http://nas:8096" tt world0
  = (Ok None, tt,
     with_request
       (Request.GetAsJson "http://nas:8096/emby/System/Info/Public"
          {| Request.authToken := None; Request.userId := None;
             Request.deviceId := None |})
       world0).
Proof.
  destruct (GetServerInfo_discovery host_refusing "http://nas:8096" world0) as [_ H].
  destruct H as [_ H]; [done|]. by apply H.
Defined.

Lemma split_comma_free (fmt : string) :
  comma_free fmt = true -> Py.split "," fmt = [fmt].
Proof.
  induction fmt as [|c fmt IH]; simpl; [done|].
  intros [Hc Hf]%andb_prop. apply negb_true_iff in Hc. rewrite Hc.
  by rewrite (IH Hf).
Qed.

(** X7. [BuildPlayableItemUrl] checks the item id before the media type;
    [Audio] maps to the [Audio] resource as [Video] maps to [Videos]; an
    empty container gives a stream URL without an extension and a single
    container format gives that extension. *)
Theorem BuildPlayableItemUrl_edges (self : Server.t)
    (mediaType itemId container fmt : string) :
  Server.BuildPlayableItemUrl self mediaType EmptyString container
    = Raise (ValueError "Invalid itemId")
  /\ (itemId <> EmptyString ->
      Server.BuildPlayableItemUrl self "Audio" itemId EmptyString
        = Ok (Server._url self ++ "/Audio/" ++ itemId ++ "/stream?static=true")
      /\ Server.BuildPlayableItemUrl self "Video" itemId EmptyString
         = Ok (Server._url self ++ "/Videos/" ++ itemId ++ "/stream?static=true"))
  /\ (itemId <> EmptyString -> fmt <> EmptyString -> comma_free fmt = true ->
      Server.BuildPlayableItemUrl self "Audio" itemId fmt
        = Ok (Server._url self ++ "/Audio/" ++ itemId ++ "/stream." ++ fmt
              ++ "?static=true")
      /\ Server.BuildPlayableItemUrl self "Video" itemId fmt
         = Ok (Server._url self ++ "/Videos/" ++ itemId ++ "/stream." ++ fmt
               ++ "?static=true")).
Proof.
  unfold Server.BuildPlayableItemUrl, Server.BuildUrl, Url.addOptions, Url.append.
  split_and!; [done| |].
  - intros ->%str_truthy_true. simpl. by rewrite !string_app_assoc.
  - intros ->%str_truthy_true ->%str_truthy_true Hc. simpl.
    rewrite (split_comma_free _ Hc). simpl. by rewrite !string_app_assoc.
Qed.

Lemma BuildPlayableItemUrl_edges_witness :
  Server.BuildPlayableItemUrl server_living_room "Audio" "77" EmptyString
    = Ok "http://nas:8096/emby/Audio/77/stream?static=true"
  /\ Server.BuildPlayableItemUrl server_living_room "Audio" "77" "flac"
     = Ok "http://nas:8096/emby/Audio/77/stream.flac?static=true".
Proof.
  destruct (BuildPlayableItemUrl_edges server_living_room "Audio" "77" EmptyString "flac")
    as (_ & H1 & H2).
  split; [by apply H1|by apply H2].
Defined.

(** ** Server.Info *)

(** X8. Every Info is exactly one of Emby server, Jellyfin server and
    unknown; an Info that [__init__] built has a non-empty id and a
    non-empty product. *)
Theorem Info_classification (info : Info.t) :
  ((Info.isEmbyServer info = true /\ Info.isJellyfinServer info = false
    /\ Info.isUnknown info = false)
   \/ (Info.isEmbyServer info = false /\ Info.isJellyfinServer info = true
       /\ Info.isUnknown info = false)
   \/ (Info.isEmbyServer info = false /\ Info.isJellyfinServer info = false
       /\ Info.isUnknown info = true))
  /\ (forall id name version product,
        Info.__init__ id name version product = Ok info ->
        Py.truthy (Info.id info) = true /\ Py.truthy (Info.product info) = true).
Proof.
  split.
  - unfold Info.isUnknown, Info.isEmbyServer, Info.isJellyfinServer.
    destruct (Info.product info) as [| | |s]; simpl; try by right; right.
    destruct (String.eqb_spec s Info.EMBY_SERVER) as [->|_]; [by left|].
    destruct (String.eqb s Info.JELLYFIN_SERVER); simpl; [by right; left|by right; right].
  - unfold Info.__init__. intros id name version product.
    destruct (Py.truthy id) eqn:Hid; simpl; [|done]. intros [= <-]. simpl.
    split; [done|]. unfold Py.or. by destruct (Py.truthy product) eqn:Hp.
Qed.

Lemma Info_classification_witness :
  exists info,
    Info.__init__ (VStr "0a1b2c") (VStr "living room")
      {| semantic_version.major := 10; semantic_version.minor := 8;
         semantic_version.patch := 0 |} (VStr "Jellyfin Server") = Ok info
    /\ Info.isJellyfinServer info = true
    /\ Py.truthy (Info.product info) = true.
Proof.
  destruct (Info.__init__ (VStr "0a1b2c") (VStr "living room")
              {| semantic_version.major := 10; semantic_version.minor := 8;
                 semantic_version.patch := 0 |} (VStr "Jellyfin Server"))
    as [info|] eqn:H; [|by vm_compute in H].
  exists info. split; [done|].
  destruct (Info_classification info) as [_ Hbuilt].
  destruct (Hbuilt _ _ _ _ H) as [_ Hp]. split; [|exact Hp].
  vm_compute in H. by injection H as <-.
Defined.

Lemma split_app (c : ascii) (a b : string) :
  Py.split c (a ++ String c b) = (Py.split c a ++ Py.split c b)%list.
Proof.
  induction a as [|d a IH].
  - change (EmptyString ++ String c b) with (String c b). simpl.
    by rewrite Ascii.eqb_refl.
  - change (String d a ++ String c b) with (String d (a ++ String c b)). simpl.
    rewrite IH. destruct (Ascii.eqb d c); [done|].
    destruct (Py.split c a) as [|x xs] eqn:E; [by apply split_nonempty in E|done].
Qed.

Lemma split_length (c : ascii) (s : string) :
  length (Py.split c s) = S (occurrences c s).
Proof.
  induction s as [|d s IH]; simpl; [done|].
  destruct (Ascii.eqb d c); simpl; [by rewrite IH|].
  destruct (Py.split c s) as [|x xs] eqn:E; [by apply split_nonempty in E|].
  by rewrite <- IH.
Qed.

Lemma join_split (c : ascii) (s : string) :
  Py.join (String c EmptyString) (Py.split c s) = s.
Proof.
  unfold Py.join. induction s as [|d s IH]; simpl; [done|].
  destruct (Ascii.eqb_spec d c) as [->|_].
  - destruct (Py.split c s) as [|x xs] eqn:E; [by apply split_nonempty in E|].
    change (String.concat (String c EmptyString) (EmptyString :: x :: xs))
      with (String c (String.concat (String c EmptyString) (x :: xs))).
    by rewrite IH.
  - destruct (Py.split c s) as [|x xs] eqn:E; [by apply split_nonempty in E|].
    destruct xs as [|y ys].
    + simpl in *. by rewrite IH.
    + change (String.concat (String c EmptyString) (String d x :: y :: ys))
        with (String d (String.concat (String c EmptyString) (x :: y :: ys))).
      by rewrite IH.
Qed.

(** The version string [fromPublicInfo] hands to the parser. *)
Lemma version_prefix (s extra : string) :
  (occurrences "." s <= 2 -> Py.join "." (take 3 (Py.split "." s)) = s)
  /\ (occurrences "." s = 2 ->
      Py.join "." (take 3 (Py.split "." (s ++ "." ++ extra))) = s).
Proof.
  split.
  - intros Hle. rewrite take_ge; [apply join_split|]. rewrite split_length. lia.
  - intros H2. change (s ++ "." ++ extra) with (s ++ String "." extra).
    rewrite split_app, take_app_le, take_ge; [apply join_split| |];
      rewrite split_length; lia.
Qed.

(** X9. The components of the version after the third do not matter to
    [fromPublicInfo]: a response whose version is a three-component
    string followed by a dot and anything gives the result of the response
    with the three-component version; and a version with at most three
    components reaches the parser unchanged. *)
Theorem fromPublicInfo_version_tail (response : gmap string Value) (s extra : string) :
  (occurrences "." s = 2 ->
   Info.fromPublicInfo
     (Some (<[constants.PROPERTY_SYSTEM_INFO_VERSION := VStr (s ++ "." ++ extra)]> response))
   = Info.fromPublicInfo
       (Some (<[constants.PROPERTY_SYSTEM_INFO_VERSION := VStr s]> response)))
  /\ (forall info,
        occurrences "." s <= 2 ->
        response !! constants.PROPERTY_SYSTEM_INFO_VERSION = Some (VStr s) ->
        Info.fromPublicInfo (Some response) = Ok (Some info) ->
        semantic_version.Version s = Ok (Info.version info)).
Proof.
  split.
  - intros H2.
    set (r1 := <[constants.PROPERTY_SYSTEM_INFO_VERSION := VStr (s ++ "." ++ extra)]> response).
    set (r2 := <[constants.PROPERTY_SYSTEM_INFO_VERSION := VStr s]> response).
    assert (Hother : forall k, k <> constants.PROPERTY_SYSTEM_INFO_VERSION ->
                               r1 !! k = r2 !! k).
    { intros k Hk. subst r1 r2. by rewrite !lookup_insert_ne. }
    assert (Hp : required_present r1 <-> required_present r2).
    { unfold required_present. rewrite !(Hother constants.PROPERTY_SYSTEM_INFO_ID),
        !(Hother constants.PROPERTY_SYSTEM_INFO_SERVER_NAME) by done.
      subst r1 r2. rewrite !lookup_insert_eq.
      split; intros (? & ? & _); split_and!; by eauto. }
    destruct (decide (required_present r1)) as [H1|H1].
    + rewrite (fromPublicInfo_present r1 H1), (fromPublicInfo_present r2 (proj1 Hp H1)).
      unfold Dict.getitem, Dict.contains.
      rewrite !(Hother constants.PROPERTY_SYSTEM_INFO_ID),
        !(Hother constants.PROPERTY_SYSTEM_INFO_SERVER_NAME),
        !(Hother constants.PROPERTY_SYSTEM_INFO_PRODUCT_NAME) by done.
      subst r1 r2. rewrite !lookup_insert_eq. simpl.
      destruct (version_prefix s extra) as [Hle Heq].
      by rewrite (Heq H2), (Hle ltac:(lia)).
    + rewrite (fromPublicInfo_absent r1 H1), fromPublicInfo_absent; [done|].
      by rewrite <- Hp.
  - intros info Hle Hv Hi.
    apply fromPublicInfo_Some in Hi as (? & ? & s' & version & _ & _ & Hv' & Hver & _ & ->).
    rewrite Hv in Hv'. injection Hv' as <-.
    destruct (version_prefix s EmptyString) as [Hjoin _].
    by rewrite (Hjoin Hle) in Hver.
Qed.

Lemma fromPublicInfo_version_tail_witness :
  Info.fromPublicInfo
    (Some (<[constants.PROPERTY_SYSTEM_INFO_VERSION := VStr ("10.8.13" ++ "." ++ "0-rc1")]>
             response_4721))
  = Info.fromPublicInfo
      (Some (<[constants.PROPERTY_SYSTEM_INFO_VERSION := VStr "10.8.13"]> response_4721)).
Proof.
  apply (fromPublicInfo_version_tail response_4721 "10.8.13" "0-rc1"). reflexivity.
Defined.

(** ** The player: what the callbacks leave alone *)

Lemma remove_occurrences (c : ascii) (s : string) : occurrences c (Py.remove c s) = 0.
Proof.
  induction s as [|d s IH]; simpl; [done|].
  destruct (Ascii.eqb d c) eqn:E; simpl; [done|]. by rewrite E.
Qed.

(** The state after a progress report: the old one, or the old one with a
    new timestamp. *)
Lemma reportPlaybackProgress_state h event p w r p' w' :
  Player._reportPlaybackProgress h event p w = (r, p', w') ->
  p' = p \/ exists t, p' = Player.set_lastProgressReport (Some t) p.
Proof.
  destruct (reportPlaybackProgress_cases h event p w)
    as [[_ ->]|[(_ & e & _ & ->)|(_ & server & data & w1 & _ & _ & _ & _ & ->)]];
    intros [= <- <- <-]; [by left|by left|right; by eauto].
Qed.

Lemma stopPlayback_state h failed p w r p' w' :
  Player._stopPlayback h failed p w = (r, p', w') -> p' = p \/ p' = reset_of p.
Proof.
  destruct (stopPlayback_cases h failed p w)
    as [[_ ->]|[(_ & e & _ & ->)|(_ & server & data & w1 & _ & _ & _ & ->)]];
    intros [= <- <- <-]; [by left|by left|by right].
Qed.

(** The state after [_startPlayback]: some of the item id, the item with
    its provider, the session id and the timestamp are assigned, in that
    order, and nothing else. *)
Lemma startPlayback_state h p w r p' w' :
  Player._startPlayback h p w = (r, p', w') ->
  exists q,
    (q = p \/ exists id,
       q = Player.set_itemId (Some id) p
       \/ exists item mediaProvider,
            q = Player.set_mediaProvider (Some mediaProvider)
                  (Player.set_item (Some item) (Player.set_itemId (Some id) p)))
    /\ (p' = q
        \/ p' = Player.set_playSessionId (Some (Py.remove "-" (uuid4 h))) q
        \/ exists t,
             p' = Player.set_lastProgressReport (Some t)
                    (Player.set_playSessionId (Some (Py.remove "-" (uuid4 h))) q)).
Proof.
  destruct (startPlayback_cases h p w)
    as [->|[(id & -> & _)|(id & q & w1 & Hq & _ & _ & _ & ->)]].
  - intros [= <- <- <-]. exists p. split; by left.
  - intros [= <- <- <-]. eexists. split; [right; exists id; by left|by left].
  - intros Ha. exists q. split.
    + right. exists id. destruct Hq as [[-> _] | (item & mp & ->)]; [by left|right; by eauto].
    + destruct (announce_cases h q w1)
        as [(e & _ & He)|(server & data & w2 & _ & _ & He)];
        rewrite He in Ha; injection Ha as <- <- <-; [right; by left|right; right; by eauto].
Qed.

(** What every callback leaves alone, and the only values it can give to
    the session id. *)
Lemma run_shape h c p w r p' w' :
  run h c p w = (r, p', w') ->
  Player._progressInterval p' = Player._progressInterval p
  /\ (registry_callback c = false -> Player._providers p' = Player._providers p)
  /\ (progress_callback c = true -> same_session p p')
  /\ (Player._playSessionId p' = Player._playSessionId p
      \/ Player._playSessionId p' = None
      \/ Player._playSessionId p' = Some (Py.remove "-" (uuid4 h))).
Proof.
  assert (Hreport : forall event q,
            Player._progressInterval q = Player._progressInterval p ->
            Player._providers q = Player._providers p ->
            same_session p q ->
            Player._reportPlaybackProgress h event q w = (r, p', w') ->
            Player._progressInterval p' = Player._progressInterval p
            /\ (registry_callback c = false -> Player._providers p' = Player._providers p)
            /\ (progress_callback c = true -> same_session p p')
            /\ (Player._playSessionId p' = Player._playSessionId p
                \/ Player._playSessionId p' = None
                \/ Player._playSessionId p' = Some (Py.remove "-" (uuid4 h)))).
  { intros event q Hi Hp Hs Hrun.
    assert (Hps : Player._playSessionId q = Player._playSessionId p) by apply Hs.
    destruct (reportPlaybackProgress_state _ _ _ _ _ _ _ Hrun) as [-> | [t ->]];
      split_and!; by eauto. }
  assert (Hstop : forall failed,
            progress_callback c = false ->
            Player._stopPlayback h failed p w = (r, p', w') ->
            Player._progressInterval p' = Player._progressInterval p
            /\ (registry_callback c = false -> Player._providers p' = Player._providers p)
            /\ (progress_callback c = true -> same_session p p')
            /\ (Player._playSessionId p' = Player._playSessionId p
                \/ Player._playSessionId p' = None
                \/ Player._playSessionId p' = Some (Py.remove "-" (uuid4 h)))).
  { intros failed Hc Hrun. rewrite Hc.
    destruct (stopPlayback_state _ _ _ _ _ _ _ Hrun) as [-> | ->];
      split_and!; by eauto. }
  assert (Hsame : same_session p p) by by unfold same_session.
  destruct c; unfold run.
  - destruct mediaProvider as [mp|]; intros [= <- <- <-]; split_and!; by eauto.
  - destruct mediaProvider as [mp|]; [|intros [= <- <- <-]; split_and!; by eauto].
    unfold Player.RemoveProvider. method.
    destruct (Py.delitem _ _); intros [= <- <- <-]; split_and!; by eauto.
  - rewrite Process_unfold.
    destruct (Player._lastProgressReport p) as [t|];
      [|intros [= <- <- <-]; split_and!; by eauto].
    destruct (Py.num_truthy t); [|intros [= <- <- <-]; split_and!; by eauto]. simpl.
    destruct (Player.Qlt_bool _ _); [intros [= <- <- <-]; split_and!; by eauto|].
    intros Hrun.
    destruct (reportPlaybackProgress_state _ _ _ _ _ _ _ Hrun) as [-> | [t' ->]];
      split_and!; by eauto.
  - intros [= <- <- <-]. split_and!; by eauto.
  - unfold Player.onAVStarted. intros Hrun.
    destruct (startPlayback_state _ _ _ _ _ _ Hrun) as (q & Hq & Hp').
    assert (Player._progressInterval q = Player._progressInterval p
            /\ Player._providers q = Player._providers p
            /\ Player._playSessionId q = Player._playSessionId p) as (Hi & Hr & Hs).
    { destruct Hq as [-> | (id & [-> | (item & mp & ->)])]; by split_and!. }
    destruct Hp' as [-> | [-> | (t & ->)]]; simpl; split_and!; by eauto.
  - by apply Hreport.
  - by apply Hreport.
  - unfold Player.onPlayBackPaused. method.
    by apply (Hreport constants.PLAYING_PROGRESS_EVENT_PAUSE (Player.set_paused true p)).
  - unfold Player.onPlayBackResumed. method.
    by apply (Hreport constants.PLAYING_PROGRESS_EVENT_UNPAUSE (Player.set_paused false p)).
  - by apply (Hstop false).
  - by apply (Hstop false).
  - by apply (Hstop true).
Qed.

(** X10. No callback changes the progress interval, only [AddProvider]
    and [RemoveProvider] change the registry, and [Process], the seeks,
    pause and resume leave the file, the item, the item id, the provider
    and the session id as they are, whether they return or raise. The
    interval of a reachable player is never zero. *)
Theorem callbacks_frame :
  (forall h c p w r p' w',
     run h c p w = (r, p', w') ->
     Player._progressInterval p' = Player._progressInterval p
     /\ (registry_callback c = false -> Player._providers p' = Player._providers p)
     /\ (progress_callback c = true -> same_session p p'))
  /\ (forall p w, reachable p w -> Py.num_truthy (Player._progressInterval p) = true).
Proof.
  split.
  - intros h c p w r p' w' Hrun.
    destruct (run_shape _ _ _ _ _ _ _ Hrun) as (Hi & Hp & Hs & _). done.
  - intros p w Hr. induction Hr as [interval|h c p w r p' w' _ IH Hrun].
    + simpl. destruct interval as [i|]; [|done].
      by destruct (Py.num_truthy i) eqn:E.
    + destruct (run_shape _ _ _ _ _ _ _ Hrun) as (Hi & _). by rewrite Hi.
Qed.

Lemma callbacks_frame_witness :
  let before := history matched_playback start in
  let paused := after host_playing PlayBackPaused before in
  same_session (fst before) (fst paused)
  /\ Player._providers (fst paused) = Player._providers (fst before)
  /\ Py.num_truthy (Player._progressInterval (fst paused)) = true.
Proof.
  intros before paused. destruct callbacks_frame as [Hframe Hinterval].
  destruct (run host_playing PlayBackPaused (fst before) (snd before))
    as [[r p'] w'] eqn:Hrun.
  destruct (Hframe _ _ _ _ _ _ _ Hrun) as (_ & Hp & Hs).
  assert (paused = (p', w')) as ->.
  { subst paused. unfold after. by rewrite Hrun. }
  split_and!.
  - by apply Hs.
  - by apply Hp.
  - apply (Hinterval p' w'). eapply reachable_step; [|exact Hrun].
    apply reachable_history, reachable_init.
Defined.

(** X11. In every reachable state the play session id, when set,
    contains no dash: it is a uuid with its dashes removed. *)
Theorem playSessionId_without_dash (p : Player.t) (w : World) (s : string) :
  reachable p w ->
  Player._playSessionId p = Some s ->
  occurrences "-" s = 0.
Proof.
  intros Hr. revert s. induction Hr as [interval|h c p w r p' w' _ IH Hrun]; [done|].
  intros s Hs.
  destruct (run_shape _ _ _ _ _ _ _ Hrun) as (_ & _ & _ & [H|[H|H]]);
    rewrite H in Hs; [by apply IH|done|].
  injection Hs as <-. apply remove_occurrences.
Qed.

Lemma playSessionId_without_dash_witness :
  Player._playSessionId (fst (history matched_playback start))
    = Some "6f1c0a529d3e4b7a8c215e0f4a9b7d63"
  /\ occurrences "-" "6f1c0a529d3e4b7a8c215e0f4a9b7d63" = 0.
Proof.
  split; [reflexivity|].
  apply (playSessionId_without_dash (fst (history matched_playback start))
           (snd (history matched_playback start))).
  - apply reachable_history, reachable_init.
  - reflexivity.
Defined.

(** ** The provider registry as a dictionary *)

Lemma contains_In {V} k (d : list (string * V)) :
  Py.contains k d = true <-> In k (map fst d).
Proof.
  induction d as [|[k' v] d IH]; simpl; [done|].
  rewrite orb_true_iff, IH, String.eqb_eq. done.
Qed.

Lemma contains_get {V} k (d : list (string * V)) :
  Py.contains k d = false <-> Py.get k d = None.
Proof.
  induction d as [|[k' v] d IH]; simpl; [done|].
  destruct (String.eqb k' k); simpl; [done|apply IH].
Qed.

Lemma setitem_keys {V} k (v : V) (d : list (string * V)) :
  map fst (Py.setitem k v d)
  = if Py.contains k d then map fst d else (map fst d ++ [k])%list.
Proof.
  induction d as [|[k' v'] d IH]; simpl; [done|].
  destruct (String.eqb k' k) eqn:E; simpl; [done|].
  rewrite IH. by destruct (Py.contains k d).
Qed.

Lemma setitem_absent {V} k (v : V) (d : list (string * V)) :
  Py.contains k d = false -> Py.setitem k v d = (d ++ [(k, v)])%list.
Proof.
  induction d as [|[k' v'] d IH]; simpl; [done|].
  intros [-> Hd]%orb_false_elim. by rewrite (IH Hd).
Qed.

Lemma setitem_get_other {V} k k' (v : V) (d : list (string * V)) :
  k' <> k -> Py.get k' (Py.setitem k v d) = Py.get k' d.
Proof.
  intros Hne. induction d as [|[k0 v0] d IH]; simpl.
  - apply String.eqb_neq in Hne. by rewrite String.eqb_sym, Hne.
  - destruct (String.eqb k0 k) eqn:E; simpl; [|by rewrite IH].
    apply String.eqb_eq in E as ->.
    apply String.eqb_neq in Hne. by rewrite String.eqb_sym, Hne.
Qed.

Lemma setitem_setitem {V} k (v v' : V) (d : list (string * V)) :
  Py.setitem k v' (Py.setitem k v d) = Py.setitem k v' d.
Proof.
  induction d as [|[k0 v0] d IH]; simpl.
  - by rewrite String.eqb_refl.
  - destruct (String.eqb k0 k) eqn:E; simpl; rewrite E; [done|by rewrite IH].
Qed.

Lemma delitem_setitem {V} k (v : V) (d : list (string * V)) :
  Py.contains k d = false -> Py.delitem k (Py.setitem k v d) = Ok d.
Proof.
  induction d as [|[k' v'] d IH]; simpl.
  - by rewrite String.eqb_refl.
  - intros [E Hd]%orb_false_elim. rewrite E. simpl. rewrite E. by rewrite (IH Hd).
Qed.

Lemma delitem_keys {V} k (d d' : list (string * V)) :
  Py.delitem k d = Ok d' ->
  NoDup (map fst d) ->
  NoDup (map fst d') /\ Py.contains k d' = false
  /\ (forall kv, In kv d' -> In kv d)
  /\ (forall k', k' <> k -> Py.get k' d' = Py.get k' d).
Proof.
  revert d'. induction d as [|[k' v'] d IH]; simpl; [done|].
  intros d' H Hnd. apply NoDup_cons in Hnd as [Hk Hnd].
  destruct (String.eqb k' k) eqn:E.
  - injection H as <-. apply String.eqb_eq in E as ->. split_and!.
    + done.
    + apply not_true_iff_false. rewrite contains_In. by rewrite <- list_elem_of_In.
    + intros kv Hin. by right.
    + intros k0 Hne. apply String.eqb_neq in Hne. by rewrite String.eqb_sym, Hne.
  - destruct (Py.delitem k d) as [r|] eqn:Hd; [|done]. injection H as <-.
    destruct (IH r eq_refl Hnd) as (Hnd' & Hc & Hin & Hget). simpl. split_and!.
    + apply NoDup_cons. split; [|done].
      rewrite list_elem_of_In in *. intros Hin'. apply Hk.
      apply in_map_iff in Hin' as ([k0 v0] & <- & H0). apply in_map_iff.
      exists (k0, v0). split; [done|by apply Hin].
    + by rewrite E, Hc.
    + intros kv [<-|H0]; [by left|right; by apply Hin].
    + intros k0 Hne. destruct (String.eqb k' k0); [done|by apply Hget].
Qed.

Lemma registry_wf_setitem (mediaProvider : MediaProvider) d :
  registry_wf d -> registry_wf (Py.setitem (getIdentifier mediaProvider) mediaProvider d).
Proof.
  intros [Hnd Hid]. split.
  - rewrite setitem_keys.
    destruct (Py.contains (getIdentifier mediaProvider) d) eqn:E; [done|].
    apply NoDup_app. split_and!; [done| |apply NoDup_singleton].
    intros k Hk [<-|[]]%list_elem_of_In. apply not_true_iff_false in E. apply E.
    by rewrite contains_In, <- list_elem_of_In.
  - clear Hnd. induction d as [|[k v] d IH]; simpl.
    + by repeat constructor.
    + apply Forall_cons in Hid as [Hk Hd].
      destruct (String.eqb k (getIdentifier mediaProvider)) eqn:E.
      * apply String.eqb_eq in E. by constructor.
      * constructor; [done|by apply IH].
Qed.

Lemma reachable_registry_wf (p : Player.t) (w : World) :
  reachable p w -> registry_wf (Player._providers p).
Proof.
  intros Hr. induction Hr as [interval|h c p w r p' w' _ IH Hrun].
  - split; [apply NoDup_nil_2|done].
  - destruct (registry_callback c) eqn:Hc.
    + destruct c as [[mp|]|[mp|]| | | | | | | | | |]; try done; simpl in Hrun.
      * injection Hrun as <- <- <-. by apply registry_wf_setitem.
      * by injection Hrun as <- <- <-.
      * unfold Player.RemoveProvider in Hrun. method.
        destruct (Py.delitem _ _) as [d|] eqn:Hd; injection Hrun as <- <- <-; [|done].
        destruct IH as [Hnd Hid]. simpl.
        destruct (delitem_keys _ _ _ Hd Hnd) as (Hnd' & _ & Hin & _).
        split; [done|]. rewrite Forall_forall in *. intros kv Hkv%list_elem_of_In.
        apply Hid, list_elem_of_In. by apply Hin.
      * by injection Hrun as <- <- <-.
    + destruct (run_shape _ _ _ _ _ _ _ Hrun) as (_ & Hp & _). by rewrite (Hp Hc).
Qed.

(** X12. In every reachable state the registry holds no identifier twice
    and every provider sits under its own identifier, so a lookup by the
    identifier of a registered provider finds that provider. *)
Theorem registry_invariant (p : Player.t) (w : World) :
  reachable p w ->
  registry_wf (Player._providers p)
  /\ forall mediaProvider,
       In mediaProvider (Py.values (Player._providers p)) ->
       Py.get (getIdentifier mediaProvider) (Player._providers p) = Some mediaProvider.
Proof.
  intros Hwf%reachable_registry_wf. split; [done|].
  destruct Hwf as [Hnd Hid]. intros mp Hin. unfold Py.values in Hin.
  induction (Player._providers p) as [|[k v] d IH]; simpl in *; [done|].
  apply NoDup_cons in Hnd as [Hk Hnd]. apply Forall_cons in Hid as [Hkv Hid].
  simpl in Hkv. subst k. destruct Hin as [->|Hin].
  - by rewrite String.eqb_refl.
  - destruct (String.eqb_spec (getIdentifier v) (getIdentifier mp)) as [E|_];
      [|by apply IH].
    exfalso. apply Hk. rewrite E, list_elem_of_In. apply in_map_iff.
    apply in_map_iff in Hin as ([k0 v0] & <- & H0).
    exists (k0, v0). split; [|done]. rewrite Forall_forall in Hid.
    apply (Hid (k0, v0)). by apply list_elem_of_In.
Qed.

Lemma registry_invariant_witness :
  registry_wf (Player._providers (fst (history matched_playback start)))
  /\ Py.get "emby://0a1b2c/" (Player._providers (fst (history matched_playback start)))
     = Some provider_nas.
Proof.
  destruct (registry_invariant (fst (history matched_playback start))
              (snd (history matched_playback start))) as [Hwf Hget].
  - apply reachable_history, reachable_init.
  - split; [exact Hwf|]. apply (Hget provider_nas). simpl. by left.
Defined.

(** X13. Adding a provider whose identifier is not registered and then
    removing it gives back the player as it was; adding the same provider
    twice is adding it once; adding leaves the other identifiers as they
    are; and after a provider is removed from a reachable player its
    identifier is no longer registered, the others are as before. *)
Theorem registry_round_trip (p added : Player.t) (w : World)
    (mediaProvider : MediaProvider) :
  Player.AddProvider (Some mediaProvider) p w = (Ok tt, added, w) ->
  let id := getIdentifier mediaProvider in
  (Py.contains id (Player._providers p) = false ->
   Player.RemoveProvider (Some mediaProvider) added w = (Ok tt, p, w))
  /\ Player.AddProvider (Some mediaProvider) added w = (Ok tt, added, w)
  /\ (forall k, k <> id ->
        Py.get k (Player._providers added) = Py.get k (Player._providers p))
  /\ (forall p',
        reachable p w ->
        Player.RemoveProvider (Some mediaProvider) p w = (Ok tt, p', w) ->
        Py.get id (Player._providers p') = None
        /\ forall k, k <> id ->
             Py.get k (Player._providers p') = Py.get k (Player._providers p)).
Proof.
  intros [= <-] id. split_and!.
  - intros Hc. unfold Player.RemoveProvider. method. simpl.
    rewrite (delitem_setitem _ _ _ Hc). by destruct p.
  - unfold Player.AddProvider. method. simpl. unfold Player.set_providers. simpl.
    by rewrite setitem_setitem.
  - intros k Hk. by apply setitem_get_other.
  - intros p' Hr. unfold Player.RemoveProvider. method.
    destruct (Py.delitem _ _) as [d|] eqn:Hd; intros [= <-]; simpl.
    destruct (reachable_registry_wf _ _ Hr) as [Hnd _].
    destruct (delitem_keys _ _ _ Hd Hnd) as (_ & Hc & _ & Hget).
    split; [by apply contains_get|done].
Qed.

Lemma registry_round_trip_witness :
  Player.RemoveProvider (Some provider_nas)
    (Player.set_providers [("emby://0a1b2c/", provider_nas)] (Player.__init__ None)) world0
  = (Ok tt, Player.__init__ None, world0).
Proof.
  apply (registry_round_trip (Player.__init__ None) _ world0 provider_nas);
    reflexivity.
Defined.

(** ** The payload *)

(** Goals about [is_Some] of an option that is already known. *)
Ltac some_cases :=
  try split; intros;
  repeat match goal with
    | H : is_Some None |- _ => destruct H as [? [=]]
    | H : _ /\ _ |- _ => destruct H
    end;
  try done; repeat split; by eexists.

(** Everything [_preparePlayingData] puts into the payload. *)
Lemma preparePlayingData_full (h : Host) stopped event failed (p : Player.t) (w : World) :
  exists data,
    Player._preparePlayingData h stopped event failed p w = (Ok data, p, w)
    /\ data !! "ItemId" = Some (Player.value (Player._itemId p))
    /\ data !! "PlaySessionId" = Some (Player.value (Player._playSessionId p))
    /\ data !! "PlaylistIndex" = Some (VNum 0)
    /\ data !! "PlaylistLength" = Some (VNum 1)
    /\ data !! "Failed" = (if stopped then Some (VBool failed) else None)
    /\ data !! "IsPaused" = (if stopped then None else Some (VBool (Player._paused p)))
    /\ data !! "CanSeek" = (if stopped then None else Some (VBool true))
    /\ data !! "QueueableMediaTypes"
       = (if stopped then None else Some (VStr "Audio,Video"))
    /\ data !! "PlayMethod"
       = (if stopped then None
          else Some (VStr constants.PLAYING_PLAY_METHOD_DIRECT_STREAM))
    /\ data !! "EventName"
       = (if stopped then None
          else if Py.opt_str_truthy event then Some (Player.value event) else None)
    /\ data !! "PositionTicks"
       = (if stopped then None
          else match getTime h, getTotalTime h with
               | Some time, Some _ => Some (VNum (Api.secondsToTicks time))
               | _, _ => None
               end)
    /\ data !! "RunTimeTicks"
       = (if stopped then None
          else match getTime h, getTotalTime h with
               | Some _, Some totalTime => Some (VNum (Api.secondsToTicks totalTime))
               | _, _ => None
               end).
Proof.
  unfold Player._preparePlayingData, Dict.update. method.
  destruct stopped.
  - eexists. split; [reflexivity|]. by split_and!.
  - destruct (getTime h), (getTotalTime h), event as [[|c e]|]; simpl;
      (eexists; split; [reflexivity|]; by split_and!).
Qed.

(** X14. Every payload carries the item id, the session id, playlist
    index 0 and playlist length 1. The stop payload adds the [Failed] flag
    and nothing else. The other payloads add the capability fields and the
    pause flag, the event name exactly when one is given, and the position
    and the duration either both (when both can be read) or not at all. *)
Theorem playing_data_shape (h : Host) (stopped : bool) (event : option string)
    (failed : bool) (p : Player.t) (w : World) :
  exists data,
    Player._preparePlayingData h stopped event failed p w = (Ok data, p, w)
    /\ data !! "ItemId" = Some (Player.value (Player._itemId p))
    /\ data !! "PlaySessionId" = Some (Player.value (Player._playSessionId p))
    /\ data !! "PlaylistIndex" = Some (VNum 0)
    /\ data !! "PlaylistLength" = Some (VNum 1)
    /\ (stopped = true ->
        data !! "Failed" = Some (VBool failed)
        /\ data !! "IsPaused" = None /\ data !! "CanSeek" = None
        /\ data !! "QueueableMediaTypes" = None /\ data !! "PlayMethod" = None
        /\ data !! "EventName" = None
        /\ data !! "PositionTicks" = None /\ data !! "RunTimeTicks" = None)
    /\ (stopped = false ->
        data !! "Failed" = None
        /\ data !! "IsPaused" = Some (VBool (Player._paused p))
        /\ data !! "CanSeek" = Some (VBool true)
        /\ data !! "QueueableMediaTypes" = Some (VStr "Audio,Video")
        /\ data !! "PlayMethod" = Some (VStr "DirectStream")
        /\ (is_Some (data !! "EventName") <-> Py.opt_str_truthy event = true)
        /\ (is_Some (data !! "EventName") -> data !! "EventName" = VStr <$> event)
        /\ (is_Some (data !! "PositionTicks") <-> is_Some (data !! "RunTimeTicks"))
        /\ (is_Some (data !! "PositionTicks")
            <-> is_Some (getTime h) /\ is_Some (getTotalTime h))
        /\ (forall time totalTime,
              getTime h = Some time -> getTotalTime h = Some totalTime ->
              data !! "PositionTicks" = Some (VNum (time * 10000000))
              /\ data !! "RunTimeTicks" = Some (VNum (totalTime * 10000000)))).
Proof.
  destruct (preparePlayingData_full h stopped event failed p w)
    as (data & Hd & Hid & Hps & Hpi & Hpl & Hf & Hpa & Hcs & Hq & Hpm & Hev & Hpt & Hrt).
  exists data. split_and!; try done.
  - intros ->. by split_and!.
  - intros ->. split_and!; try done.
    + rewrite Hev. destruct (Py.opt_str_truthy event); some_cases.
    + rewrite Hev. destruct event as [[|c e]|]; simpl; some_cases.
    + rewrite Hpt, Hrt. destruct (getTime h), (getTotalTime h); some_cases.
    + rewrite Hpt. destruct (getTime h), (getTotalTime h); some_cases.
    + intros time totalTime Ht Htt. rewrite Hpt, Hrt, Ht, Htt. done.
Qed.

Lemma playing_data_shape_witness :
  exists data,
    Player._preparePlayingData host_playing false
      (Some constants.PLAYING_PROGRESS_EVENT_PAUSE) false
      (fst (history matched_playback start)) world0
    = (Ok data, fst (history matched_playback start), world0)
    /\ data !! "PositionTicks" = Some (VNum (12 * 10000000))
    /\ data !! "RunTimeTicks" = Some (VNum (5400 * 10000000)).
Proof.
  destruct (playing_data_shape host_playing false
              (Some constants.PLAYING_PROGRESS_EVENT_PAUSE) false
              (fst (history matched_playback start)) world0)
    as (data & Hd & _ & _ & _ & _ & _ & Hplaying).
  destruct (Hplaying eq_refl) as (_ & _ & _ & _ & _ & _ & _ & _ & _ & Hticks).
  exists data. split; [exact Hd|]. by apply Hticks.
Defined.

(** ** The player: reports *)

(** X15. While no item is matched, [Process], the seeks, pause, resume,
    stop, end and error return normally, send nothing, log nothing and
    change nothing but the pause flag. *)
Theorem no_item_no_call (h : Host) (c : Callback) (p : Player.t) (w : World) :
  Player._item p = None ->
  progress_callback c = true \/ stop_callback c = true ->
  exists p' w',
    run h c p w = (Ok tt, p', w')
    /\ requests w' = requests w
    /\ logged w' = logged w
    /\ same_session p p'
    /\ Player._lastProgressReport p' = Player._lastProgressReport p
    /\ (Player._paused p' = Player._paused p
        \/ c = PlayBackPaused /\ Player._paused p' = true
        \/ c = PlayBackResumed /\ Player._paused p' = false).
Proof.
  intros Hitem Hc.
  assert (Hreport : forall event q,
            Player._item q = None ->
            Player._reportPlaybackProgress h event q w = (Ok tt, q, w)).
  { intros event q Hq.
    destruct (reportPlaybackProgress_cases h event q w)
      as [[_ ->]|[([? H] & _)|([? H] & _)]]; [done|congruence|congruence]. }
  assert (Hstop : forall failed, Player._stopPlayback h failed p w = (Ok tt, p, w)).
  { intros failed.
    destruct (stopPlayback_cases h failed p w)
      as [[_ ->]|[([? H] & _)|([? H] & _)]]; [done|congruence|congruence]. }
  assert (Hsame : same_session p p) by by unfold same_session.
  destruct c; try (by destruct Hc); unfold run.
  - rewrite Process_unfold.
    destruct (Player._lastProgressReport p) as [t|] eqn:Ht;
      [|exists p, w; split_and!; by eauto].
    destruct (Py.num_truthy t); [|exists p, w; split_and!; by eauto]. simpl.
    destruct (Player.Qlt_bool _ _).
    + exists p, (with_clock_read w). split_and!; by eauto.
    + destruct (reportPlaybackProgress_cases h
                  constants.PLAYING_PROGRESS_EVENT_TIME_UPDATE p (with_clock_read w))
        as [[_ ->]|[([? H] & _)|([? H] & _)]]; [|congruence|congruence].
      exists p, (with_clock_read w). split_and!; by eauto.
  - unfold Player.onPlayBackSeek. rewrite (Hreport _ p Hitem).
    exists p, w. split_and!; by eauto.
  - unfold Player.onPlayBackSeekChapter. rewrite (Hreport _ p Hitem).
    exists p, w. split_and!; by eauto.
  - unfold Player.onPlayBackPaused. method.
    rewrite (Hreport _ (Player.set_paused true p) Hitem).
    exists (Player.set_paused true p), w. split_and!; by eauto.
  - unfold Player.onPlayBackResumed. method.
    rewrite (Hreport _ (Player.set_paused false p) Hitem).
    exists (Player.set_paused false p), w. split_and!; by eauto.
  - unfold Player.onPlayBackStopped. rewrite Hstop. exists p, w. split_and!; by eauto.
  - unfold Player.onPlayBackEnded. rewrite Hstop. exists p, w. split_and!; by eauto.
  - unfold Player.onPlayBackError. rewrite Hstop. exists p, w. split_and!; by eauto.
Qed.

Lemma no_item_no_call_witness :
  exists p' w',
    run host_playing PlayBackPaused (fst (history unmatched_playback start))
      (snd (history unmatched_playback start))
    = (Ok tt, p', w')
    /\ requests w' = [].
Proof.
  destruct (no_item_no_call host_playing PlayBackPaused
              (fst (history unmatched_playback start))
              (snd (history unmatched_playback start)))
    as (p' & w' & Hrun & Hreq & _); [reflexivity|by left|].
  exists p', w'. split; [exact Hrun|]. by rewrite Hreq.
Defined.

(** X16. A stop with a matched item on a server that authenticates sends
    exactly one POST to the stopped endpoint; its payload carries the item
    id and the session id of the session and [Failed], which is true for
    [onPlayBackError] only. The player is reset, and any further stop is a
    no-op. *)
Theorem stop_report (h : Host) (c : Callback) (p : Player.t) (w : World)
    (item : ListItem) (server server' : Server.t) :
  stop_callback c = true ->
  Player._item p = Some item ->
  Server.__init__ h (Player._mediaProvider p) = Ok server ->
  authenticates server server' ->
  exists data,
    run h c p w
    = (Ok tt, reset_of p,
       with_request
         (Request.PostAsJson (Server.BuildSessionsPlayingStoppedUrl server)
            (api_headers server') data) w)
    /\ data !! "Failed" = Some (VBool (failed_of c))
    /\ data !! "ItemId" = Some (Player.value (Player._itemId p))
    /\ data !! "PlaySessionId" = Some (Player.value (Player._playSessionId p))
    /\ data !! "EventName" = None
    /\ forall h2 c2 w2,
         stop_callback c2 = true -> run h2 c2 (reset_of p) w2 = (Ok tt, reset_of p, w2).
Proof.
  intros Hc Hitem Hs Ha.
  assert (Hrun : run h c p w = Player._stopPlayback h (failed_of c) p w)
    by by destruct c.
  destruct (stopPlayback_cases h (failed_of c) p w)
    as [[Hn _]|[(_ & e & He & _)|(_ & server0 & data & w1 & Hs0 & Hd & Hp & Hstop)]];
    [congruence|congruence|].
  rewrite Hs in Hs0. injection Hs0 as <-.
  rewrite (authenticates_posted _ _ _ _ _ _ Ha Hp) in Hstop.
  destruct (preparePlayingData_full h true None (failed_of c) p w)
    as (data' & Hd' & Hid & Hps & _ & _ & Hf & _ & _ & _ & _ & Hev & _).
  rewrite Hd in Hd'. injection Hd' as <-.
  exists data. split_and!; [by rewrite Hrun|done..|].
  intros h2 c2 w2 Hc2.
  assert (Hrun2 : run h2 c2 (reset_of p) w2
                  = Player._stopPlayback h2 (failed_of c2) (reset_of p) w2)
    by by destruct c2.
  rewrite Hrun2.
  destruct (stopPlayback_cases h2 (failed_of c2) (reset_of p) w2)
    as [[_ ->]|[([? H] & _)|([? H] & _)]]; done.
Qed.

Lemma stop_report_witness :
  exists data,
    run host_playing PlayBackError (fst (history matched_playback start))
      (snd (history matched_playback start))
    = (Ok tt, reset_of (fst (history matched_playback start)),
       with_request
         (Request.PostAsJson "http://nas:8096/emby/Sessions/Playing/Stopped"
            (api_headers
               (Server.set_authenticator
                  {| Authenticator.session := Authenticator.grant granted;
                     Authenticator.grant := Authenticator.grant granted |}
                  server_living_room))
            data)
         (snd (history matched_playback start)))
    /\ data !! "Failed" = Some (VBool true)
    /\ data !! "ItemId" = Some (VStr "abc").
Proof.
  destruct (stop_report host_playing PlayBackError
              (fst (history matched_playback start))
              (snd (history matched_playback start))
              movie_abc (Server.set_authenticator granted server_living_room)
              (Server.set_authenticator
                 {| Authenticator.session := Authenticator.grant granted;
                    Authenticator.grant := Authenticator.grant granted |}
                 server_living_room))
    as (data & Hrun & Hf & Hid & _);
    [reflexivity|reflexivity|reflexivity|intros ?; reflexivity|].
  exists data. by split_and!.
Defined.

(** X17. Pause and resume set the pause flag whatever else happens, and
    with a matched item on a server that authenticates they send one
    progress report that carries the new flag and the event [Pause] or
    [Unpause], however little time has passed since the last report. *)
Theorem pause_resume_report (h : Host) (paused : bool) (p : Player.t) (w : World) :
  let c := if paused then PlayBackPaused else PlayBackResumed in
  let event := if paused then constants.PLAYING_PROGRESS_EVENT_PAUSE
               else constants.PLAYING_PROGRESS_EVENT_UNPAUSE in
  (forall r p' w', run h c p w = (r, p', w') -> Player._paused p' = paused)
  /\ (forall item server server',
        Player._item p = Some item ->
        Server.__init__ h (Player._mediaProvider p) = Ok server ->
        authenticates server server' ->
        exists data,
          run h c p w
          = (Ok tt,
             Player.set_lastProgressReport (Some (time_time h (clockReads w)))
               (Player.set_paused paused p),
             with_clock_read
               (with_request
                  (Request.PostAsJson (Server.BuildSessionsPlayingProgressUrl server)
                     (api_headers server') data) w))
          /\ data !! "IsPaused" = Some (VBool paused)
          /\ data !! "EventName" = Some (VStr event)
          /\ data !! "PlaySessionId" = Some (Player.value (Player._playSessionId p))).
Proof.
  intros c event.
  assert (Hrun : run h c p w
                 = Player._reportPlaybackProgress h event (Player.set_paused paused p) w)
    by by destruct paused.
  rewrite Hrun. split.
  - intros r p' w' H.
    by destruct (reportPlaybackProgress_state _ _ _ _ _ _ _ H) as [-> | [t ->]].
  - intros item server server' Hitem Hs Ha.
    destruct (reportPlaybackProgress_cases h event (Player.set_paused paused p) w)
      as [[Hn _]|[(_ & e & He & _)|(_ & server0 & data & w1 & Hs0 & Hd & Hp & _ & ->)]];
      [simpl in *; congruence|simpl in *; congruence|].
    simpl in Hs0. rewrite Hs in Hs0. injection Hs0 as <-.
    rewrite (authenticates_posted _ _ _ _ _ _ Ha Hp).
    destruct (preparePlayingData_full h false (Some event) false
                (Player.set_paused paused p) w)
      as (data' & Hd' & _ & Hps & _ & _ & _ & Hpa & _ & _ & _ & Hev & _).
    rewrite Hd in Hd'. injection Hd' as <-.
    exists data. split_and!; [done|done| |done].
    rewrite Hev. subst event. by destruct paused.
Qed.

Lemma pause_resume_report_witness :
  exists data,
    run host_playing PlayBackPaused (fst (history matched_playback start))
      (snd (history matched_playback start))
    = (Ok tt,
       Player.set_lastProgressReport (Some (clock 1))
         (Player.set_paused true (fst (history matched_playback start))),
       with_clock_read
         (with_request
            (Request.PostAsJson "http://nas:8096/emby/Sessions/Playing/Progress"
               (api_headers
                  (Server.set_authenticator
                     {| Authenticator.session := Authenticator.grant granted;
                        Authenticator.grant := Authenticator.grant granted |}
                     server_living_room))
               data)
            (snd (history matched_playback start))))
    /\ data !! "IsPaused" = Some (VBool true)
    /\ data !! "EventName" = Some (VStr "Pause").
Proof.
  destruct (pause_resume_report host_playing true
              (fst (history matched_playback start))
              (snd (history matched_playback start))) as [_ H].
  destruct (H movie_abc (Server.set_authenticator granted server_living_room)
              (Server.set_authenticator
                 {| Authenticator.session := Authenticator.grant granted;
                    Authenticator.grant := Authenticator.grant granted |}
                 server_living_room))
    as (data & Hrun & Hpa & Hev & _);
    [reflexivity|reflexivity|intros ?; reflexivity|].
  exists data. by split_and!.
Defined.

(** ** The player: matching *)

(** The loop stops at the first provider that has a matching item. *)
Lemma matchProviders_first (h : Host) (before rest : list MediaProvider)
    (mediaProvider : MediaProvider) (first : ListItem) (more : list ListItem)
    (p : Player.t) (w : World) :
  (forall m, In m before ->
     Player.matchingItems (Player._itemId p) (getImportedItemsByProvider h m) = []) ->
  Player.matchingItems (Player._itemId p) (getImportedItemsByProvider h mediaProvider)
    = first :: more ->
  Player.matchProviders h (before ++ mediaProvider :: rest) p w
  = (Ok tt,
     Player.set_mediaProvider (Some mediaProvider) (Player.set_item (Some first) p),
     match more with
     | [] => w
     | _ :: _ => with_log (multiple_items mediaProvider p) w
     end).
Proof.
  intros Hnone Hm. induction before as [|m before IH]; simpl; method.
  - rewrite Hm. by destruct more.
  - rewrite (Hnone m (or_introl eq_refl)). apply IH.
    intros m' Hin. apply Hnone. by right.
Qed.

(** X18. The match is first-match-wins: when the providers before one in
    the registry order have no matching item and that one has some, the
    loop takes that provider and the first of its matching items, looks at
    no later provider, and logs one warning exactly when more than one
    item matched. *)
Theorem first_match_wins (h : Host) (before rest : list MediaProvider)
    (mediaProvider : MediaProvider) (first : ListItem) (more : list ListItem)
    (p : Player.t) (w : World) :
  (forall m, In m before ->
     Player.matchingItems (Player._itemId p) (getImportedItemsByProvider h m) = []) ->
  Player.matchingItems (Player._itemId p) (getImportedItemsByProvider h mediaProvider)
    = first :: more ->
  exists p' w',
    Player.matchProviders h (before ++ mediaProvider :: rest) p w = (Ok tt, p', w')
    /\ Player._item p' = Some first
    /\ Player._mediaProvider p' = Some mediaProvider
    /\ requests w' = requests w
    /\ (more = [] -> w' = w)
    /\ (more <> [] ->
        w' = with_log (multiple_items mediaProvider p) w
        /\ level (multiple_items mediaProvider p) = Some LOGWARNING).
Proof.
  intros Hnone Hm. rewrite (matchProviders_first h before rest _ _ _ p w Hnone Hm).
  do 2 eexists. split; [reflexivity|]. simpl.
  split_and!; try done; by destruct more.
Qed.

Lemma first_match_wins_witness :
  exists p' w',
    Player.matchProviders host_twice [provider_unnamed; provider_nas; provider_unnamed]
      (Player.set_itemId (Some "abc") (Player.__init__ None)) world0
    = (Ok tt, p', w')
    /\ Player._item p' = Some movie_abc
    /\ Player._mediaProvider p' = Some provider_nas
    /\ length (logged w') = 1.
Proof.
  destruct (first_match_wins host_twice [provider_unnamed] [provider_unnamed] provider_nas
              movie_abc [movie_abc_copy]
              (Player.set_itemId (Some "abc") (Player.__init__ None)) world0)
    as (p' & w' & Hrun & Hitem & Hmp & _ & _ & Hlog).
  - intros m [<-|[]]. reflexivity.
  - reflexivity.
  - exists p', w'. split_and!; [exact Hrun|done|done|].
    destruct Hlog as [-> _]; done.
Defined.

(** The announcement of a session on a server that authenticates. *)
Lemma announce_granted (h : Host) (q : Player.t) (w1 : World)
    (server server' : Server.t) (data : gmap string Value) :
  let q' := Player.set_playSessionId (Some (Py.remove "-" (uuid4 h))) q in
  Server.__init__ h (Player._mediaProvider q) = Ok server ->
  authenticates server server' ->
  Player._preparePlayingData h false None false q' w1 = (Ok data, q', w1) ->
  announce h q w1
  = (Ok tt,
     Player.set_lastProgressReport (Some (time_time h (clockReads w1))) q',
     with_clock_read
       (with_request
          (Request.PostAsJson (Server.BuildSessionsPlayingUrl server)
             (api_headers server') data) w1)).
Proof.
  intros q' Hs Ha Hd. unfold announce. method. fold q'. rewrite Hd.
  change (Player._mediaProvider q') with (Player._mediaProvider q). rewrite Hs.
  destruct (on_ApiPost_posted h server (Server.BuildSessionsPlayingUrl server)
              data q' w1) as (r & w2 & Hp & Hposted & _).
  cbv zeta. rewrite Hp.
  by rewrite (authenticates_posted _ _ _ _ _ _ Ha Hposted).
Qed.

(** X19. A playback start that matches, on a server that authenticates,
    sends exactly one POST to the sessions-playing endpoint. Its payload
    carries the unique id of the playing item and the fresh session id,
    the uuid without its dashes, and no event name. Afterwards the item,
    the item id, the provider and the session id are set and the
    timestamp of the last report is the current time. *)
Theorem start_session (h : Host) (p : Player.t) (w : World)
    (videoInfoTag : InfoTagVideo) (id : string)
    (before rest : list MediaProvider) (mediaProvider : MediaProvider)
    (first : ListItem) (more : list ListItem) (server server' : Server.t) :
  Py.opt_str_truthy (Player._file p) = true ->
  isPlayingVideo h = true ->
  playingVideoInfoTag h = Some videoInfoTag ->
  getUniqueID videoInfoTag constants.EMBY_PROTOCOL = id ->
  id <> EmptyString ->
  Py.values (Player._providers p) = (before ++ mediaProvider :: rest)%list ->
  (forall m, In m before ->
     Player.matchingItems (Some id) (getImportedItemsByProvider h m) = []) ->
  Player.matchingItems (Some id) (getImportedItemsByProvider h mediaProvider)
    = first :: more ->
  Server.__init__ h (Some mediaProvider) = Ok server ->
  authenticates server server' ->
  let session := Py.remove "-" (uuid4 h) in
  exists data p' w1,
    run h AVStarted p w
    = (Ok tt, p',
       with_clock_read
         (with_request
            (Request.PostAsJson (Server.BuildSessionsPlayingUrl server)
               (api_headers server') data) w1))
    /\ requests w1 = requests w
    /\ data !! "ItemId" = Some (VStr id)
    /\ data !! "PlaySessionId" = Some (VStr session)
    /\ data !! "IsPaused" = Some (VBool (Player._paused p))
    /\ data !! "EventName" = None
    /\ Player._item p' = Some first
    /\ Player._itemId p' = Some id
    /\ Player._mediaProvider p' = Some mediaProvider
    /\ Player._playSessionId p' = Some session
    /\ Player._lastProgressReport p' = Some (time_time h (clockReads w)).
Proof.
  intros Hf Hv Ht Hid Hne Hreg Hnone Hm Hs Ha session.
  unfold run, Player.onAVStarted. rewrite startPlayback_unfold.
  rewrite Hf, Hv, Ht, Hid. simpl.
  apply str_truthy_true in Hne. rewrite Hne. simpl. rewrite Hreg.
  rewrite (matchProviders_first h before rest mediaProvider first more
             (Player.set_itemId (Some id) p) w Hnone Hm).
  simpl.
  set (q := Player.set_mediaProvider (Some mediaProvider)
              (Player.set_item (Some first) (Player.set_itemId (Some id) p))).
  set (w1 := match more with
             | [] => w
             | _ :: _ => with_log (multiple_items mediaProvider
                                     (Player.set_itemId (Some id) p)) w
             end).
  assert (Hw1 : requests w1 = requests w /\ clockReads w1 = clockReads w)
    by by subst w1; destruct more.
  destruct (preparePlayingData_full h false None false
              (Player.set_playSessionId (Some session) q) w1)
    as (data & Hd & Hi & Hps & _ & _ & _ & Hpa & _ & _ & _ & Hev & _).
  rewrite (announce_granted h q w1 server server' data Hs Ha Hd).
  destruct Hw1 as [Hr Hc]. rewrite Hc.
  exists data. eexists. exists w1. split; [reflexivity|]. by split_and!.
Qed.

Lemma start_session_witness :
  exists data p' w1,
    run host_twice AVStarted (fst ready) (snd ready)
    = (Ok tt, p',
       with_clock_read
         (with_request
            (Request.PostAsJson "http://nas:8096/emby/Sessions/Playing"
               (api_headers
                  (Server.set_authenticator
                     {| Authenticator.session := Authenticator.grant granted;
                        Authenticator.grant := Authenticator.grant granted |}
                     server_living_room))
               data) w1))
    /\ data !! "PlaySessionId" = Some (VStr "6f1c0a529d3e4b7a8c215e0f4a9b7d63")
    /\ Player._item p' = Some movie_abc
    /\ Player._lastProgressReport p' = Some (clock 0).
Proof.
  destruct (start_session host_twice (fst ready) (snd ready) tag_abc "abc"
              [] [] provider_nas movie_abc [movie_abc_copy]
              (Server.set_authenticator granted server_living_room)
              (Server.set_authenticator
                 {| Authenticator.session := Authenticator.grant granted;
                    Authenticator.grant := Authenticator.grant granted |}
                 server_living_room))
    as (data & p' & w1 & Hrun & _ & _ & Hps & _ & _ & Hitem & _ & _ & _ & Hlast);
    [reflexivity|reflexivity|reflexivity|reflexivity|done|reflexivity
    |by intros ? []|reflexivity|reflexivity|intros ?; reflexivity|].
  exists data, p', w1. by split_and!.
Defined.

